(** * Masonry grid controller and its scroll-container subscription

    A shallow embedding of the gestalt Masonry component (class [Masonry]:
    constructor, [getDerivedStateFromProps], [componentDidUpdate],
    [fetchMore], [measureContainer], [reflow], [renderMasonryComponent] and
    [render]) and of [Masonry/ScrollContainer.ts], followed by the
    properties the specification states about them.

    Conventions.
    - The numbers a component holds (pixel values, the buffer factor) are
      finite doubles, kept as the rationals they denote ([Q]); a number is
      truthy when it is not zero.  The arithmetic of the virtualization
      window, whose result decides whether an item is rendered, is done as
      the code does it, in IEEE 754 binary64 with every operation rounded
      (module [Double], over the standard library's [spec_float]), so that
      overflow to an infinity and NaN are part of the model.  The sums
      taken elsewhere (grid height, container offset) are kept exact; a
      sum of two doubles that enters the window arithmetic does so as
      the double it rounds to, which is what the code has added up.
    - Objects (items, DOM elements, stores) are known by identity, a
      [positive].  Stores are mutable objects living in a heap, so that two
      references to one store see each other's writes.
    - React state updates are explicit state passing; calls that leave the
      component ([forceUpdate], [loadItems], listener registration) are
      recorded in a log. *)

From Stdlib Require Import QArith Qminmax Qround Lqa SpecFloat.
From stdpp Require Import base option list gmap.

Set Default Proof Using "Type".
Set Warnings "-clear-no-such-hyp".

(** ** JavaScript number arithmetic *)

Module Double.

(** binary64: 53 bits of precision, exponents below 1024. *)
Definition prec : Z := 53.
Definition emax : Z := 1024.

(** The quotient of two positive integers, rounded to the nearest double,
    ties to even, with sign [s]: the division of [SFdiv], on integers
    of any size. *)
Definition quotient (s : bool) (n d : positive) : spec_float :=
  let '(m, e, l) := SFdiv_core_binary prec emax (Zpos n) 0 (Zpos d) 0 in
  binary_round_aux prec emax s m e l.

(** The double a rational stands for: the rational itself when it is a
    double, the nearest double otherwise (as for a decimal literal), an
    infinity beyond the range. *)
Definition ofQ (q : Q) : spec_float :=
  match Qnum q with
  | Z0 => S754_zero false
  | Zpos n => quotient false n (Qden q)
  | Zneg n => quotient true n (Qden q)
  end.

(** The rational a finite double denotes, and whether a rational is a
    double. *)
Definition toQ (x : spec_float) : option Q :=
  match x with
  | S754_zero _ => Some 0%Q
  | S754_finite s m e =>
      Some (inject_Z (if s then Zneg m else Zpos m) * Qpower 2 e)%Q
  | _ => None
  end.

Definition isDouble (q : Q) : bool :=
  match toQ (ofQ q) with
  | Some q' => Qeq_bool q' q
  | None => false
  end.

(** [a + b], [a - b], [a * b], [a < b], [a > b] on numbers. *)
Definition add : spec_float → spec_float → spec_float := SFadd prec emax.
Definition sub : spec_float → spec_float → spec_float := SFsub prec emax.
Definition mul : spec_float → spec_float → spec_float := SFmul prec emax.
Definition ltb : spec_float → spec_float → bool := SFltb.
Definition gtb (a b : spec_float) : bool := SFltb b a.

End Double.

(** ** ScrollContainer.ts *)

Module ScrollContainer.

(** [HTMLElement | Window], by identity. *)
Definition element := positive.

(** [Props.scrollContainer]: an element, null/undefined, or an accessor.
    For an accessor the record holds what the call returns at the time
    the lifecycle method runs. *)
Inductive scrollContainerProp :=
| Direct (e : option element)
| Accessor (result : option element).

(** [getScrollContainer]:
    [typeof scrollContainer === 'function' ? scrollContainer() : scrollContainer]. *)
Definition getScrollContainer (p : scrollContainerProp) : option element :=
  match p with
  | Accessor result => result
  | Direct e => e
  end.

(** Calls made on DOM elements with [this.handleScroll], in order. *)
Inductive domCall :=
| AddEventListener (e : element)
| RemoveEventListener (e : element).

(** The component field [this.scrollContainer] together with the part of
    the DOM it acts on: the elements on which [handleScroll] is currently
    registered for 'scroll' (the DOM keeps one registration per
    element/type/callback), and the calls made so far. *)
Record t := mk {
  scrollContainer : option element;
  subscribed : gset element;
  calls : list domCall
}.

Definition initial : t :=
  {| scrollContainer := None; subscribed := ∅; calls := [] |}.

Definition addEventListener (e : element) (s : t) : t :=
  {| scrollContainer := scrollContainer s;
     subscribed := {[ e ]} ∪ subscribed s;
     calls := calls s ++ [AddEventListener e] |}.

Definition removeEventListener (e : element) (s : t) : t :=
  {| scrollContainer := scrollContainer s;
     subscribed := subscribed s ∖ {[ e ]};
     calls := calls s ++ [RemoveEventListener e] |}.

Definition setScrollContainer (e : element) (s : t) : t :=
  {| scrollContainer := Some e;
     subscribed := subscribed s;
     calls := calls s |}.

(** [updateScrollContainer(scrollContainer)] *)
Definition updateScrollContainer (e : element) (s : t) : t :=
  let s1 :=
    match scrollContainer s with
    | Some old => removeEventListener old s
    | None => s
    end in
  addEventListener e (setScrollContainer e s1).

(** [componentDidMount()] *)
Definition componentDidMount (p : scrollContainerProp) (s : t) : t :=
  match getScrollContainer p with
  | Some e => updateScrollContainer e s
  | None => s
  end.

(** [componentDidUpdate()]:
    [nextScrollContainer && nextScrollContainer !== this.scrollContainer]. *)
Definition componentDidUpdate (p : scrollContainerProp) (s : t) : t :=
  match getScrollContainer p with
  | Some next =>
      if decide (Some next = scrollContainer s) then s
      else updateScrollContainer next s
  | None => s
  end.

(** [componentWillUnmount()] *)
Definition componentWillUnmount (s : t) : t :=
  match scrollContainer s with
  | Some e => removeEventListener e s
  | None => s
  end.

Inductive lifecycle :=
| Mount (p : scrollContainerProp)
| Update (p : scrollContainerProp)
| Unmount.

Definition step (s : t) (ev : lifecycle) : t :=
  match ev with
  | Mount p => componentDidMount p s
  | Update p => componentDidUpdate p s
  | Unmount => componentWillUnmount s
  end.

Definition run (s : t) (evs : list lifecycle) : t := foldl step s evs.

(** The handler is registered nowhere, or exactly on the tracked element. *)
Definition single_subscription (s : t) : Prop :=
  subscribed s = ∅ ∨
  ∃ c, scrollContainer s = Some c ∧ subscribed s = {[ c ]}.

End ScrollContainer.

(** ** Masonry: data *)

Module Masonry.

(** An element of the [items] array.  Items are opaque objects compared by
    reference; the code also guards against falsy entries ([!!item],
    [items.filter(Boolean)]) and tells [undefined] apart
    ([state.items[i] === undefined]). *)
Inductive item :=
| Undefined
| Null
| Obj (id : positive).

#[global] Instance item_eq_dec : EqDecision item.
Proof. solve_decision. Defined.

#[global] Instance item_countable : Countable item.
Proof.
  refine (inj_countable'
    (λ it, match it with
           | Undefined => inl false
           | Null => inl true
           | Obj id => inr id
           end)
    (λ c, match c with
          | inl false => Undefined
          | inl true => Null
          | inr id => Obj id
          end) _).
  by intros [].
Defined.

(** [!!item] *)
Definition truthy (it : item) : bool :=
  match it with
  | Obj _ => true
  | _ => false
  end.

(** [items[i]]: reading past the end gives [undefined]. *)
Definition at_index (l : list item) (i : nat) : item :=
  default Undefined (l !! i).

(** Truthiness of a number. *)
Definition truthy_num (q : Q) : bool := negb (Qeq_bool q 0).

(** [a < b] and [a > b] on numbers. *)
Definition Qltb (a b : Q) : bool := negb (Qle_bool b a).
Definition Qgtb (a b : Q) : bool := Qltb b a.

(** [Masonry/types]: [Position], [Layout], [Align]. *)
Record Position := mkPosition {
  top : Q;
  left : Q;
  width : Q;
  height : Q
}.

Inductive Layout :=
| basic
| basicCentered
| flexible
| serverRenderedFlexible
| uniformRow.

Inductive Align :=
| align_start
| align_center
| align_end.

(** [ColumnSpanConfig]: a fixed span or a responsive descriptor by grid
    size; [ResponsiveModuleConfig]: a number, a min/max object, or
    undefined; [ModulePositioningConfig]: the batch size is the only field
    [render] reads. *)
Inductive ColumnSpanConfig :=
| SpanNumber (n : nat)
| SpanResponsive (sm md lg xl : nat).

Inductive ResponsiveModuleConfig :=
| ResponsiveNumber (n : nat)
| ResponsiveRange (min max : nat)
| ResponsiveUndefined.

Record ModulePositioningConfig := mkModulePositioningConfig {
  itemsBatchSize : nat
}.

(** [_getColumnSpanConfig(item) !== 1] *)
Definition span_is_not_one (c : ColumnSpanConfig) : bool :=
  match c with
  | SpanNumber n => negb (Nat.eqb n 1)
  | SpanResponsive _ _ _ _ => true
  end.

(** [!!responsiveModuleConfigForSecondItem] *)
Definition truthy_responsive (c : ResponsiveModuleConfig) : bool :=
  match c with
  | ResponsiveNumber n => negb (Nat.eqb n 0)
  | ResponsiveRange _ _ => true
  | ResponsiveUndefined => false
  end.

(** The [MeasurementStore] class behind the [Cache<T, V>] interface is
    imported ([Masonry/MeasurementStore], [Masonry/Cache]) but not part of
    the sources.  The contents of a store are a finite map keyed by item
    identity. *)
Module Cache.

(** Modelled from the spec: [has(item)] of the missing [MeasurementStore],
    "identity-keyed mappings (Item -> value) with operations has(item),
    get(item), set(item, value), reset() (clear all entries)". *)
Definition has {V} (m : gmap item V) (it : item) : bool :=
  bool_decide (is_Some (m !! it)).

(** Modelled from the spec: [get(item)] of the missing [MeasurementStore];
    [None] is the [undefined] of an item that has no entry. *)
Definition get {V} (m : gmap item V) (it : item) : option V := m !! it.

(** Modelled from the spec: [set(item, value)] of the missing
    [MeasurementStore]; the last write wins. *)
Definition set {V} (it : item) (v : V) (m : gmap item V) : gmap item V :=
  <[ it := v ]> m.

(** Modelled from the spec: [reset()] of the missing [MeasurementStore],
    "clear all entries". *)
Definition reset {V} (m : gmap item V) : gmap item V := ∅.

End Cache.

(** Stores are shared mutable objects: the component, its props and the
    caller may hold the same store.  A reference names a cell of the heap;
    every operation goes through the heap. *)
Definition ref := positive.

Record Heap := mkHeap {
  measurements : gmap ref (gmap item Q);
  positions : gmap ref (gmap item Position)
}.

Definition measurementsAt (h : Heap) (r : ref) : gmap item Q :=
  default ∅ (measurements h !! r).

Definition positionsAt (h : Heap) (r : ref) : gmap item Position :=
  default ∅ (positions h !! r).

Definition writeMeasurements (r : ref) (m : gmap item Q) (h : Heap) : Heap :=
  {| measurements := <[ r := m ]> (measurements h); positions := positions h |}.

Definition writePositions (r : ref) (m : gmap item Position) (h : Heap) : Heap :=
  {| measurements := measurements h; positions := <[ r := m ]> (positions h) |}.

(** [store.reset()] on a measurement store, on a position store. *)
Definition resetMeasurements (r : ref) (h : Heap) : Heap :=
  writeMeasurements r (Cache.reset (measurementsAt h r)) h.

Definition resetPositions (r : ref) (h : Heap) : Heap :=
  writePositions r (Cache.reset (positionsAt h r)) h.

(** [Masonry.createMeasurementStore()]: a new, empty store. *)
Definition createMeasurementStore (h : Heap) : ref * Heap :=
  let r := fresh (dom (measurements h)) in
  (r, writeMeasurements r ∅ h).

Definition createPositionStore (h : Heap) : ref * Heap :=
  let r := fresh (dom (positions h)) in
  (r, writePositions r ∅ h).

(** [Props<T>], without [renderItem] and the diagnostic
    [_logTwoColWhitespace] callback, which the host supplies and which do
    not enter any computation below.  [scrollContainer] and [loadItems]
    are functions: only their presence, and for [scrollContainer] the
    element it returns, matter here.  [virtualBufferFactor] and [minCols]
    always have a value (defaultProps). *)
Record Props := mkProps {
  align : Align;
  columnWidth : option Q;
  gutterWidth : option Q;
  items : list item;
  layout : Layout;
  loadItems : bool;
  measurementStore : option ref;
  minCols : nat;
  positionStore : option ref;
  scrollContainer : option ScrollContainer.element;
  virtualBoundsBottom : option Q;
  virtualBoundsTop : option Q;
  virtualBufferFactor : Q;
  virtualize : bool;
  _getColumnSpanConfig : option (item → ColumnSpanConfig);
  _getResponsiveModuleConfigForSecondItem : option (item → ResponsiveModuleConfig);
  _dynamicHeights : bool;
  _dynamicHeightsV2Experiment : bool;
  _getModulePositioningConfig : option (nat → nat → option ModulePositioningConfig);
  _multiColPositionAlgoV2 : bool
}.

(** [Masonry.defaultProps], for a given [items] array. *)
Definition defaultProps (its : list item) : Props :=
  {| align := align_center;
     columnWidth := Some 236%Q;
     gutterWidth := None;
     items := its;
     layout := basic;
     loadItems := true;
     measurementStore := None;
     minCols := 3;
     positionStore := None;
     scrollContainer := None;
     virtualBoundsBottom := None;
     virtualBoundsTop := None;
     virtualBufferFactor := 0.7%Q;
     virtualize := false;
     _getColumnSpanConfig := None;
     _getResponsiveModuleConfigForSecondItem := None;
     _dynamicHeights := false;
     _dynamicHeightsV2Experiment := false;
     _getModulePositioningConfig := None;
     _multiColPositionAlgoV2 := false |}.

(** [State<T>]; [s_width = None] stands for null/undefined. *)
Record State := mkState {
  s_gutter : Q;
  s_hasPendingMeasurements : bool;
  s_isFetching : bool;
  s_items : list item;
  s_measurementStore : ref;
  s_scrollTop : Q;
  s_width : option Q
}.

(** The instance: [this.props], [this.state] and the instance fields.
    [i_scrollContainer] is the ref to the mounted ScrollContainer
    component, [i_gridWrapper] the ref to the wrapper element. *)
Record Instance := mkInstance {
  props : Props;
  state : State;
  containerHeight : Q;
  containerOffset : Q;
  i_gridWrapper : option ScrollContainer.element;
  i_positionStore : ref;
  i_scrollContainer : option ScrollContainer.t;
  maxHeight : Q
}.

(** ** Masonry: imported modules *)

(** The arguments [render] passes to [getLayoutAlgorithm], stores apart
    (their contents are passed next to this record). *)
Record LayoutArgs := mkLayoutArgs {
  la_align : Align;
  la_columnWidth : option Q;
  la_gutter : Q;
  la_items : list item;
  la_layout : Layout;
  la_minCols : nat;
  la_width : option Q;
  la_getColumnSpanConfig : option (item → ColumnSpanConfig);
  la_getResponsiveModuleConfigForSecondItem : option (item → ResponsiveModuleConfig);
  la_getModulePositioningConfig : option (nat → nat → option ModulePositioningConfig);
  la_multiColPositionAlgoV2 : bool
}.

(** What [Masonry] imports from modules that are not part of the sources:
    [Masonry/getColumnCount], [Masonry/multiColumnLayout] and
    [Masonry/getLayoutAlgorithm].  They are parameters of the development.
    The function returned by [getLayoutAlgorithm] reads the measurement
    store and may read and write the position store, so it takes the
    contents of both and returns the positions with the new contents of
    the position store. *)
Class Imports := mkImports {
  DEFAULT_LAYOUT_DEFAULT_GUTTER : Q;
  FULL_WIDTH_DEFAULT_GUTTER : Q;
  MULTI_COL_ITEMS_MEASURE_BATCH_SIZE : nat;
  (* getColumnCount({ gutter, columnWidth, width, minCols, layout }) *)
  getColumnCount : Q → option Q → Q → nat → Layout → nat;
  (* calculateActualColumnSpan({ columnCount, firstItem, isFlexibleWidthItem,
       item, responsiveModuleConfigForSecondItem, _getColumnSpanConfig }) *)
  calculateActualColumnSpan :
    nat → item → bool → item → ResponsiveModuleConfig →
    (item → ColumnSpanConfig) → nat;
  getLayoutAlgorithm :
    LayoutArgs → gmap item Q → gmap item Position →
    list item → list Position * gmap item Position
}.

(** What the component reads from the DOM ([Masonry/scrollUtils],
    [clientWidth], [getBoundingClientRect]). *)
Record Dom := mkDom {
  getElementHeight : ScrollContainer.element → Q;
  getRelativeScrollTop : ScrollContainer.element → Q;
  getScrollPos : ScrollContainer.element → Q;
  boundingClientRectTop : ScrollContainer.element → Q;
  clientWidth : ScrollContainer.element → Q
}.

(** Calls that leave the component. *)
Inductive Effect :=
| CallForceUpdate
| CallLoadItems (from : nat)
| CallRequestAnimationFrame (hasPendingMeasurements : bool)
| CallMeasureContainerAsync.

(** ** Masonry: state updates *)

Definition set_isFetching (b : bool) (s : State) : State :=
  {| s_gutter := s_gutter s;
     s_hasPendingMeasurements := s_hasPendingMeasurements s;
     s_isFetching := b;
     s_items := s_items s;
     s_measurementStore := s_measurementStore s;
     s_scrollTop := s_scrollTop s;
     s_width := s_width s |}.

Definition set_hasPendingMeasurements (b : bool) (s : State) : State :=
  {| s_gutter := s_gutter s;
     s_hasPendingMeasurements := b;
     s_isFetching := s_isFetching s;
     s_items := s_items s;
     s_measurementStore := s_measurementStore s;
     s_scrollTop := s_scrollTop s;
     s_width := s_width s |}.

Definition set_items (its : list item) (s : State) : State :=
  {| s_gutter := s_gutter s;
     s_hasPendingMeasurements := s_hasPendingMeasurements s;
     s_isFetching := s_isFetching s;
     s_items := its;
     s_measurementStore := s_measurementStore s;
     s_scrollTop := s_scrollTop s;
     s_width := s_width s |}.

Definition set_scrollTop (t : Q) (s : State) : State :=
  {| s_gutter := s_gutter s;
     s_hasPendingMeasurements := s_hasPendingMeasurements s;
     s_isFetching := s_isFetching s;
     s_items := s_items s;
     s_measurementStore := s_measurementStore s;
     s_scrollTop := t;
     s_width := s_width s |}.

Definition set_width (w : option Q) (s : State) : State :=
  {| s_gutter := s_gutter s;
     s_hasPendingMeasurements := s_hasPendingMeasurements s;
     s_isFetching := s_isFetching s;
     s_items := s_items s;
     s_measurementStore := s_measurementStore s;
     s_scrollTop := s_scrollTop s;
     s_width := w |}.

Definition with_state (st : State) (this : Instance) : Instance :=
  {| props := props this;
     state := st;
     containerHeight := containerHeight this;
     containerOffset := containerOffset this;
     i_gridWrapper := i_gridWrapper this;
     i_positionStore := i_positionStore this;
     i_scrollContainer := i_scrollContainer this;
     maxHeight := maxHeight this |}.

Definition with_props (p : Props) (this : Instance) : Instance :=
  {| props := p;
     state := state this;
     containerHeight := containerHeight this;
     containerOffset := containerOffset this;
     i_gridWrapper := i_gridWrapper this;
     i_positionStore := i_positionStore this;
     i_scrollContainer := i_scrollContainer this;
     maxHeight := maxHeight this |}.

Definition with_maxHeight (h : Q) (this : Instance) : Instance :=
  {| props := props this;
     state := state this;
     containerHeight := containerHeight this;
     containerOffset := containerOffset this;
     i_gridWrapper := i_gridWrapper this;
     i_positionStore := i_positionStore this;
     i_scrollContainer := i_scrollContainer this;
     maxHeight := h |}.

Definition with_container (ch co : Q) (this : Instance) : Instance :=
  {| props := props this;
     state := state this;
     containerHeight := ch;
     containerOffset := co;
     i_gridWrapper := i_gridWrapper this;
     i_positionStore := i_positionStore this;
     i_scrollContainer := i_scrollContainer this;
     maxHeight := maxHeight this |}.

(** The object returned by [getDerivedStateFromProps];
    [d_isFetching = None] when the key is absent. *)
Record DerivedState := mkDerivedState {
  d_hasPendingMeasurements : bool;
  d_isFetching : option bool;
  d_items : list item
}.

(** The [for] loop of [getDerivedStateFromProps], from index [i] on, with
    [rest] the elements [items[i..]].  Both [return]s of the loop body
    give the same object, so the loop is a test. *)
Fixpoint itemsChangedFrom (its stateItems : list item) (i : nat)
    (rest : list item) : bool :=
  match rest with
  | [] => false
  | it :: rest' =>
      if bool_decide (at_index stateItems i = Undefined) then true
      else if bool_decide (it ≠ at_index stateItems i)
              || (length its <? length stateItems)%nat then true
      else itemsChangedFrom its stateItems (S i) rest'
  end.

(** [static getDerivedStateFromProps(props, state)], with the contents
    [ms] of [state.measurementStore]. *)
Definition getDerivedStateFromProps (p : Props) (s : State)
    (ms : gmap item Q) : option DerivedState :=
  let hasPendingMeasurements :=
    existsb (λ it, negb (Cache.has ms it)) (items p) in
  if itemsChangedFrom (items p) (s_items s) 0 (items p) then
    Some {| d_hasPendingMeasurements := hasPendingMeasurements;
            d_isFetching := Some false;
            d_items := items p |}
  else if (length (items p) =? 0)%nat && (0 <? length (s_items s))%nat then
    Some {| d_hasPendingMeasurements := hasPendingMeasurements;
            d_isFetching := Some false;
            d_items := items p |}
  else if xorb hasPendingMeasurements (s_hasPendingMeasurements s) then
    Some {| d_hasPendingMeasurements := hasPendingMeasurements;
            d_isFetching := None;
            d_items := items p |}
  else None.

(** React merges the returned object into the state. *)
Definition mergeDerivedState (d : option DerivedState) (s : State) : State :=
  match d with
  | None => s
  | Some d =>
      let s1 := set_items (d_items d)
                  (set_hasPendingMeasurements (d_hasPendingMeasurements d) s) in
      match d_isFetching d with
      | Some b => set_isFetching b s1
      | None => s1
      end
  end.

(** ** Masonry: the component *)

(** The component in its surroundings: the instance, the heap holding the
    stores, and the calls made so far. *)
Record Sys := mkSys {
  this : Instance;
  heap : Heap;
  effects : list Effect
}.

Definition with_this (i : Instance) (sys : Sys) : Sys :=
  {| this := i; heap := heap sys; effects := effects sys |}.

Definition with_heap (h : Heap) (sys : Sys) : Sys :=
  {| this := this sys; heap := h; effects := effects sys |}.

Definition emit (e : Effect) (sys : Sys) : Sys :=
  {| this := this sys; heap := heap sys; effects := effects sys ++ [e] |}.

(** Before every render React calls [getDerivedStateFromProps] with the
    current props and state and merges what it returns into the state. *)
Definition deriveState (sys : Sys) : Sys :=
  let i := this sys in
  let ms := measurementsAt (heap sys) (s_measurementStore (state i)) in
  with_this
    (with_state
       (mergeDerivedState (getDerivedStateFromProps (props i) (state i) ms)
          (state i)) i)
    sys.

(** [this.setState(f)]: the state is replaced and the component
    re-renders. *)
Definition setState (f : State → State) (sys : Sys) : Sys :=
  deriveState (with_this (with_state (f (state (this sys))) (this sys)) sys).

(** [this.forceUpdate()] *)
Definition forceUpdate (sys : Sys) : Sys :=
  deriveState (emit CallForceUpdate sys).

(** [this.scrollContainer.getScrollContainerRef()], when
    [this.scrollContainer] is set. *)
Definition scrollContainerRef (i : Instance) : option ScrollContainer.element :=
  sc ← i_scrollContainer i; ScrollContainer.scrollContainer sc.

(** [measureContainer()] *)
Definition measureContainer (dom : Dom) (i : Instance) : Instance :=
  match scrollContainerRef i with
  | Some scrollContainerRef =>
      let ch := getElementHeight dom scrollContainerRef in
      match i_gridWrapper i with
      | Some el =>
          with_container ch
            (boundingClientRectTop dom el
             + getRelativeScrollTop dom scrollContainerRef) i
      | None => with_container ch (containerOffset i) i
      end
  | None => i
  end.

(** [fetchMore] *)
Definition fetchMore (sys : Sys) : Sys :=
  if loadItems (props (this sys)) then
    emit (CallLoadItems (length (items (props (this sys)))))
      (setState (set_isFetching true) sys)
  else sys.

(** [handleResize], once the debounce delay has passed. *)
Definition handleResize (dom : Dom) (sys : Sys) : Sys :=
  match i_gridWrapper (this sys) with
  | Some el => setState (set_width (Some (clientWidth dom el))) sys
  | None => sys
  end.

(** [updateScrollPosition], when the throttle lets it run. *)
Definition updateScrollPosition (dom : Dom) (sys : Sys) : Sys :=
  match scrollContainerRef (this sys) with
  | Some scrollContainer =>
      setState (set_scrollTop (getScrollPos dom scrollContainer)) sys
  | None => sys
  end.

(** [componentDidMount()], the window listener apart. *)
Definition componentDidMount (dom : Dom) (sys : Sys) : Sys :=
  let sys1 := with_this (measureContainer dom (this sys)) sys in
  let scrollTop :=
    match scrollContainerRef (this sys1) with
    | Some scrollContainer => getScrollPos dom scrollContainer
    | None => s_scrollTop (state (this sys1))
    end in
  setState
    (λ prevState,
       set_width
         (match i_gridWrapper (this sys1) with
          | Some el => Some (clientWidth dom el)
          | None => s_width prevState
          end)
         (set_scrollTop scrollTop prevState))
    sys1.

(** [prevState.width != null && this.state.width !== prevState.width] *)
Definition widthChanged (prevWidth curWidth : option Q) : bool :=
  match prevWidth with
  | None => false
  | Some w0 =>
      match curWidth with
      | Some w1 => negb (Qeq_bool w1 w0)
      | None => true
      end
  end.

(** [componentDidUpdate(prevProps, prevState)].  The animation-frame
    callback is recorded with the value it will set. *)
Definition componentDidUpdate (prevState : State) (sys : Sys) : Sys :=
  let i := this sys in
  let sys1 := emit CallMeasureContainerAsync sys in
  let sys2 :=
    if widthChanged (s_width prevState) (s_width (state i)) then
      with_heap
        (resetPositions (i_positionStore i)
           (resetMeasurements (s_measurementStore (state i)) (heap sys1)))
        sys1
    else sys1 in
  let ms := measurementsAt (heap sys2) (s_measurementStore (state i)) in
  let hasPendingMeasurements :=
    existsb (λ it, truthy it && negb (Cache.has ms it)) (items (props i)) in
  if hasPendingMeasurements
     || xorb hasPendingMeasurements (s_hasPendingMeasurements (state i))
     || negb (bool_decide (is_Some (s_width prevState)))
  then emit (CallRequestAnimationFrame hasPendingMeasurements) sys2
  else sys2.

(** [reflow()] *)
Definition reflow (dom : Dom) (sys : Sys) : Sys :=
  let i := this sys in
  let h1 :=
    match measurementStore (props i) with
    | Some r => resetMeasurements r (heap sys)
    | None => heap sys
    end in
  let h2 := resetMeasurements (s_measurementStore (state i)) h1 in
  let h3 := resetPositions (i_positionStore i) h2 in
  forceUpdate (with_this (measureContainer dom i) (with_heap h3 sys)).

(** What can happen to a component once constructed: new props from the
    parent, [componentDidMount], the callbacks the component registers
    (debounced resize, throttled scroll, animation frame), [fetchMore]
    called by the [FetchItems] child, a call of [reflow] by the
    host, and a write to the stores (by the measuring refs, the
    dynamic-height observer or the caller). *)
Inductive Event :=
| ReceiveProps (p : Props)
| DidMount (dom : Dom)
| Resize (dom : Dom)
| Scroll (dom : Dom)
| AnimationFrame (hasPendingMeasurements : bool)
| FetchMore
| Reflow (dom : Dom)
| ForceUpdate
| HeapWrite (h : Heap).

Definition step (sys : Sys) (ev : Event) : Sys :=
  match ev with
  | ReceiveProps p => deriveState (with_this (with_props p (this sys)) sys)
  | DidMount dom => componentDidMount dom sys
  | Resize dom => handleResize dom sys
  | Scroll dom => updateScrollPosition dom sys
  | AnimationFrame b => setState (set_hasPendingMeasurements b) sys
  | FetchMore => fetchMore sys
  | Reflow dom => reflow dom sys
  | ForceUpdate => forceUpdate sys
  | HeapWrite h => with_heap h sys
  end.

Definition run (sys : Sys) (evs : list Event) : Sys := foldl step sys evs.

(** ** Masonry: rendering one item *)

(** [layoutNumberToCssDimension] ([Infinity] is outside the model). *)
Definition layoutNumberToCssDimension (n : Q) : option Q :=
  if truthy_num n then Some n else None.

(** The element built by [renderMasonryComponent]: its key index, the
    translation, and the CSS width and height. *)
Record ItemComponent := mkItemComponent {
  c_idx : nat;
  c_translateX : Q;
  c_translateY : Q;
  c_width : option Q;
  c_height : option Q
}.

(** The values computed inside [renderMasonryComponent]:
    [this.state.scrollTop - this.containerOffset],
    [this.containerHeight * virtualBufferFactor] and the two bounds, in
    double arithmetic. *)
Definition offsetScrollPos (i : Instance) : spec_float :=
  Double.sub (Double.ofQ (s_scrollTop (state i))) (Double.ofQ (containerOffset i)).

Definition virtualBuffer (i : Instance) : spec_float :=
  Double.mul (Double.ofQ (containerHeight i))
    (Double.ofQ (virtualBufferFactor (props i))).

Definition viewportTop (i : Instance) : spec_float :=
  match virtualBoundsTop (props i) with
  | Some b =>
      if truthy_num b then Double.sub (offsetScrollPos i) (Double.ofQ b)
      else Double.sub (offsetScrollPos i) (virtualBuffer i)
  | None => Double.sub (offsetScrollPos i) (virtualBuffer i)
  end.

Definition viewportBottom (i : Instance) : spec_float :=
  match virtualBoundsBottom (props i) with
  | Some b =>
      if truthy_num b then
        Double.add
          (Double.add (offsetScrollPos i) (Double.ofQ (containerHeight i)))
          (Double.ofQ b)
      else
        Double.add
          (Double.add (offsetScrollPos i) (Double.ofQ (containerHeight i)))
          (virtualBuffer i)
  | None =>
      Double.add
        (Double.add (offsetScrollPos i) (Double.ofQ (containerHeight i)))
        (virtualBuffer i)
  end.

(** [isVisible]:
    [!(position.top + position.height < viewportTop ||
       position.top > viewportBottom)] under the guard
    [scrollContainer && virtualBufferFactor]. *)
Definition isVisible (i : Instance) (position : Position) : bool :=
  if bool_decide (is_Some (scrollContainer (props i)))
     && truthy_num (virtualBufferFactor (props i))
  then
    negb (Double.ltb
            (Double.add (Double.ofQ (top position)) (Double.ofQ (height position)))
            (viewportTop i)
          || Double.gtb (Double.ofQ (top position)) (viewportBottom i))
  else true.

(** [renderMasonryComponent(itemData, idx, position)]; [None] is the
    [null] returned for an item that is not rendered.  [isRtl] is
    [document.dir === 'rtl']. *)
Definition renderMasonryComponent (i : Instance) (isRtl : bool)
    (itemData : item) (idx : nat) (position : Position)
    : option ItemComponent :=
  let itemComponent :=
    {| c_idx := idx;
       c_translateX := if isRtl then left position * -1 else left position;
       c_translateY := top position;
       c_width := layoutNumberToCssDimension (width position);
       c_height := layoutNumberToCssDimension (height position) |} in
  if virtualize (props i) then
    if isVisible i position then Some itemComponent else None
  else Some itemComponent.

(** The buffers of the virtualization window, in the words of the spec:
    "either explicit top/bottom pixel overrides or a multiplier of
    container height". *)
Definition bufferTop (i : Instance) : spec_float :=
  match virtualBoundsTop (props i) with
  | Some b => if truthy_num b then Double.ofQ b else virtualBuffer i
  | None => virtualBuffer i
  end.

Definition bufferBottom (i : Instance) : spec_float :=
  match virtualBoundsBottom (props i) with
  | Some b => if truthy_num b then Double.ofQ b else virtualBuffer i
  | None => virtualBuffer i
  end.

(** An event that shows the component the item sequence [its] again, or
    no item sequence at all. *)
Definition keepsItems (its : list item) (ev : Event) : Prop :=
  match ev with
  | ReceiveProps p => items p = its
  | _ => True
  end.

(** The props and the state hold the item sequence [its], and a fetch
    is in progress. *)
Definition fetching (its : list item) (sys : Sys) : Prop :=
  items (props (this sys)) = its
  ∧ s_items (state (this sys)) = its
  ∧ s_isFetching (state (this sys)) = true.

(** ** Masonry: construction and [render] *)

(** Props of the [FetchItems] child. *)
Record FetchItemsProps := mkFetchItemsProps {
  f_containerHeight : Q;
  f_isFetching : bool;
  f_scrollHeight : Q;
  f_scrollTop : Q
}.

(** A hidden node rendered to measure one item. *)
Record MeasuringNode := mkMeasuringNode {
  m_data : item;
  m_itemIdx : nat;
  m_top : option Q;
  m_left : option Q;
  m_width : option Q;
  m_height : option Q
}.

(** The third branch of [render]: the grid with its [height] and
    [width], the positioned items ([None] for an item left out by
    virtualization), the measuring nodes and the [FetchItems] child. *)
Record Grid := mkGrid {
  g_height : Q;
  g_width : Q;
  g_items : list (option ItemComponent);
  g_measuring : list MeasuringNode;
  g_fetchItems : option FetchItemsProps
}.

Inductive GridBody :=
| ServerRendered (its : list item)
| SizingProbe
| FullLayout (g : Grid).

(** [items.filter((item) => item && measurementStore.has(item))] *)
Definition itemsToRender (ms : gmap item Q) (its : list item) : list item :=
  List.filter (λ it, truthy it && Cache.has ms it) its.

(** [items.filter((item) => !measurementStore.has(item))] *)
Definition itemsWithoutMeasurements (ms : gmap item Q) (its : list item)
    : list item :=
  List.filter (λ it, negb (Cache.has ms it)) its.

(** [items.filter((item) => item && !measurementStore.has(item))] *)
Definition pendingItems (ms : gmap item Q) (its : list item) : list item :=
  List.filter (λ it, truthy it && negb (Cache.has ms it)) its.

(** [_getColumnSpanConfig &&
     itemsWithoutMeasurements.find((item) => _getColumnSpanConfig(item) !== 1)];
    [Undefined] when the prop is absent or nothing is found. *)
Definition nextMultiColumnItem (p : Props) (ms : gmap item Q) : item :=
  match _getColumnSpanConfig p with
  | Some getColumnSpanConfig =>
      default Undefined
        (List.find (λ it, span_is_not_one (getColumnSpanConfig it))
           (itemsWithoutMeasurements ms (items p)))
  | None => Undefined
  end.

(** [array.indexOf(x)]: the first index holding [x], or -1. *)
Fixpoint indexOfFrom (x : item) (l : list item) (i : nat) : Z :=
  match l with
  | [] => (-1)%Z
  | y :: l' => if bool_decide (y = x) then Z.of_nat i else indexOfFrom x l' (S i)
  end.

Definition indexOf (x : item) (l : list item) : Z := indexOfFrom x l 0.

(** [Math.max(...l, m)] *)
Definition mathMax (l : list Q) (m : Q) : Q := foldr Qmax m l.

(** [positionStore.get(item) ?? positions[i]!] *)
Definition positionFor (ps : gmap item Position) (positions : list Position)
    (idx : nat) (it : item) : option Position :=
  match Cache.get ps it with
  | Some pos => Some pos
  | None => positions !! idx
  end.

(** [itemsToRender.map((item, i) => this.renderMasonryComponent(item, i,
    positionStore.get(item) ?? positions[i]!))]; a missing position makes
    the destructuring in [renderMasonryComponent] throw, which is [None]
    here. *)
Fixpoint renderItems (i : Instance) (isRtl : bool)
    (ps : gmap item Position) (positions : list Position)
    (idx : nat) (its : list item) : option (list (option ItemComponent)) :=
  match its with
  | [] => Some []
  | it :: rest =>
      position ← positionFor ps positions idx it;
      tl ← renderItems i isRtl ps positions (S idx) rest;
      Some (renderMasonryComponent i isRtl it idx position :: tl)
  end.

(** [itemsToMeasure.map((data, i) => ...)], with
    [measurementIndex = itemsToRender.length + i] and
    [position = measuringPositions[i]!]. *)
Fixpoint renderMeasuring (rendered : nat) (measuringPositions : list Position)
    (idx : nat) (its : list item) : option (list MeasuringNode) :=
  match its with
  | [] => Some []
  | data :: rest =>
      position ← measuringPositions !! idx;
      tl ← renderMeasuring rendered measuringPositions (S idx) rest;
      Some ({| m_data := data;
               m_itemIdx := rendered + idx;
               m_top := layoutNumberToCssDimension (top position);
               m_left := layoutNumberToCssDimension (left position);
               m_width := layoutNumberToCssDimension (width position);
               m_height := layoutNumberToCssDimension (height position) |}
            :: tl)
  end.

(** The update of [this.maxHeight] in [render]:
    [height = positions.length ? Math.max(..., this.maxHeight) : 0] and
    [if (height > this.maxHeight || !positions.length) this.maxHeight = height]. *)
Definition layoutHeight (positions : list Position) (maxHeight : Q) : Q :=
  match positions with
  | [] => 0
  | _ => mathMax (map (λ pos, (top pos + height pos)%Q) positions) maxHeight
  end.

Definition nextMaxHeight (positions : list Position) (maxHeight : Q) : Q :=
  let height := layoutHeight positions maxHeight in
  if Qgtb height maxHeight || (length positions =? 0)%nat
  then height else maxHeight.

Section WithImports.
Context `{!Imports}.

(** [constructor(props)]; the ResizeObserver of [_dynamicHeights] is a
    source of [HeapWrite] and [ForceUpdate] events. *)
Definition constructor (p : Props) (h : Heap) : Sys :=
  let '(measurementStore, h1) :=
    match measurementStore p with
    | Some r => (r, h)
    | None => createMeasurementStore h
    end in
  let '(positionStore, h2) :=
    match positionStore p with
    | Some r => (r, h1)
    | None => createPositionStore h1
    end in
  let defaultGutter :=
    match layout p with
    | flexible | serverRenderedFlexible => FULL_WIDTH_DEFAULT_GUTTER
    | _ => DEFAULT_LAYOUT_DEFAULT_GUTTER
    end in
  let gutter := default defaultGutter (gutterWidth p) in
  let ms := measurementsAt h2 measurementStore in
  {| this :=
       {| props := p;
          state :=
            {| s_gutter := gutter;
               s_hasPendingMeasurements :=
                 existsb (λ it, truthy it && negb (Cache.has ms it)) (items p);
               s_isFetching := false;
               s_items := items p;
               s_measurementStore := measurementStore;
               s_scrollTop := 0;
               s_width := None |};
          containerHeight := 0;
          containerOffset := 0;
          i_gridWrapper := None;
          i_positionStore := positionStore;
          i_scrollContainer := None;
          maxHeight := 0 |};
     heap := h2;
     effects := [] |}.

(** The arguments of the [getLayoutAlgorithm] call in [render]. *)
Definition layoutArgs (i : Instance) : LayoutArgs :=
  {| la_align := align (props i);
     la_columnWidth := columnWidth (props i);
     la_gutter := s_gutter (state i);
     la_items := items (props i);
     la_layout := layout (props i);
     la_minCols := minCols (props i);
     la_width := s_width (state i);
     la_getColumnSpanConfig := _getColumnSpanConfig (props i);
     la_getResponsiveModuleConfigForSecondItem :=
       _getResponsiveModuleConfigForSecondItem (props i);
     la_getModulePositioningConfig := _getModulePositioningConfig (props i);
     la_multiColPositionAlgoV2 := _multiColPositionAlgoV2 (props i) |}.

(** The constants [render] computes for a pending multi-column item
    [next]: [gridSize], [responsiveModuleConfigForSecondItem],
    [isFlexibleWidthItem] and [moduleSize]. *)
Definition gridSize (i : Instance) (width : Q) : nat :=
  getColumnCount (s_gutter (state i)) (columnWidth (props i)) width
    (minCols (props i)) (layout (props i)).

Definition responsiveModuleConfigForSecondItem (p : Props)
    : ResponsiveModuleConfig :=
  match _getResponsiveModuleConfigForSecondItem p with
  | Some f =>
      if truthy (at_index (items p) 1) then f (at_index (items p) 1)
      else ResponsiveUndefined
  | None => ResponsiveUndefined
  end.

Definition isFlexibleWidthItem (p : Props) (next : item) : bool :=
  truthy_responsive (responsiveModuleConfigForSecondItem p)
  && bool_decide (next = at_index (items p) 1).

Definition moduleSize (i : Instance) (width : Q) (next : item) : nat :=
  let p := props i in
  match _getColumnSpanConfig p with
  | Some getColumnSpanConfig =>
      calculateActualColumnSpan (gridSize i width) (at_index (items p) 0)
        (isFlexibleWidthItem p next) next
        (responsiveModuleConfigForSecondItem p) getColumnSpanConfig
  | None => 0%nat
  end.

(** [batchSize], for the known [width] of the third branch; [None] is
    [undefined]. *)
Definition batchSize (i : Instance) (ms : gmap item Q) (width : Q)
    : option nat :=
  let p := props i in
  let next := nextMultiColumnItem p ms in
  if truthy next then
    if negb (isFlexibleWidthItem p next) then
      match _getModulePositioningConfig p with
      | Some f =>
          match f (gridSize i width) (moduleSize i width next) with
          | Some c => Some (itemsBatchSize c)
          | None => Some MULTI_COL_ITEMS_MEASURE_BATCH_SIZE
          end
      | None => Some MULTI_COL_ITEMS_MEASURE_BATCH_SIZE
      end
    else None
  else None.

(** [itemsToMeasureCount]:
    [batchSize && nextMultiColumnItemIndex <= batchSize ? batchSize + 1 : minCols]. *)
Definition itemsToMeasureCount (i : Instance) (ms : gmap item Q) (width : Q)
    : nat :=
  let nextMultiColumnItemIndex :=
    indexOf (nextMultiColumnItem (props i) ms)
      (itemsWithoutMeasurements ms (items (props i))) in
  match batchSize i ms width with
  | Some b =>
      if negb (b =? 0)%nat && (nextMultiColumnItemIndex <=? Z.of_nat b)%Z
      then (b + 1)%nat else minCols (props i)
  | None => minCols (props i)
  end.

(** [itemsToMeasure] *)
Definition itemsToMeasure (i : Instance) (ms : gmap item Q) (width : Q)
    : list item :=
  take (itemsToMeasureCount i ms width) (pendingItems ms (items (props i))).

(** [render()]: the new component (with [this.maxHeight] and the
    position store as [render] leaves them) and the grid body, [None]
    when rendering throws for want of a position.  The [ScrollContainer]
    element wrapped around the grid body when [props.scrollContainer] is
    set is left out, as are the contents of the item nodes ([renderItem]). *)
Definition render (isRtl : bool) (sys : Sys) : Sys * option GridBody :=
  let i := this sys in
  let p := props i in
  let ms := measurementsAt (heap sys) (s_measurementStore (state i)) in
  let getPositions := getLayoutAlgorithm (layoutArgs i) ms in
  match s_width (state i) with
  | None =>
      if s_hasPendingMeasurements (state i)
      then (sys, Some (ServerRendered (List.filter truthy (items p))))
      else (sys, Some SizingProbe)
  | Some width =>
      let toRender := itemsToRender ms (items p) in
      let toMeasure := itemsToMeasure i ms width in
      let ps0 := positionsAt (heap sys) (i_positionStore i) in
      let '(positions, ps1) := getPositions ps0 toRender in
      let '(measuringPositions, ps2) := getPositions ps1 toMeasure in
      let height := layoutHeight positions (maxHeight i) in
      let i' := with_maxHeight (nextMaxHeight positions (maxHeight i)) i in
      let sys' :=
        with_this i' (with_heap (writePositions (i_positionStore i) ps2 (heap sys)) sys) in
      let body :=
        rendered ← renderItems i' isRtl ps2 positions 0 toRender;
        measuring ← renderMeasuring (length toRender) measuringPositions 0 toMeasure;
        Some (FullLayout
          {| g_height := height;
             g_width := width;
             g_items := rendered;
             g_measuring := measuring;
             g_fetchItems :=
               if bool_decide (is_Some (i_scrollContainer i)) then
                 Some {| f_containerHeight := containerHeight i;
                         f_isFetching :=
                           s_isFetching (state i)
                           || s_hasPendingMeasurements (state i);
                         f_scrollHeight := height + containerOffset i;
                         f_scrollTop := s_scrollTop (state i) |}
               else None |}) in
      (sys', body)
  end.


Definition renderedPositions (sys : Sys) : option (list (option Position)) :=
  let i := this sys in
  let ms := measurementsAt (heap sys) (s_measurementStore (state i)) in
  let getPositions := getLayoutAlgorithm (layoutArgs i) ms in
  match s_width (state i) with
  | None => None
  | Some width =>
      let toRender := itemsToRender ms (items (props i)) in
      let '(positions, ps1) :=
        getPositions (positionsAt (heap sys) (i_positionStore i)) toRender in
      let '(_, ps2) := getPositions ps1 (itemsToMeasure i ms width) in
      Some (imap (positionFor ps2 positions) toRender)
  end.

(** One update started by [this.setState(f)]: the state is derived,
    [render] runs, and [componentDidUpdate] receives the state the update
    started from. *)
Definition update (isRtl : bool) (f : State → State) (sys : Sys) : Sys :=
  componentDidUpdate (state (this sys)) (render isRtl (setState f sys)).1.

End WithImports.

End Masonry.

(** ** The imported modules, from the specification *)

Module SpecLayout.
Import Masonry.

(** Modelled from the spec: [getColumnCount] of [Masonry/getColumnCount]
    (not part of the sources), section 4.1: "returns an integer column
    count >= the floor", "computes the maximum number of whole columns
    (item width + gutter) that fit in the available width", "for
    fixed-width modes it floors the division". *)
Definition getColumnCount (gutter : Q) (columnWidth : option Q) (width : Q)
    (minCols : nat) (layout : Layout) : nat :=
  let columnWidth := default 236%Q columnWidth in
  Nat.max (Z.to_nat (Qfloor (width / (columnWidth + gutter)))) minCols.

(** Modelled from the spec: the span a column-span configuration asks for
    ([Masonry/multiColumnLayout] is not part of the sources), section 3:
    "either a fixed integer span or a responsive descriptor giving min/max
    span by breakpoint class (grid-size buckets)"; the buckets are those of
    the documentation of the [_getColumnSpanConfig] prop (sm: 2 columns,
    md: 3-4, lg: 5-8, xl: 9+). *)
Definition spanOf (columnCount : nat) (c : ColumnSpanConfig) : nat :=
  match c with
  | SpanNumber n => n
  | SpanResponsive sm md lg xl =>
      if (columnCount <=? 2)%nat then sm
      else if (columnCount <=? 4)%nat then md
      else if (columnCount <=? 8)%nat then lg
      else xl
  end.

(** Modelled from the spec: [calculateActualColumnSpan] of the missing
    [Masonry/multiColumnLayout], sections 4.3 and 7: "compute its actual
    span from its column-span configuration and current grid size", "span
    exceeding available column count -> clamp to column count"; for the
    flexible-width second item the "width may be chosen anywhere within a
    configured min/max column span to fill the remaining space in row
    one". *)
Definition calculateActualColumnSpan (columnCount : nat) (firstItem : item)
    (isFlexibleWidthItem : bool) (it : item)
    (responsiveModuleConfigForSecondItem : ResponsiveModuleConfig)
    (getColumnSpanConfig : item → ColumnSpanConfig) : nat :=
  if isFlexibleWidthItem then
    let remaining :=
      (columnCount - spanOf columnCount (getColumnSpanConfig firstItem))%nat in
    match responsiveModuleConfigForSecondItem with
    | ResponsiveNumber n => Nat.min n columnCount
    | ResponsiveRange lo hi => Nat.min (Nat.max lo (Nat.min remaining hi)) columnCount
    | ResponsiveUndefined => 1%nat
    end
  else Nat.min (spanOf columnCount (getColumnSpanConfig it)) columnCount.

(** Modelled from the spec: the choice of the column in the
    single-column strategy, section 4.2: "the column with the smallest
    current accumulated height", "lowest column index wins ties".
    [shortestFrom] scans the columns from index [i] on, [best] being the
    best column so far. *)
Fixpoint shortestFrom (best : nat) (bestHeight : Q) (i : nat) (heights : list Q)
    : nat :=
  match heights with
  | [] => best
  | h :: rest =>
      if Qltb h bestHeight then shortestFrom i h (S i) rest
      else shortestFrom best bestHeight (S i) rest
  end.

(** Modelled from the spec: the shortest column, section 4.2, as above. *)
Definition shortestColumn (heights : list Q) : nat :=
  match heights with
  | [] => 0%nat
  | h :: rest => shortestFrom 0 h 1 rest
  end.

(** Modelled from the spec: the single-column strategy, section 4.2, in
    the fixed, left-aligned mode: "for each item in logical order, place it
    atop the column with the smallest current accumulated height, set its
    top to that column's height, add (measured height + gutter) to that
    column's running height"; "items lacking [a Measurement] are excluded
    from placement".  Section 3: "width is derived from column width;
    height equals the cached Measurement".  An item without a measurement
    takes no column; its position has no extent. *)
Fixpoint place (columnWidth gutter : Q) (ms : gmap item Q) (heights : list Q)
    (its : list item) : list Position :=
  match its with
  | [] => []
  | it :: rest =>
      match Cache.get ms it with
      | Some h =>
          let col := shortestColumn heights in
          let colTop := default 0%Q (heights !! col) in
          {| top := colTop;
             left := inject_Z (Z.of_nat col) * (columnWidth + gutter);
             width := columnWidth;
             height := h |}
          :: place columnWidth gutter ms
               (<[ col := (colTop + h + gutter)%Q ]> heights) rest
      | None =>
          {| top := 0; left := 0; width := columnWidth; height := 0 |}
          :: place columnWidth gutter ms heights rest
      end
  end.

(** Modelled from the spec: the function returned by [getLayoutAlgorithm]
    ([Masonry/getLayoutAlgorithm] is not part of the sources) when it
    selects the single-column strategy of section 4.2, over the columns of
    section 4.1.  Section 4.2 makes no use of the position store: its
    contents are returned as they were. *)
Definition getLayoutAlgorithm (args : LayoutArgs) (ms : gmap item Q)
    (ps : gmap item Position) (its : list item)
    : list Position * gmap item Position :=
  let columnCount :=
    match la_width args with
    | Some w =>
        getColumnCount (la_gutter args) (la_columnWidth args) w
          (la_minCols args) (la_layout args)
    | None => la_minCols args
    end in
  (place (default 236%Q (la_columnWidth args)) (la_gutter args) ms
     (replicate columnCount 0%Q) its,
   ps).

(** Modelled from the spec: the imported modules, put together.  The two
    default gutters are constants of [Masonry/getColumnCount] on which the
    spec is silent; they are arguments here.  The default batch size is
    that of the documentation of the [_getModulePositioningConfig] prop
    ("if this prop isn't used, it uses 5"). *)
Definition imports (defaultGutter fullWidthGutter : Q) : Imports :=
  {| DEFAULT_LAYOUT_DEFAULT_GUTTER := defaultGutter;
     FULL_WIDTH_DEFAULT_GUTTER := fullWidthGutter;
     MULTI_COL_ITEMS_MEASURE_BATCH_SIZE := 5;
     Masonry.getColumnCount := getColumnCount;
     Masonry.calculateActualColumnSpan := calculateActualColumnSpan;
     Masonry.getLayoutAlgorithm := getLayoutAlgorithm |}.

End SpecLayout.

(** ** Concrete components used by the examples *)

Module Examples.
Import Masonry.

Definition a : item := Obj 1.
Definition b : item := Obj 2.
Definition c : item := Obj 3.

(** Props with a 10px gutter, a scroll container (element 1) and the
    virtualization settings given. *)
Definition virtualProps (its : list item)
    (scroll : option ScrollContainer.element)
    (boundsTop boundsBottom : option Q) (factor : Q) : Props :=
  {| align := align_center;
     columnWidth := Some 236%Q;
     gutterWidth := Some 10%Q;
     items := its;
     layout := basic;
     loadItems := true;
     measurementStore := None;
     minCols := 3;
     positionStore := None;
     scrollContainer := scroll;
     virtualBoundsBottom := boundsBottom;
     virtualBoundsTop := boundsTop;
     virtualBufferFactor := factor;
     virtualize := true;
     _getColumnSpanConfig := None;
     _getResponsiveModuleConfigForSecondItem := None;
     _dynamicHeights := false;
     _dynamicHeightsV2Experiment := false;
     _getModulePositioningConfig := None;
     _multiColPositionAlgoV2 := false |}.

(** A mounted instance scrolled to 1000px in a container 500px high. *)
Definition scrolled (p : Props) : Instance :=
  {| props := p;
     state :=
       {| s_gutter := 10;
          s_hasPendingMeasurements := false;
          s_isFetching := false;
          s_items := items p;
          s_measurementStore := 1%positive;
          s_scrollTop := 1000;
          s_width := Some 900%Q |};
     containerHeight := 500;
     containerOffset := 0;
     i_gridWrapper := Some 2%positive;
     i_positionStore := 1%positive;
     i_scrollContainer := None;
     maxHeight := 0 |}.

(** Rectangles: far above the window, and inside it. *)
Definition above : Position := {| top := 0; left := 0; width := 236; height := 50 |}.
Definition inside : Position := {| top := 1100; left := 0; width := 236; height := 50 |}.

(** Buffer factor 0 with explicit 100px bounds. *)
Definition zeroFactor : Instance :=
  scrolled (virtualProps [a] (Some 1%positive) (Some 100%Q) (Some 100%Q) 0).

(** The default buffer factor, no explicit bounds. *)
Definition defaultFactor : Instance :=
  scrolled (virtualProps [a] (Some 1%positive) None None 0.7).

(** Scrolled to 0.8 in a container 1 high whose grid starts 0.1 below
    its top, at the default buffer factor; a rectangle that ends at 0. *)
Definition atTheEdge : Instance :=
  {| props := virtualProps [a] (Some 1%positive) None None 0.7;
     state :=
       {| s_gutter := 10;
          s_hasPendingMeasurements := false;
          s_isFetching := false;
          s_items := [a];
          s_measurementStore := 1%positive;
          s_scrollTop := 0.8;
          s_width := Some 900%Q |};
     containerHeight := 1;
     containerOffset := 0.1;
     i_gridWrapper := Some 2%positive;
     i_positionStore := 1%positive;
     i_scrollContainer := None;
     maxHeight := 0 |}.

Definition endsAtZero : Position :=
  {| top := -50; left := 0; width := 236; height := 50 |}.

(** Scrolled to 0.2 in a container 10.1 high whose grid starts 10.1
    below its top, with explicit bounds of 1e-300; a rectangle 50 high at
    0.19999999999999932.  The numbers are written as the doubles they
    are. *)
Definition d0_2 : Q := 3602879701896397 # 2 ^ 54.
Definition d10_1 : Q := 5685794529555251 # 2 ^ 49.
Definition d1e_300 : Q := 6032057205060441 # 2 ^ 1049.
Definition d0_19999999999999932 : Q := 7205759403792769 # 2 ^ 55.

Definition cancelling : Instance :=
  {| props :=
       virtualProps [a] (Some 1%positive) (Some d1e_300) (Some d1e_300) 0.5;
     state :=
       {| s_gutter := 10;
          s_hasPendingMeasurements := false;
          s_isFetching := false;
          s_items := [a];
          s_measurementStore := 1%positive;
          s_scrollTop := d0_2;
          s_width := Some 900%Q |};
     containerHeight := d10_1;
     containerOffset := d10_1;
     i_gridWrapper := Some 2%positive;
     i_positionStore := 1%positive;
     i_scrollContainer := None;
     maxHeight := 0 |}.

Definition nearTheBottomEdge : Position :=
  {| top := d0_19999999999999932; left := 0; width := 236; height := 50 |}.

(** Virtualization requested without a scroll container. *)
Definition noScrollContainer : Instance :=
  scrolled (virtualProps [a] None None None 0.7).

(** A grid with a 10px gutter and the stores given. *)
Definition gridProps (its : list item) (ms ps : option ref) : Props :=
  {| align := align_center;
     columnWidth := Some 236%Q;
     gutterWidth := Some 10%Q;
     items := its;
     layout := basic;
     loadItems := true;
     measurementStore := ms;
     minCols := 3;
     positionStore := ps;
     scrollContainer := None;
     virtualBoundsBottom := None;
     virtualBoundsTop := None;
     virtualBufferFactor := 0.7;
     virtualize := false;
     _getColumnSpanConfig := None;
     _getResponsiveModuleConfigForSecondItem := None;
     _dynamicHeights := false;
     _dynamicHeightsV2Experiment := false;
     _getModulePositioningConfig := None;
     _multiColPositionAlgoV2 := false |}.

Definition gridState (its : list item) (store : ref) (w : option Q) : State :=
  {| s_gutter := 10;
     s_hasPendingMeasurements := false;
     s_isFetching := false;
     s_items := its;
     s_measurementStore := store;
     s_scrollTop := 0;
     s_width := w |}.

Definition measuringState (its : list item) (store : ref) (w : option Q)
    : State :=
  {| s_gutter := 10;
     s_hasPendingMeasurements := true;
     s_isFetching := false;
     s_items := its;
     s_measurementStore := store;
     s_scrollTop := 0;
     s_width := w |}.

Definition gridInstance (p : Props) (st : State) (ps : ref) : Instance :=
  {| props := p;
     state := st;
     containerHeight := 0;
     containerOffset := 0;
     i_gridWrapper := Some 2%positive;
     i_positionStore := ps;
     i_scrollContainer := None;
     maxHeight := 0 |}.

(** Three measured and placed items. *)
Definition measured : gmap item Q :=
  <[ a := 100%Q ]> (<[ b := 150%Q ]> (<[ c := 80%Q ]> ∅)).

Definition placed : gmap item Position :=
  <[ a := {| top := 0; left := 0; width := 236; height := 100 |} ]>
    (<[ b := {| top := 0; left := 246; width := 236; height := 150 |} ]>
       (<[ c := {| top := 0; left := 492; width := 236; height := 80 |} ]> ∅)).

(** The grid after its width went from 900 to 600: caller-supplied stores
    (cell 1 of each heap), every item measured and placed. *)
Definition resized : Sys :=
  {| this :=
       gridInstance (gridProps [a; b; c] (Some 1%positive) (Some 1%positive))
         (gridState [a; b; c] 1%positive (Some 600%Q)) 1%positive;
     heap := {| measurements := {[ 1%positive := measured ]};
                positions := {[ 1%positive := placed ]} |};
     effects := [] |}.

Definition before900 : State := gridState [a; b; c] 1%positive (Some 900%Q).

(** The same grid when the caller has, since the mount, passed another
    measurement store (cell 2) than the one the state holds (cell 1). *)
Definition swapped : Sys :=
  {| this :=
       gridInstance (gridProps [a; b; c] (Some 2%positive) (Some 1%positive))
         (gridState [a; b; c] 1%positive (Some 900%Q)) 1%positive;
     heap := {| measurements :=
                  <[ 1%positive := measured ]> {[ 2%positive := measured ]};
                positions := {[ 1%positive := placed ]} |};
     effects := [] |}.

Definition noDom : Dom :=
  {| getElementHeight := λ _, 500%Q;
     getRelativeScrollTop := λ _, 0%Q;
     getScrollPos := λ _, 0%Q;
     boundingClientRectTop := λ _, 0%Q;
     clientWidth := λ _, 900%Q |}.

(** A stable grid of three items with its own stores, nothing being
    fetched; and the props by which the host later passes only the first
    two items. *)
Definition idle : Sys :=
  {| this :=
       gridInstance (gridProps [a; b; c] None None)
         (gridState [a; b; c] 1%positive (Some 900%Q)) 1%positive;
     heap := {| measurements := {[ 1%positive := measured ]};
                positions := {[ 1%positive := ∅ ]} |};
     effects := [] |}.

Definition shorterProps : Props := gridProps [a; b] None None.

(** The imported modules as the spec describes them; the examples set
    [gutterWidth], so the default gutters play no part. *)
Definition specImports : Imports := SpecLayout.imports 14 0.



Definition d : item := Obj 4.
Definition e : item := Obj 5.
Definition f : item := Obj 6.
Definition g : item := Obj 7.
Definition h : item := Obj 8.
Definition k : item := Obj 9.
Definition l : item := Obj 10.
Definition m : item := Obj 11.


(** Eight pending items after the three measured ones; [e], the second
    of them, spans two columns. *)
Definition spanConfig (it : item) : ColumnSpanConfig :=
  if bool_decide (it = e) then SpanNumber 2 else SpanNumber 1.

Definition multiColumnProps : Props :=
  {| align := align_center;
     columnWidth := Some 236%Q;
     gutterWidth := Some 10%Q;
     items := [a; b; c; d; e; f; g; h; k; l; m];
     layout := basic;
     loadItems := true;
     measurementStore := None;
     minCols := 3;
     positionStore := None;
     scrollContainer := None;
     virtualBoundsBottom := None;
     virtualBoundsTop := None;
     virtualBufferFactor := 0.7;
     virtualize := false;
     _getColumnSpanConfig := Some spanConfig;
     _getResponsiveModuleConfigForSecondItem := None;
     _dynamicHeights := false;
     _dynamicHeightsV2Experiment := false;
     _getModulePositioningConfig := None;
     _multiColPositionAlgoV2 := false |}.

Definition multiColumnPending : Sys :=
  {| this :=
       gridInstance multiColumnProps
         (measuringState [a; b; c; d; e; f; g; h; k; l; m] 1%positive
            (Some 900%Q))
         1%positive;
     heap := {| measurements := {[ 1%positive := measured ]};
                positions := {[ 1%positive := ∅ ]} |};
     effects := [] |}.






(** The grid of a pass that lays out, or an empty grid. *)
Definition gridOf (r : Sys * option GridBody) : Grid :=
  match r.2 with
  | Some (FullLayout g) => g
  | _ => {| g_height := 0; g_width := 0; g_items := []; g_measuring := [];
            g_fetchItems := None |}
  end.

(** Two passes over the same items, measurements and props, with a
    caller-supplied position store (cell 1): empty in one pass, holding a
    cached position for [a] in the other. *)
Definition cachedPosition : gmap item Position :=
  {[ a := {| top := 999; left := 0; width := 236; height := 100 |} ]}.

Definition emptyPositionStore : Sys :=
  {| this :=
       gridInstance (gridProps [a; b; c] (Some 1%positive) (Some 1%positive))
         (gridState [a; b; c] 1%positive (Some 900%Q)) 1%positive;
     heap := {| measurements := {[ 1%positive := measured ]};
                positions := {[ 1%positive := ∅ ]} |};
     effects := [] |}.

Definition filledPositionStore : Sys :=
  {| this :=
       gridInstance (gridProps [a; b; c] (Some 1%positive) (Some 1%positive))
         (gridState [a; b; c] 1%positive (Some 900%Q)) 1%positive;
     heap := {| measurements := {[ 1%positive := measured ]};
                positions := {[ 1%positive := cachedPosition ]} |};
     effects := [] |}.

End Examples.

(** ** Masonry: refs, commit and mount *)

Module Lifecycle.
Import Masonry.

(** [setGridWrapperRef] *)
Definition setGridWrapperRef (ref : option ScrollContainer.element)
    (i : Instance) : Instance :=
  {| props := props i;
     state := state i;
     containerHeight := containerHeight i;
     containerOffset := containerOffset i;
     i_gridWrapper := ref;
     i_positionStore := i_positionStore i;
     i_scrollContainer := i_scrollContainer i;
     maxHeight := maxHeight i |}.

(** [setScrollContainerRef] *)
Definition setScrollContainerRef (ref : option ScrollContainer.t)
    (i : Instance) : Instance :=
  {| props := props i;
     state := state i;
     containerHeight := containerHeight i;
     containerOffset := containerOffset i;
     i_gridWrapper := i_gridWrapper i;
     i_positionStore := i_positionStore i;
     i_scrollContainer := ref;
     maxHeight := maxHeight i |}.

(** The ref callbacks of the nodes rendered for measurement,
    [measurementStore.set(data, el.clientHeight)], node after node;
    [clientHeight k] is the height the browser reports for node [k]. *)
Fixpoint measureNodes (clientHeight : nat → Q) (idx : nat) (its : list item)
    (ms : gmap item Q) : gmap item Q :=
  match its with
  | [] => ms
  | data :: rest =>
      measureNodes clientHeight (S idx) rest
        (Cache.set data (clientHeight idx) ms)
  end.

(** The items of the props still to be measured: truthy, and without an
    entry in the measurement store of the state. *)
Definition pendingOf (sys : Sys) : list item :=
  pendingItems
    (measurementsAt (heap sys) (s_measurementStore (state (this sys))))
    (items (props (this sys))).

(** The animation frame that the [componentDidUpdate] of the last update
    asked for, with the value its callback will set.  [componentDidUpdate]
    calls [measureContainerAsync] first, so the last call recorded is a
    [requestAnimationFrame] exactly when this update made one. *)
Definition requestedFrame (sys : Sys) : option bool :=
  match last (effects sys) with
  | Some (CallRequestAnimationFrame hasPendingMeasurements) =>
      Some hasPendingMeasurements
  | _ => None
  end.

(** The [ScrollContainer] child that [render] wraps around the grid when
    [props.scrollContainer] is set, once it has mounted; the prop it gets
    is the accessor. *)
Definition mountedScrollContainer (p : Props) : option ScrollContainer.t :=
  match scrollContainer p with
  | Some e =>
      Some (ScrollContainer.componentDidMount
              (ScrollContainer.Accessor (Some e)) ScrollContainer.initial)
  | None => None
  end.

(** How a run of updates ends: with an update that asks for no animation
    frame, with [render] throwing, or, the bound on the number of updates
    reached, with a frame still asked for. *)
Inductive Outcome :=
| Settled (sys : Sys)
| Threw
| StillUpdating (sys : Sys).

Section WithImports.
Context `{!Imports}.

(** The measuring refs that run when the output of [render] is committed.
    With the width known these are the refs of the hidden measuring nodes;
    without it, and with measurements pending, the refs of the statically
    rendered items, which measure unless [layout] is 'flexible'. *)
Definition commitMeasurements (clientHeight : nat → Q) (sys : Sys) : Sys :=
  let i := this sys in
  let r := s_measurementStore (state i) in
  let ms := measurementsAt (heap sys) r in
  match s_width (state i) with
  | Some width =>
      with_heap
        (writeMeasurements r
           (measureNodes clientHeight 0 (itemsToMeasure i ms width) ms)
           (heap sys))
        sys
  | None =>
      if s_hasPendingMeasurements (state i) then
        match layout (props i) with
        | flexible => sys
        | _ =>
            with_heap
              (writeMeasurements r
                 (measureNodes clientHeight 0
                    (List.filter truthy (items (props i))) ms)
                 (heap sys))
              sys
        end
      else sys
  end.

(** One update of a component whose state has been set: [render], the
    measuring refs, then [componentDidUpdate] with the state of the
    previous render.  [None] when [render] throws. *)
Definition pass (isRtl : bool) (clientHeight : nat → Q) (prevState : State)
    (sys : Sys) : option Sys :=
  match (render isRtl sys).2 with
  | Some _ =>
      Some (componentDidUpdate prevState
              (commitMeasurements clientHeight (render isRtl sys).1))
  | None => None
  end.

(** Mounting: the constructor, [getDerivedStateFromProps], the first
    [render] (the width is unknown, so no position is needed and nothing
    can throw), the measuring refs, the refs of the wrapper element and of
    the [ScrollContainer] child, then [componentDidMount]. *)
Definition mount (isRtl : bool) (wrapper : ScrollContainer.element)
    (dom : Dom) (clientHeight : nat → Q) (p : Props) (h : Heap) : Sys :=
  let s0 := deriveState (constructor p h) in
  let s1 := commitMeasurements clientHeight (render isRtl s0).1 in
  let i1 :=
    setScrollContainerRef (mountedScrollContainer p)
      (setGridWrapperRef (Some wrapper) (this s1)) in
  componentDidMount dom (with_this i1 s1).

(** The updates that follow one another without the host doing anything.
    After an update whose [componentDidUpdate] asked for an animation
    frame, the callback of that frame runs
    [setState({ hasPendingMeasurements })] with the value computed then,
    which starts the next update; its [prevState] is the state of the
    update before.  An update that asks for no frame is the last.
    [fuel] bounds the number of updates. *)
Fixpoint frameUpdates (isRtl : bool) (clientHeight : nat → Q) (fuel : nat)
    (prevState : State) (sys : Sys) : Outcome :=
  match fuel with
  | O => StillUpdating sys
  | S fuel' =>
      match pass isRtl clientHeight prevState sys with
      | Some sys' =>
          match requestedFrame sys' with
          | Some hasPendingMeasurements =>
              frameUpdates isRtl clientHeight fuel' (state (this sys'))
                (setState (set_hasPendingMeasurements hasPendingMeasurements)
                   sys')
          | None => Settled sys'
          end
      | None => Threw
      end
  end.

End WithImports.

End Lifecycle.

(** ** ScrollContainer: the container the props last resolved to *)

Module ScrollContainerTrace.
Import ScrollContainer.

(** The element a lifecycle call hands to [updateScrollContainer], if any:
    what the prop resolves to at a mount or an update. *)
Definition resolved (ev : lifecycle) : option element :=
  match ev with
  | Mount p => getScrollContainer p
  | Update p => getScrollContainer p
  | Unmount => None
  end.

(** The last element the props resolved to along [evs], starting from
    [c]; calls that resolve to null or undefined are passed over. *)
Definition lastResolved (c : option element) (evs : list lifecycle)
    : option element :=
  foldl (λ acc ev, match resolved ev with Some e => Some e | None => acc end)
    c evs.

End ScrollContainerTrace.

(** ** Further concrete components *)

Module MoreExamples.
Import Masonry.

(** A grid whose host has left a hole in the items array. *)
Definition withHole : Sys :=
  {| this :=
       Examples.gridInstance
         (Examples.gridProps [Examples.a; Undefined; Examples.b] None None)
         (Examples.gridState [Examples.a; Undefined; Examples.b] 1%positive
            (Some 900%Q))
         1%positive;
     heap := {| measurements := {[ 1%positive := Examples.measured ]};
                positions := {[ 1%positive := ∅ ]} |};
     effects := [] |}.

(** The stable grid of three measured items, as it is after a render in
    which nothing was pending; and the same grid when the host has put a
    null entry among the items. *)
Definition stable : Sys := Examples.idle.

Definition withNull : Sys :=
  {| this :=
       Examples.gridInstance
         (Examples.gridProps [Examples.a; Null; Examples.b] None None)
         (Examples.measuringState [Examples.a; Null; Examples.b] 1%positive
            (Some 900%Q))
         1%positive;
     heap := {| measurements := {[ 1%positive := Examples.measured ]};
                positions := {[ 1%positive := ∅ ]} |};
     effects := [] |}.

(** Mounting three items in a scroll container, with an empty heap. *)
Definition scrolledProps : Props :=
  Examples.virtualProps [Examples.a; Examples.b; Examples.c] (Some 7%positive)
    None None 0.7%Q.

Definition page : Dom :=
  {| getElementHeight := λ _, 600%Q;
     getRelativeScrollTop := λ _, 40%Q;
     getScrollPos := λ _, 250%Q;
     boundingClientRectTop := λ _, 10%Q;
     clientWidth := λ _, 900%Q |}.

Definition emptyHeap : Heap := {| measurements := ∅; positions := ∅ |}.

Definition mounted : Sys :=
  Lifecycle.mount (H := Examples.specImports) false 3%positive page (λ _, 120%Q)
    scrolledProps emptyHeap.

(** Props that bring their own measurement store, the cell 1 of the heap
    of [stable]. *)
Definition suppliedProps : Props :=
  Examples.gridProps [Examples.a; Examples.b; Examples.c] (Some 1%positive) None.

End MoreExamples.

(** * Properties *)

(** ** ScrollContainer *)

Module ScrollContainerFacts.
Import ScrollContainer.

Lemma updateScrollContainer_single e s :
  single_subscription s →
  scrollContainer (updateScrollContainer e s) = Some e ∧
  subscribed (updateScrollContainer e s) = {[ e ]}.
Proof.
  intros Hs. unfold updateScrollContainer. split; [done|].
  destruct Hs as [He | (c & Hc & He)].
  - destruct (scrollContainer s); simpl; rewrite He; set_solver.
  - rewrite Hc. simpl. rewrite He. set_solver.
Qed.

Lemma step_single s ev : single_subscription s → single_subscription (step s ev).
Proof.
  intros Hs. destruct ev as [p | p |]; simpl.
  - unfold componentDidMount. destruct (getScrollContainer p) as [e|]; [|done].
    right. exists e. by apply updateScrollContainer_single.
  - unfold componentDidUpdate. destruct (getScrollContainer p) as [e|]; [|done].
    case_decide; [done|].
    right. exists e. by apply updateScrollContainer_single.
  - unfold componentWillUnmount.
    destruct (scrollContainer s) as [c|] eqn:Hc; [|done].
    left. destruct Hs as [He | (c' & Hc' & He)]; simpl; rewrite He; set_solver.
Qed.

Lemma run_single evs : ∀ s, single_subscription s → single_subscription (run s evs).
Proof.
  induction evs as [| ev evs IH]; intros s Hs; [done|].
  simpl. apply IH. by apply step_single.
Qed.

(** Switching containers: the calls made by [componentDidUpdate], in order. *)
Lemma switch_calls p s old new :
  scrollContainer s = Some old →
  getScrollContainer p = Some new →
  new ≠ old →
  calls (componentDidUpdate p s)
  = calls s ++ [RemoveEventListener old; AddEventListener new].
Proof.
  intros Hold Hnew Hne. unfold componentDidUpdate. rewrite Hnew, Hold.
  case_decide as Heq; [congruence|].
  unfold updateScrollContainer. rewrite Hold. simpl.
  by rewrite <- app_assoc.
Qed.

Lemma same_container_noop p s c :
  scrollContainer s = Some c →
  getScrollContainer p = Some c →
  componentDidUpdate p s = s.
Proof.
  intros Hc Hp. unfold componentDidUpdate. rewrite Hp, Hc.
  by case_decide.
Qed.

(** C9. After any sequence of lifecycle calls from the initial component,
    the scroll handler is registered on no element or on exactly the
    tracked scroll container, hence on at most one element.  An update
    that resolves to another container first removes the listener from the
    old container and then adds it to the new one, which becomes the only
    subscribed element; an update that resolves to the tracked container
    leaves the component and the DOM as they are (no call is made). *)
Theorem scroll_handler_single_subscription (evs : list lifecycle) :
  let s := run initial evs in
  single_subscription s
  ∧ size (subscribed s) ≤ 1
  ∧ (∀ p old new,
       scrollContainer s = Some old →
       getScrollContainer p = Some new →
       new ≠ old →
       calls (componentDidUpdate p s)
       = calls s ++ [RemoveEventListener old; AddEventListener new]
       ∧ scrollContainer (componentDidUpdate p s) = Some new
       ∧ subscribed (componentDidUpdate p s) = {[ new ]})
  ∧ (∀ p c,
       scrollContainer s = Some c →
       getScrollContainer p = Some c →
       componentDidUpdate p s = s).
Proof.
  intros s.
  assert (Hs : single_subscription s) by (apply run_single; by left).
  split_and!; [done | | | ].
  - destruct Hs as [He | (c & _ & He)]; rewrite He.
    + rewrite size_empty. lia.
    + rewrite size_singleton. lia.
  - intros p old new Hold Hnew Hne. split; [by apply switch_calls|].
    unfold componentDidUpdate. rewrite Hnew, Hold.
    case_decide as Heq; [congruence|].
    by apply updateScrollContainer_single.
  - intros p c. apply same_container_noop.
Qed.

(** The theorem at work: mounted on element 1, then switched to element 2,
    then updated with element 2 again. *)
Lemma scroll_handler_single_subscription_witness :
  let s := run initial [Mount (Accessor (Some 1%positive))] in
  calls (componentDidUpdate (Accessor (Some 2%positive)) s)
  = [AddEventListener 1%positive; RemoveEventListener 1%positive;
     AddEventListener 2%positive]
  ∧ componentDidUpdate (Accessor (Some 2%positive))
      (run initial [Mount (Accessor (Some 1%positive));
                    Update (Accessor (Some 2%positive))])
    = run initial [Mount (Accessor (Some 1%positive));
                   Update (Accessor (Some 2%positive))].
Proof.
  split.
  - pose proof (scroll_handler_single_subscription
                  [Mount (Accessor (Some 1%positive))]) as (_ & _ & Hswitch & _).
    apply (Hswitch (Accessor (Some 2%positive)) 1%positive 2%positive);
      [reflexivity | reflexivity | discriminate].
  - pose proof (scroll_handler_single_subscription
                  [Mount (Accessor (Some 1%positive));
                   Update (Accessor (Some 2%positive))]) as (_ & _ & _ & Hsame).
    apply (Hsame (Accessor (Some 2%positive)) 2%positive); reflexivity.
Defined.

End ScrollContainerFacts.

(** ** Masonry: virtualization *)

Module VirtualizerFacts.
Import Masonry.


Lemma truthy_num_nonzero q : truthy_num q = true ↔ ¬ (q == 0)%Q.
Proof.
  unfold truthy_num. rewrite negb_true_iff, <- not_true_iff_false.
  by rewrite Qeq_bool_iff.
Qed.

(** The bounds computed by the code are the window of the spec. *)
Lemma viewportTop_window i :
  viewportTop i = Double.sub (offsetScrollPos i) (bufferTop i).
Proof.
  unfold viewportTop, bufferTop.
  destruct (virtualBoundsTop (props i)) as [b|]; [|done]. by destruct (truthy_num b).
Qed.

Lemma viewportBottom_window i :
  viewportBottom i
  = Double.add (Double.add (offsetScrollPos i) (Double.ofQ (containerHeight i)))
      (bufferBottom i).
Proof.
  unfold viewportBottom, bufferBottom.
  destruct (virtualBoundsBottom (props i)) as [b|]; [|done]. by destruct (truthy_num b).
Qed.

(** With a scroll container and a non-zero buffer factor, visibility is
    the window test of the code. *)
Lemma isVisible_window i pos :
  is_Some (scrollContainer (props i)) →
  ¬ (virtualBufferFactor (props i) == 0)%Q →
  isVisible i pos
  = negb (Double.ltb
            (Double.add (Double.ofQ (top pos)) (Double.ofQ (height pos)))
            (Double.sub (offsetScrollPos i) (bufferTop i))
          || Double.ltb
               (Double.add
                  (Double.add (offsetScrollPos i) (Double.ofQ (containerHeight i)))
                  (bufferBottom i))
               (Double.ofQ (top pos))).
Proof.
  intros Hsc Hf. unfold isVisible.
  rewrite bool_decide_eq_true_2 by done.
  apply truthy_num_nonzero in Hf. rewrite Hf. simpl.
  by rewrite viewportTop_window, viewportBottom_window.
Qed.

Lemma rendered_iff_visible i isRtl it idx pos :
  virtualize (props i) = true →
  (renderMasonryComponent i isRtl it idx pos = None ↔ isVisible i pos = false)
  ∧ (is_Some (renderMasonryComponent i isRtl it idx pos) ↔ isVisible i pos = true).
Proof.
  intros Hv. unfold renderMasonryComponent. rewrite Hv.
  destruct (isVisible i pos); split; split; done.
Qed.

(** C1, as the code has it.  With virtualization enabled, a scroll
    container configured and a non-zero buffer factor, an item whose
    rectangle ends above [scrollOffset - bufferTop] or starts below
    [scrollOffset + containerHeight + bufferBottom] is not rendered, and
    every other item is rendered.  The buffers are the explicit pixel
    bounds when given (and non-zero), else
    [containerHeight * virtualBufferFactor]; the scroll offset is taken
    relative to the grid ([scrollTop - containerOffset]).  Every sum,
    difference and product, the bottom edge [top + height] of the item
    included, is the double the code computes, and the comparisons are
    those of doubles: an item compared with a NaN is neither above nor
    below. *)
Theorem virtualizer_window i isRtl it idx pos :
  virtualize (props i) = true →
  is_Some (scrollContainer (props i)) →
  ¬ (virtualBufferFactor (props i) == 0)%Q →
  let lo := Double.sub (offsetScrollPos i) (bufferTop i) in
  let hi :=
    Double.add (Double.add (offsetScrollPos i) (Double.ofQ (containerHeight i)))
      (bufferBottom i) in
  let itemTop := Double.ofQ (top pos) in
  let itemBottom := Double.add (Double.ofQ (top pos)) (Double.ofQ (height pos)) in
  ((Double.ltb itemBottom lo = true ∨ Double.ltb hi itemTop = true) →
     renderMasonryComponent i isRtl it idx pos = None)
  ∧ ((Double.ltb itemBottom lo = false ∧ Double.ltb hi itemTop = false) →
     is_Some (renderMasonryComponent i isRtl it idx pos)).
Proof.
  intros Hv Hsc Hf lo hi itemTop itemBottom.
  destruct (rendered_iff_visible i isRtl it idx pos Hv) as [Hnone Hsome].
  rewrite Hnone, Hsome, (isVisible_window i pos Hsc Hf).
  fold lo hi itemTop itemBottom.
  split.
  - intros [Habove | Hbelow]; apply negb_false_iff, orb_true_iff.
    + by left.
    + by right.
  - intros [Hlo Hhi]. by apply negb_true_iff, orb_false_iff.
Qed.

(** The theorem at the default buffer factor 0.7: scrolled to 1000 in a
    container 500 high, the window is [650, 1850]. *)
Lemma virtualizer_window_witness :
  renderMasonryComponent Examples.defaultFactor false Examples.a 0 Examples.above
  = None
  ∧ is_Some
      (renderMasonryComponent Examples.defaultFactor false Examples.a 0
         Examples.inside).
Proof.
  split.
  - apply (virtualizer_window Examples.defaultFactor false Examples.a 0 Examples.above);
      [reflexivity | by eexists | by vm_compute | left; by vm_compute].
  - apply (virtualizer_window Examples.defaultFactor false Examples.a 0 Examples.inside);
      [reflexivity | by eexists | by vm_compute | split; by vm_compute].
Defined.

(** C1 as stated fails, in two ways.  First: with virtualization on, a
    scroll container and explicit 100px bounds, but buffer factor 0, the
    item at [0, 50] lies entirely above the window [900, 1600] and is
    rendered all the same.  Second: scrolled to 0.2, with the grid 10.1
    below the top of a container 10.1 high, explicit bounds of 1e-300 and
    a non-zero factor, the rectangle from 0.19999999999999932 to
    50.19999999999999932 overlaps the window
    [0.2 - 10.1 - 1e-300, 0.2 - 10.1 + 10.1 + 1e-300] of exact
    arithmetic, all numbers being doubles, and is not rendered: the code
    computes the upper bound as 0.1999999999999993. *)
Lemma virtualizer_window_counterexample :
  (virtualize (props Examples.zeroFactor) = true
   ∧ is_Some (scrollContainer (props Examples.zeroFactor))
   ∧ Double.sub (offsetScrollPos Examples.zeroFactor)
       (bufferTop Examples.zeroFactor) = Double.ofQ 900
   ∧ Double.add (Double.ofQ (top Examples.above))
       (Double.ofQ (height Examples.above)) = Double.ofQ 50
   ∧ Double.ltb
       (Double.add (Double.ofQ (top Examples.above))
          (Double.ofQ (height Examples.above)))
       (Double.sub (offsetScrollPos Examples.zeroFactor)
          (bufferTop Examples.zeroFactor)) = true
   ∧ renderMasonryComponent Examples.zeroFactor false Examples.a 0 Examples.above
     ≠ None)
  ∧ (virtualize (props Examples.cancelling) = true
     ∧ is_Some (scrollContainer (props Examples.cancelling))
     ∧ ¬ (virtualBufferFactor (props Examples.cancelling) == 0)%Q
     ∧ virtualBoundsTop (props Examples.cancelling) = Some Examples.d1e_300
     ∧ virtualBoundsBottom (props Examples.cancelling) = Some Examples.d1e_300
     ∧ forallb Double.isDouble
         [s_scrollTop (state Examples.cancelling);
          containerOffset Examples.cancelling;
          containerHeight Examples.cancelling;
          virtualBufferFactor (props Examples.cancelling);
          Examples.d1e_300;
          top Examples.nearTheBottomEdge;
          height Examples.nearTheBottomEdge] = true
     ∧ (s_scrollTop (state Examples.cancelling)
        - containerOffset Examples.cancelling - Examples.d1e_300
        <= top Examples.nearTheBottomEdge + height Examples.nearTheBottomEdge)%Q
     ∧ (top Examples.nearTheBottomEdge
        <= s_scrollTop (state Examples.cancelling)
           - containerOffset Examples.cancelling
           + containerHeight Examples.cancelling + Examples.d1e_300)%Q
     ∧ viewportBottom Examples.cancelling = Double.ofQ 0.1999999999999993
     ∧ renderMasonryComponent Examples.cancelling false Examples.a 0
         Examples.nearTheBottomEdge = None).
Proof.
  split.
  - split_and!;
      [reflexivity | by eexists | by vm_compute | by vm_compute | by vm_compute
      | by vm_compute].
  - split_and!;
      [reflexivity | by eexists | by vm_compute | reflexivity | reflexivity
      | by vm_compute | by vm_compute | by vm_compute | by vm_compute
      | by vm_compute].
Qed.

(** The bounds are those the code computes.  Scrolled to 0.8, with the
    grid 0.1 below the top of a container 1 high and the factor 0.7, the
    lower bound [0.8 - 0.1 - 1 * 0.7] comes out as 2^-53, and an item that
    ends at 0 is not rendered. *)
Lemma window_edge_is_rounded :
  viewportTop Examples.atTheEdge = Double.ofQ (1 # 2 ^ 53)
  ∧ renderMasonryComponent Examples.atTheEdge false Examples.a 0
      Examples.endsAtZero = None.
Proof. split; by vm_compute. Qed.

(** C7. When virtualization is requested and no scroll container is
    configured, every item is visible and the component for it is
    returned, at every position and every scroll offset. *)
Theorem no_scroll_container_renders_everything i isRtl it idx pos scrollTop :
  virtualize (props i) = true →
  scrollContainer (props i) = None →
  let i' := with_state (set_scrollTop scrollTop (state i)) i in
  isVisible i' pos = true
  ∧ is_Some (renderMasonryComponent i' isRtl it idx pos).
Proof.
  intros Hv Hsc i'.
  assert (Hvis : isVisible i' pos = true).
  { unfold isVisible. subst i'. simpl. by rewrite Hsc. }
  split; [done|].
  apply (rendered_iff_visible i' isRtl it idx pos); [by subst i' | done].
Qed.

Lemma no_scroll_container_renders_everything_witness :
  isVisible
    (with_state (set_scrollTop 5000 (state Examples.noScrollContainer))
       Examples.noScrollContainer) Examples.above = true
  ∧ is_Some
      (renderMasonryComponent
         (with_state (set_scrollTop 5000 (state Examples.noScrollContainer))
            Examples.noScrollContainer) false Examples.a 0 Examples.above).
Proof.
  apply (no_scroll_container_renders_everything Examples.noScrollContainer
           false Examples.a 0 Examples.above 5000); reflexivity.
Defined.

(** C10. With [virtualize] on and a scroll container configured, a buffer
    factor of 0 makes every item visible, whatever the explicit bounds:
    the window test is guarded by [scrollContainer && virtualBufferFactor]. *)
Theorem zero_buffer_factor_disables_virtualization i isRtl it idx pos :
  virtualize (props i) = true →
  is_Some (scrollContainer (props i)) →
  (virtualBufferFactor (props i) == 0)%Q →
  isVisible i pos = true
  ∧ is_Some (renderMasonryComponent i isRtl it idx pos).
Proof.
  intros Hv Hsc Hf.
  assert (Hvis : isVisible i pos = true).
  { unfold isVisible.
    assert (truthy_num (virtualBufferFactor (props i)) = false) as ->.
    { unfold truthy_num. apply negb_false_iff. by apply Qeq_bool_iff. }
    by rewrite andb_false_r. }
  split; [done|].
  by apply (rendered_iff_visible i isRtl it idx pos).
Qed.

Lemma zero_buffer_factor_disables_virtualization_witness :
  isVisible Examples.zeroFactor Examples.above = true
  ∧ is_Some
      (renderMasonryComponent Examples.zeroFactor false Examples.a 0 Examples.above).
Proof.
  apply (zero_buffer_factor_disables_virtualization Examples.zeroFactor false
           Examples.a 0 Examples.above);
    [reflexivity | by eexists | reflexivity].
Defined.

(** In a whole pass: without a scroll container, no item of the grid is
    left out, virtualization requested or not. *)
Lemma renderItems_all_rendered i isRtl ps positions its :
  scrollContainer (props i) = None →
  ∀ idx comps,
    renderItems i isRtl ps positions idx its = Some comps →
    Forall is_Some comps.
Proof.
  intros Hsc. induction its as [| it its IH]; intros idx comps Hr; simpl in Hr.
  - injection Hr as <-. constructor.
  - destruct (positionFor ps positions idx it) as [pos|]; [|done]. simpl in Hr.
    destruct (renderItems i isRtl ps positions (S idx) its) as [tl|] eqn:Htl;
      [|done].
    simpl in Hr. injection Hr as <-. constructor; [|by eapply IH].
    unfold renderMasonryComponent, isVisible. rewrite Hsc. simpl.
    by destruct (virtualize (props i)).
Qed.

Lemma render_without_scroll_container `{!Imports} isRtl sys g :
  scrollContainer (props (this sys)) = None →
  (render isRtl sys).2 = Some (FullLayout g) →
  Forall is_Some (g_items g).
Proof.
  intros Hsc. unfold render.
  destruct (s_width (state (this sys))) as [w|].
  2: { by destruct (s_hasPendingMeasurements (state (this sys))). }
  destruct (getLayoutAlgorithm _ _ _ (itemsToRender _ _)) as [positions ps1].
  destruct (getLayoutAlgorithm _ _ ps1 _) as [measuringPositions ps2].
  simpl.
  destruct (renderItems _ _ _ _ _ _) as [rendered|] eqn:Hr; [|done]. simpl.
  destruct (renderMeasuring _ _ _ _) as [measuring|]; [|done]. simpl.
  intros [= <-]. simpl.
  eapply renderItems_all_rendered; [|exact Hr]. exact Hsc.
Qed.

End VirtualizerFacts.

(** ** Masonry: the stores *)

Module StoreFacts.
Import Masonry.

Lemma has_empty {V} (it : item) : Cache.has (∅ : gmap item V) it = false.
Proof.
  unfold Cache.has. apply bool_decide_eq_false_2.
  rewrite lookup_empty. by intros [? ?].
Qed.

Lemma has_reset {V} (m : gmap item V) it : Cache.has (Cache.reset m) it = false.
Proof. apply has_empty. Qed.

Lemma measurementsAt_write r r' m h :
  measurementsAt (writeMeasurements r m h) r'
  = if decide (r = r') then m else measurementsAt h r'.
Proof.
  unfold measurementsAt, writeMeasurements. simpl.
  rewrite lookup_insert. by case_decide.
Qed.

Lemma positionsAt_write r r' m h :
  positionsAt (writePositions r m h) r'
  = if decide (r = r') then m else positionsAt h r'.
Proof.
  unfold positionsAt, writePositions. simpl.
  rewrite lookup_insert. by case_decide.
Qed.

Lemma measurementsAt_writePositions r r' m h :
  measurementsAt (writePositions r m h) r' = measurementsAt h r'.
Proof. done. Qed.

Lemma positionsAt_writeMeasurements r r' m h :
  positionsAt (writeMeasurements r m h) r' = positionsAt h r'.
Proof. done. Qed.

Lemma measurementsAt_reset_same r h : measurementsAt (resetMeasurements r h) r = ∅.
Proof.
  unfold resetMeasurements. rewrite measurementsAt_write. by case_decide.
Qed.

Lemma positionsAt_reset_same r h : positionsAt (resetPositions r h) r = ∅.
Proof.
  unfold resetPositions. rewrite positionsAt_write. by case_decide.
Qed.

(** A store that is empty stays empty when any store is reset. *)
Lemma measurementsAt_reset_empty r r' h :
  measurementsAt h r' = ∅ → measurementsAt (resetMeasurements r h) r' = ∅.
Proof.
  intros He. unfold resetMeasurements. rewrite measurementsAt_write.
  by case_decide.
Qed.

(** [getDerivedStateFromProps] leaves the store reference of the state alone. *)
Lemma mergeDerivedState_store d s :
  s_measurementStore (mergeDerivedState d s) = s_measurementStore s.
Proof.
  destruct d as [d|]; [|done]. simpl. by destruct (d_isFetching d).
Qed.

Lemma deriveState_frame sys :
  heap (deriveState sys) = heap sys
  ∧ effects (deriveState sys) = effects sys
  ∧ props (this (deriveState sys)) = props (this sys)
  ∧ i_positionStore (this (deriveState sys)) = i_positionStore (this sys)
  ∧ s_measurementStore (state (this (deriveState sys)))
    = s_measurementStore (state (this sys)).
Proof.
  unfold deriveState. simpl. split_and!; try done.
  apply mergeDerivedState_store.
Qed.

Lemma itemsToRender_empty its : itemsToRender ∅ its = [].
Proof.
  unfold itemsToRender. induction its as [| it its IH]; [done|].
  simpl. by rewrite has_empty, andb_false_r.
Qed.

(** [componentDidUpdate] touches the heap only through the two resets. *)
Lemma componentDidUpdate_this prevState sys :
  this (componentDidUpdate prevState sys) = this sys.
Proof.
  unfold componentDidUpdate.
  destruct (widthChanged _ _);
    match goal with
    | |- context [if ?b then _ else _] => by destruct b
    end.
Qed.

Lemma componentDidUpdate_heap prevState sys :
  heap (componentDidUpdate prevState sys)
  = if widthChanged (s_width prevState) (s_width (state (this sys)))
    then resetPositions (i_positionStore (this sys))
           (resetMeasurements (s_measurementStore (state (this sys))) (heap sys))
    else heap sys.
Proof.
  unfold componentDidUpdate.
  destruct (widthChanged _ _);
    match goal with
    | |- context [if ?b then _ else _] => by destruct b
    end.
Qed.

(** C2. When the width of the previous update was known and the current
    width differs from it, [componentDidUpdate] leaves both the
    measurement store of the state and the position store empty:
    [has(item)] is false for every item, cached before or not. *)
Theorem width_change_resets_both_stores prevState sys w0 it :
  s_width prevState = Some w0 →
  (∀ w1, s_width (state (this sys)) = Some w1 → ¬ (w1 == w0)%Q) →
  let sys' := componentDidUpdate prevState sys in
  Cache.has
    (measurementsAt (heap sys') (s_measurementStore (state (this sys')))) it
  = false
  ∧ Cache.has (positionsAt (heap sys') (i_positionStore (this sys'))) it = false.
Proof.
  intros Hprev Hcur sys'.
  assert (Hchanged :
    widthChanged (s_width prevState) (s_width (state (this sys))) = true).
  { unfold widthChanged. rewrite Hprev.
    destruct (s_width (state (this sys))) as [w1|]; [|done].
    apply negb_true_iff, not_true_iff_false. rewrite Qeq_bool_iff.
    by apply Hcur. }
  subst sys'. rewrite componentDidUpdate_this, componentDidUpdate_heap, Hchanged.
  unfold resetPositions at 1.
  rewrite measurementsAt_writePositions, measurementsAt_reset_same,
    positionsAt_reset_same.
  split; apply has_empty.
Qed.

(** The scenario of the spec: the width goes from 900 to 600 with three
    items cached in both stores. *)
Lemma width_change_resets_both_stores_witness :
  Cache.has
    (measurementsAt (heap Examples.resized)
       (s_measurementStore (state (this Examples.resized)))) Examples.a = true
  ∧ Cache.has
      (measurementsAt
         (heap (componentDidUpdate Examples.before900 Examples.resized))
         (s_measurementStore
            (state (this (componentDidUpdate Examples.before900 Examples.resized)))))
      Examples.a = false
  ∧ Cache.has
      (positionsAt
         (heap (componentDidUpdate Examples.before900 Examples.resized))
         (i_positionStore
            (this (componentDidUpdate Examples.before900 Examples.resized))))
      Examples.a = false.
Proof.
  split; [by vm_compute|].
  apply (width_change_resets_both_stores Examples.before900 Examples.resized
           900%Q Examples.a); [reflexivity|].
  intros w1 Hw1. injection Hw1 as <-. by vm_compute.
Defined.

Lemma mergeDerivedState_width d s :
  s_width (mergeDerivedState d s) = s_width s.
Proof.
  destruct d as [d|]; [|done]. simpl. by destruct (d_isFetching d).
Qed.

(** [render] changes [this.maxHeight] and the position store only. *)
Lemma render_frame `{!Imports} isRtl sys :
  state (this (render isRtl sys).1) = state (this sys)
  ∧ props (this (render isRtl sys).1) = props (this sys)
  ∧ i_positionStore (this (render isRtl sys).1) = i_positionStore (this sys).
Proof.
  unfold render.
  destruct (s_width (state (this sys))) as [w|].
  - destruct (getLayoutAlgorithm _ _ _ (itemsToRender _ _)) as [positions ps1].
    by destruct (getLayoutAlgorithm _ _ ps1 _) as [measuringPositions ps2].
  - by destruct (s_hasPendingMeasurements (state (this sys))).
Qed.

(** The whole update after a resize: when the wrapper reports a width
    other than the known one, the update ends with both stores empty,
    whatever [render] wrote to the position store on the way. *)
Lemma resize_update_resets_both_stores `{!Imports} isRtl dom sys el w0 it :
  s_width (state (this sys)) = Some w0 →
  ¬ (clientWidth dom el == w0)%Q →
  let sys' := update isRtl (set_width (Some (clientWidth dom el))) sys in
  s_width (state (this sys')) = Some (clientWidth dom el)
  ∧ Cache.has
      (measurementsAt (heap sys') (s_measurementStore (state (this sys')))) it
    = false
  ∧ Cache.has (positionsAt (heap sys') (i_positionStore (this sys'))) it = false.
Proof.
  intros Hw0 Hne sys'. subst sys'. unfold update.
  rewrite componentDidUpdate_this, componentDidUpdate_heap.
  destruct (render_frame isRtl
              (setState (set_width (Some (clientWidth dom el))) sys))
    as (-> & _ & ->).
  assert (Hw : s_width (state (this (setState (set_width (Some (clientWidth dom el))) sys)))
               = Some (clientWidth dom el)).
  { unfold setState, deriveState. simpl. by rewrite mergeDerivedState_width. }
  rewrite Hw, Hw0. simpl.
  assert (Qeq_bool (clientWidth dom el) w0 = false) as ->.
  { apply not_true_iff_false. by rewrite Qeq_bool_iff. }
  simpl. unfold resetPositions at 1.
  rewrite measurementsAt_writePositions, measurementsAt_reset_same,
    positionsAt_reset_same.
  split_and!; [done | apply has_empty | apply has_empty].
Qed.

Lemma measureContainer_frame dom i :
  props (measureContainer dom i) = props i
  ∧ state (measureContainer dom i) = state i
  ∧ i_positionStore (measureContainer dom i) = i_positionStore i.
Proof.
  unfold measureContainer.
  destruct (scrollContainerRef i); [|done]. by destruct (i_gridWrapper i).
Qed.

Lemma reflow_heap dom sys :
  heap (reflow dom sys)
  = resetPositions (i_positionStore (this sys))
      (resetMeasurements (s_measurementStore (state (this sys)))
         match measurementStore (props (this sys)) with
         | Some r => resetMeasurements r (heap sys)
         | None => heap sys
         end).
Proof.
  unfold reflow, forceUpdate.
  match goal with
  | |- context [deriveState ?s] =>
      destruct (deriveState_frame s) as (-> & _)
  end.
  done.
Qed.

Lemma reflow_effects dom sys :
  effects (reflow dom sys) = effects sys ++ [CallForceUpdate].
Proof.
  unfold reflow, forceUpdate.
  match goal with
  | |- context [deriveState ?s] =>
      destruct (deriveState_frame s) as (_ & -> & _)
  end.
  done.
Qed.

Lemma reflow_refs dom sys :
  props (this (reflow dom sys)) = props (this sys)
  ∧ i_positionStore (this (reflow dom sys)) = i_positionStore (this sys)
  ∧ s_measurementStore (state (this (reflow dom sys)))
    = s_measurementStore (state (this sys)).
Proof.
  unfold reflow, forceUpdate.
  match goal with
  | |- context [deriveState ?s] =>
      destruct (deriveState_frame s) as (_ & _ & -> & -> & ->)
  end.
  simpl. destruct (measureContainer_frame dom (this sys)) as (-> & -> & ->).
  done.
Qed.

(** C6. After [reflow()], [has(item)] is false for every item in the
    measurement store of the state, in the position store, and in the
    measurement store passed in the props when there is one; a re-render
    is forced ([forceUpdate]), and in it no item counts as measured, so
    every item is due for measuring again. *)
Theorem reflow_clears_every_store dom sys it :
  let sys' := reflow dom sys in
  Cache.has
    (measurementsAt (heap sys') (s_measurementStore (state (this sys')))) it
  = false
  ∧ Cache.has (positionsAt (heap sys') (i_positionStore (this sys'))) it = false
  ∧ match measurementStore (props (this sys')) with
    | Some r => Cache.has (measurementsAt (heap sys') r) it = false
    | None => True
    end
  ∧ effects sys' = effects sys ++ [CallForceUpdate]
  ∧ itemsToRender
      (measurementsAt (heap sys') (s_measurementStore (state (this sys'))))
      (items (props (this sys'))) = [].
Proof.
  intros sys'. subst sys'.
  destruct (reflow_refs dom sys) as (Hp & Hps & Hms).
  rewrite Hp, Hps, Hms, reflow_heap, reflow_effects.
  set (h1 := match measurementStore (props (this sys)) with
             | Some r => resetMeasurements r (heap sys)
             | None => heap sys
             end).
  assert (Hstate :
    measurementsAt
      (resetPositions (i_positionStore (this sys))
         (resetMeasurements (s_measurementStore (state (this sys))) h1))
      (s_measurementStore (state (this sys))) = ∅).
  { unfold resetPositions. rewrite measurementsAt_writePositions.
    apply measurementsAt_reset_same. }
  split_and!.
  - rewrite Hstate. apply has_empty.
  - rewrite positionsAt_reset_same. apply has_empty.
  - subst h1. destruct (measurementStore (props (this sys))) as [r|]; [|done].
    unfold resetPositions. rewrite measurementsAt_writePositions.
    rewrite measurementsAt_reset_empty; [apply has_empty|].
    apply measurementsAt_reset_same.
  - done.
  - rewrite Hstate. apply itemsToRender_empty.
Qed.

(** The theorem on a grid whose caller has passed another measurement
    store (cell 2) than the one the state holds (cell 1): [a] is cached in
    all three stores before, in none after. *)
Lemma reflow_clears_every_store_witness :
  (Cache.has (measurementsAt (heap Examples.swapped) 1%positive) Examples.a = true
   ∧ Cache.has (measurementsAt (heap Examples.swapped) 2%positive) Examples.a = true
   ∧ Cache.has (positionsAt (heap Examples.swapped) 1%positive) Examples.a = true)
  ∧ Cache.has
      (measurementsAt (heap (reflow Examples.noDom Examples.swapped)) 1%positive)
      Examples.a = false
  ∧ Cache.has
      (positionsAt (heap (reflow Examples.noDom Examples.swapped)) 1%positive)
      Examples.a = false
  ∧ Cache.has
      (measurementsAt (heap (reflow Examples.noDom Examples.swapped)) 2%positive)
      Examples.a = false.
Proof.
  split; [by vm_compute|].
  pose proof (reflow_clears_every_store Examples.noDom Examples.swapped Examples.a)
    as (Hstate & Hpos & Hprops & _).
  split_and!; [exact Hstate | exact Hpos | exact Hprops].
Defined.

End StoreFacts.

(** ** Masonry: the fetch-in-progress flag *)

Module FetchFacts.
Import Masonry.

(** Comparing an item sequence without [undefined] with itself finds no
    change. *)
Lemma itemsChangedFrom_same (its : list item) :
  Undefined ∉ its →
  ∀ rest i, drop i its = rest → itemsChangedFrom its its i rest = false.
Proof.
  intros Hdef rest. induction rest as [| it rest IH]; intros i Hdrop; [done|].
  assert (Hi : its !! i = Some it).
  { rewrite <- (Nat.add_0_r i), <- lookup_drop, Hdrop. done. }
  assert (Hat : at_index its i = it) by (unfold at_index; by rewrite Hi).
  simpl. rewrite Hat.
  rewrite bool_decide_eq_false_2.
  2: { intros ->. apply Hdef. by eapply list_elem_of_lookup_2. }
  rewrite bool_decide_eq_false_2 by (intros Hne; by apply Hne).
  rewrite Nat.ltb_irrefl. simpl.
  apply IH. erewrite drop_S in Hdrop by done. by injection Hdrop.
Qed.

(** When the loop of [getDerivedStateFromProps] finds no change, the new
    items are a prefix of the stored ones and there are at least as many. *)
Lemma itemsChangedFrom_false (its stateItems : list item) :
  ∀ rest i,
    itemsChangedFrom its stateItems i rest = false →
    (∀ k it, rest !! k = Some it → stateItems !! (i + k)%nat = Some it)
    ∧ (rest ≠ [] → length stateItems ≤ length its).
Proof.
  induction rest as [| it rest IH]; intros i Hloop; [done|].
  simpl in Hloop.
  destruct (bool_decide (at_index stateItems i = Undefined)) eqn:Hundef; [done|].
  apply bool_decide_eq_false in Hundef.
  destruct (bool_decide (it ≠ at_index stateItems i)) eqn:Hne; [done|].
  apply bool_decide_eq_false in Hne. simpl in Hloop.
  destruct (length its <? length stateItems)%nat eqn:Hlen; [done|].
  apply Nat.ltb_ge in Hlen.
  assert (Hat : stateItems !! i = Some it).
  { assert (at_index stateItems i = it) as Heq
      by (destruct (decide (it = at_index stateItems i)); [done | by destruct Hne]).
    unfold at_index in Heq, Hundef.
    destruct (stateItems !! i); simpl in *; congruence. }
  destruct (IH (S i) Hloop) as [Hprefix _].
  split; [|done].
  intros [| k] y Hy; simpl in Hy.
  - injection Hy as <-. by rewrite Nat.add_0_r.
  - replace (i + S k)%nat with (S i + k)%nat by lia. by apply Hprefix.
Qed.

(** When neither the loop nor the test for an emptied array finds a
    change, the new item sequence is the stored one. *)
Lemma items_unchanged (its stateItems : list item) :
  itemsChangedFrom its stateItems 0 its = false →
  (length its =? 0)%nat && (0 <? length stateItems)%nat = false →
  its = stateItems.
Proof.
  intros Hloop Hempty.
  destruct (itemsChangedFrom_false _ _ _ _ Hloop) as [Hprefix Hlen].
  assert (Hle : length stateItems ≤ length its).
  { destruct its as [| it its']; [|by apply Hlen].
    simpl in Hempty. apply Nat.ltb_ge in Hempty. simpl. lia. }
  apply list_eq. intros k.
  destruct (its !! k) as [it|] eqn:Hk.
  - symmetry. by apply (Hprefix k it).
  - symmetry. apply lookup_ge_None. apply lookup_ge_None in Hk. lia.
Qed.

(** A props update that leaves the flag set carries the stored item
    sequence: every other sequence clears the flag. *)
Lemma flag_kept_only_by_same_items p s ms :
  s_isFetching (mergeDerivedState (getDerivedStateFromProps p s ms) s) = true →
  items p = s_items s.
Proof.
  unfold getDerivedStateFromProps.
  destruct (itemsChangedFrom (items p) (s_items s) 0 (items p)) eqn:Hloop; [done|].
  destruct ((length (items p) =? 0)%nat && (0 <? length (s_items s))%nat)
    eqn:Hempty; [done|].
  intros _. by apply items_unchanged.
Qed.

(** After [getDerivedStateFromProps] the state holds the item sequence of
    the props; so it does after construction. *)
Lemma derived_items_in_step p s ms :
  s_items (mergeDerivedState (getDerivedStateFromProps p s ms) s) = items p.
Proof.
  unfold getDerivedStateFromProps.
  destruct (itemsChangedFrom (items p) (s_items s) 0 (items p)) eqn:Hloop; [done|].
  destruct ((length (items p) =? 0)%nat && (0 <? length (s_items s))%nat)
    eqn:Hempty; [done|].
  destruct (xorb _ _); simpl; [done|].
  symmetry. by apply items_unchanged.
Qed.

Lemma deriveState_in_step sys :
  s_items (state (this (deriveState sys))) = items (props (this (deriveState sys))).
Proof. unfold deriveState. simpl. apply derived_items_in_step. Qed.

Lemma constructor_in_step `{!Imports} p h :
  s_items (state (this (constructor p h))) = items (props (this (constructor p h)))
  ∧ s_isFetching (state (this (constructor p h))) = false
  ∧ maxHeight (this (constructor p h)) = 0%Q.
Proof.
  unfold constructor.
  destruct (measurementStore p); destruct (positionStore p); done.
Qed.

(** Seeing the stored item sequence again leaves [isFetching] and the
    stored sequence as they are. *)
Lemma derived_same_items p s ms :
  Undefined ∉ items p →
  s_items s = items p →
  let s' := mergeDerivedState (getDerivedStateFromProps p s ms) s in
  s_items s' = items p ∧ s_isFetching s' = s_isFetching s.
Proof.
  intros Hdef Hsync. unfold getDerivedStateFromProps.
  rewrite Hsync, (itemsChangedFrom_same (items p) Hdef (items p) 0) by done.
  destruct (length (items p)) eqn:Hlen; simpl.
  - destruct (xorb _ _); simpl; [done|]. by rewrite Hsync.
  - destruct (xorb _ _); simpl; [done|]. by rewrite Hsync.
Qed.

Lemma deriveState_fetching its sys :
  Undefined ∉ its → fetching its sys → fetching its (deriveState sys).
Proof.
  intros Hdef (Hp & Hs & Hf). unfold fetching, deriveState. simpl.
  destruct (derived_same_items (props (this sys)) (state (this sys))
              (measurementsAt (heap sys) (s_measurementStore (state (this sys)))))
    as [Hitems Hflag]; [by rewrite Hp | congruence |].
  split_and!; [done | by rewrite Hitems | by rewrite Hflag].
Qed.

Lemma setState_fetching its f sys :
  Undefined ∉ its →
  (∀ s, s_items (f s) = s_items s) →
  (∀ s, s_isFetching s = true → s_isFetching (f s) = true) →
  fetching its sys → fetching its (setState f sys).
Proof.
  intros Hdef Hitems Hflag (Hp & Hs & Hf). unfold setState.
  apply deriveState_fetching; [done|].
  unfold fetching. simpl. rewrite Hitems. split_and!; [done | done | by apply Hflag].
Qed.

Lemma step_fetching its sys ev :
  Undefined ∉ its → keepsItems its ev → fetching its sys → fetching its (step sys ev).
Proof.
  intros Hdef Hev Hinv.
  destruct ev as [p | dom | dom | dom | b | | dom | | h]; simpl in *.
  - apply deriveState_fetching; [done|].
    destruct Hinv as (Hp & Hs & Hf). by split_and!.
  - unfold componentDidMount. apply setState_fetching; [done | done | done |].
    destruct Hinv as (Hp & Hs & Hf). unfold fetching. simpl.
    destruct (StoreFacts.measureContainer_frame dom (this sys)) as (-> & -> & _).
    by split_and!.
  - unfold handleResize. destruct (i_gridWrapper (this sys)); [|done].
    by apply setState_fetching.
  - unfold updateScrollPosition. destruct (scrollContainerRef (this sys)); [|done].
    by apply setState_fetching.
  - by apply setState_fetching.
  - unfold fetchMore. destruct (loadItems (props (this sys))); [|done].
    assert (fetching its (setState (set_isFetching true) sys)) as Hs
      by (by apply setState_fetching).
    exact Hs.
  - unfold reflow, forceUpdate. apply deriveState_fetching; [done|].
    destruct Hinv as (Hp & Hs & Hf). unfold fetching. simpl.
    destruct (StoreFacts.measureContainer_frame dom (this sys)) as (-> & -> & _).
    by split_and!.
  - unfold forceUpdate. by apply deriveState_fetching.
  - exact Hinv.
Qed.

Lemma run_fetching its evs :
  Undefined ∉ its →
  ∀ sys, Forall (keepsItems its) evs → fetching its sys → fetching its (run sys evs).
Proof.
  intros Hdef. induction evs as [| ev evs IH]; intros sys Hevs Hinv; [done|].
  inversion Hevs as [| ? ? Hev Hevs']; subst. simpl.
  apply IH; [done|]. by apply step_fetching.
Qed.

(** C4, as the code has it.  [fetchMore] sets the fetch-in-progress flag
    and asks the host for items from the current item count on.  From
    then on the flag stays set through every transition (mount, resize,
    scroll, animation frame, further [fetchMore], [reflow], forced update,
    store writes, new props) as long as every props update carries the
    item sequence that was stored when the fetch was triggered.  Only a
    props update with a different item sequence can clear it.  (Item
    sequences are taken without [undefined] entries, and the stored
    sequence is the one of the props, as it is after construction and
    after every update.) *)
Theorem fetch_flag_held_until_items_change sys evs :
  loadItems (props (this sys)) = true →
  s_items (state (this sys)) = items (props (this sys)) →
  Undefined ∉ items (props (this sys)) →
  Forall (keepsItems (items (props (this sys)))) evs →
  let triggered := fetchMore sys in
  effects triggered
  = effects sys ++ [CallLoadItems (length (items (props (this sys))))]
  ∧ s_isFetching (state (this triggered)) = true
  ∧ s_isFetching (state (this (run triggered evs))) = true.
Proof.
  intros Hload Hsync Hdef Hevs triggered.
  assert (Htrig : fetching (items (props (this sys))) triggered).
  { subst triggered. unfold fetchMore. rewrite Hload.
    unfold setState.
    match goal with
    | |- fetching _ (emit _ (deriveState ?s)) =>
        assert (fetching (items (props (this sys))) (deriveState s)) as Hs
    end; [|exact Hs].
    apply deriveState_fetching; [done|]. by split_and!. }
  split_and!.
  - subst triggered. unfold fetchMore. rewrite Hload. reflexivity.
  - by destruct Htrig as (_ & _ & ?).
  - by destruct (run_fetching _ evs Hdef triggered Hevs Htrig) as (_ & _ & ?).
Qed.

(** The theorem at work: a fetch triggered on three items survives a
    resize, a scroll, an animation frame and a re-render with the same
    three items. *)
Lemma fetch_flag_held_until_items_change_witness :
  effects (fetchMore Examples.idle) = [CallLoadItems 3]
  ∧ s_isFetching (state (this (fetchMore Examples.idle))) = true
  ∧ s_isFetching
      (state (this (run (fetchMore Examples.idle)
                      [Resize Examples.noDom; Scroll Examples.noDom;
                       AnimationFrame true;
                       ReceiveProps (Examples.gridProps
                                       [Examples.a; Examples.b; Examples.c]
                                       None None)])))
    = true.
Proof.
  apply (fetch_flag_held_until_items_change Examples.idle
           [Resize Examples.noDom; Scroll Examples.noDom; AnimationFrame true;
            ReceiveProps (Examples.gridProps [Examples.a; Examples.b; Examples.c]
                            None None)]).
  - reflexivity.
  - reflexivity.
  - intros Hin. by repeat (apply elem_of_cons in Hin as [Hin | Hin]; [done|]);
      apply elem_of_nil in Hin.
  - repeat constructor.
Defined.

(** C4 as stated fails: a fetch is triggered at offset 3; the host then
    passes only the first two items; the flag is cleared although the
    sequence observed has length 2 < 3. *)
Lemma fetch_flag_released_by_shorter_items :
  effects (fetchMore Examples.idle) = [CallLoadItems 3]
  ∧ s_isFetching (state (this (fetchMore Examples.idle))) = true
  ∧ (length (items Examples.shorterProps) < 3)%nat
  ∧ s_isFetching
      (state (this (step (fetchMore Examples.idle)
                      (ReceiveProps Examples.shorterProps))))
    = false.
Proof. split_and!; by vm_compute. Qed.

End FetchFacts.

(** ** Masonry: the recorded maximum height *)

Module HeightFacts.
Import Masonry.




Section WithImports.
Context `{!Imports}.



End WithImports.



End HeightFacts.

(** ** Masonry: [render] returns a grid *)

Module RenderFacts.
Import Masonry.

Lemma renderItems_total i isRtl ps positions its :
  ∀ idx, (idx + length its ≤ length positions)%nat →
    is_Some (renderItems i isRtl ps positions idx its).
Proof.
  induction its as [| it its IH]; intros idx Hlen; simpl in *; [by eexists|].
  assert (is_Some (positionFor ps positions idx it)) as [pos ->].
  { unfold positionFor. destruct (Cache.get ps it); [by eexists|].
    apply lookup_lt_is_Some. lia. }
  simpl. destruct (IH (S idx)) as [tl ->]; [lia|]. by eexists.
Qed.

Lemma renderMeasuring_total rendered measuringPositions its :
  ∀ idx, (idx + length its ≤ length measuringPositions)%nat →
    is_Some (renderMeasuring rendered measuringPositions idx its).
Proof.
  induction its as [| it its IH]; intros idx Hlen; simpl in *; [by eexists|].
  assert (is_Some (measuringPositions !! idx)) as [pos ->]
    by (apply lookup_lt_is_Some; lia).
  simpl. destruct (IH (S idx)) as [tl ->]; [lia|]. by eexists.
Qed.

(** Once the width is known, [render] returns a grid whenever the layout
    returns one position per item it is given. *)
Lemma render_returns_grid `{!Imports} isRtl sys w :
  s_width (state (this sys)) = Some w →
  (∀ args ms ps its, length (getLayoutAlgorithm args ms ps its).1 = length its) →
  ∃ g, (render isRtl sys).2 = Some (FullLayout g).
Proof.
  intros Hw Hlayout. unfold render. rewrite Hw.
  destruct (getLayoutAlgorithm _ _ _ (itemsToRender _ _))
    as [positions ps1] eqn:Hpos.
  destruct (getLayoutAlgorithm _ _ ps1 _) as [measuringPositions ps2] eqn:Hmeas.
  apply (f_equal fst) in Hpos, Hmeas. simpl in Hpos, Hmeas.
  pose proof (Hlayout (layoutArgs (this sys))
                (measurementsAt (heap sys) (s_measurementStore (state (this sys))))
                (positionsAt (heap sys) (i_positionStore (this sys)))
                (itemsToRender
                   (measurementsAt (heap sys) (s_measurementStore (state (this sys))))
                   (items (props (this sys))))) as Hlen1.
  rewrite Hpos in Hlen1.
  pose proof (Hlayout (layoutArgs (this sys))
                (measurementsAt (heap sys) (s_measurementStore (state (this sys))))
                ps1
                (itemsToMeasure (this sys)
                   (measurementsAt (heap sys) (s_measurementStore (state (this sys))))
                   w)) as Hlen2.
  rewrite Hmeas in Hlen2.
  simpl.
  match goal with
  | |- context [renderItems ?i ?r ?ps ?pos 0 ?its] =>
      destruct (renderItems_total i r ps pos its 0) as [rendered ->]; [simpl; lia|]
  end.
  simpl.
  match goal with
  | |- context [renderMeasuring ?n ?pos 0 ?its] =>
      destruct (renderMeasuring_total n pos its 0) as [measuring ->]; [simpl; lia|]
  end.
  simpl. by eexists.
Qed.

(** The single-column strategy of the spec returns one position per item. *)
Lemma place_length columnWidth gutter ms its :
  ∀ heights, length (SpecLayout.place columnWidth gutter ms heights its) = length its.
Proof.
  induction its as [| it its IH]; intros heights; simpl; [done|].
  destruct (Cache.get ms it); simpl; by rewrite IH.
Qed.

Lemma spec_render_returns_grid defaultGutter fullWidthGutter isRtl sys w :
  s_width (state (this sys)) = Some w →
  ∃ g, (render (H := SpecLayout.imports defaultGutter fullWidthGutter) isRtl sys).2
       = Some (FullLayout g).
Proof.
  intros Hw. apply (render_returns_grid _ _ w Hw).
  intros args ms ps its. simpl. apply place_length.
Qed.

End RenderFacts.

(** ** Masonry: the measuring batch *)

Module BatchFacts.
Import Masonry.





Section WithImports.
Context `{!Imports}.



End WithImports.



End BatchFacts.

(** ** Masonry: the positions of a pass *)

Module DeterminismFacts.
Import Masonry.

(** [renderItems] renders every item at the position [positionFor] picks. *)
Lemma renderItems_positions i isRtl ps positions its :
  ∀ idx comps,
    renderItems i isRtl ps positions idx its = Some comps →
    ∃ poss,
      imap (λ k, positionFor ps positions (idx + k)) its = map Some poss
      ∧ comps
        = imap (λ k itpos, renderMasonryComponent i isRtl itpos.1 (idx + k) itpos.2)
            (zip its poss).
Proof.
  induction its as [| it its IH]; intros idx comps Hr; simpl in Hr.
  - injection Hr as <-. by exists [].
  - destruct (positionFor ps positions idx it) as [pos|] eqn:Hpos; [|done].
    simpl in Hr.
    destruct (renderItems i isRtl ps positions (S idx) its) as [tl|] eqn:Htl;
      [|done].
    simpl in Hr. injection Hr as <-.
    destruct (IH (S idx) tl Htl) as (poss & Hposs & ->).
    exists (pos :: poss). simpl. rewrite Nat.add_0_r, Hpos. split.
    + f_equal. rewrite <- Hposs. apply imap_ext. intros k x _. simpl.
      f_equal. lia.
    + f_equal. apply imap_ext. intros k x _. simpl. f_equal. lia.
Qed.

Section WithImports.
Context `{!Imports}.

(** The items sent to measurement depend on the instance through the
    arguments of the layout only. *)
Lemma itemsToMeasure_args i1 i2 ms w :
  layoutArgs i1 = layoutArgs i2 →
  itemsToMeasure i1 ms w = itemsToMeasure i2 ms w.
Proof.
  unfold layoutArgs. intros Hargs.
  injection Hargs as Halign Hcw Hg Hitems Hlayout Hmin Hwidth Hspan Hresp Hpos Hv2.
  unfold itemsToMeasure, itemsToMeasureCount, batchSize, moduleSize, gridSize,
    isFlexibleWidthItem, responsiveModuleConfigForSecondItem, nextMultiColumnItem.
  by rewrite Hcw, Hg, Hitems, Hlayout, Hmin, Hspan, Hresp, Hpos.
Qed.

(** [renderedPositions] gives the positions at which [render] renders
    the measured items. *)
Lemma render_at_renderedPositions isRtl sys g :
  (render isRtl sys).2 = Some (FullLayout g) →
  ∃ poss,
    renderedPositions sys = Some (map Some poss)
    ∧ g_items g
      = imap (λ k itpos,
                renderMasonryComponent (this (render isRtl sys).1) isRtl
                  itpos.1 k itpos.2)
          (zip (itemsToRender
                  (measurementsAt (heap sys)
                     (s_measurementStore (state (this sys))))
                  (items (props (this sys)))) poss).
Proof.
  unfold render, renderedPositions.
  destruct (s_width (state (this sys))) as [w|].
  2: { by destruct (s_hasPendingMeasurements (state (this sys))). }
  destruct (getLayoutAlgorithm _ _ _ (itemsToRender _ _)) as [positions ps1].
  destruct (getLayoutAlgorithm _ _ ps1 _) as [measuringPositions ps2].
  simpl.
  destruct (renderItems _ _ _ _ _ _) as [rendered|] eqn:Hr; [|done]. simpl.
  destruct (renderMeasuring _ _ _ _) as [measuring|]; [|done]. simpl.
  intros [= <-]. simpl.
  destruct (renderItems_positions _ _ _ _ _ _ _ Hr) as (poss & Hposs & ->).
  exists poss. split; [|done]. f_equal. exact Hposs.
Qed.

End WithImports.

(** The position store has a part in where items are rendered: two
    passes with the same component (the same ordered items and
    configuration) and the same measurements, whose position stores
    differ in a cached position for the first item, render that item at
    different positions.  The cached position takes precedence over the
    one the layout returns. *)
Lemma cached_position_changes_layout :
  this Examples.filledPositionStore = this Examples.emptyPositionStore
  ∧ measurements (heap Examples.filledPositionStore)
    = measurements (heap Examples.emptyPositionStore)
  ∧ (renderedPositions (H := Examples.specImports) Examples.emptyPositionStore
     ≫= (.!! 0%nat))
    = Some (Some {| top := 0; left := 0; width := 236; height := 100 |})
  ∧ (renderedPositions (H := Examples.specImports) Examples.filledPositionStore
     ≫= (.!! 0%nat))
    = Some (Some {| top := 999; left := 0; width := 236; height := 100 |})
  ∧ renderedPositions (H := Examples.specImports) Examples.emptyPositionStore
    ≠ renderedPositions (H := Examples.specImports) Examples.filledPositionStore.
Proof.
  split_and!; [done | done | by vm_compute | by vm_compute |].
  intros Heq.
  apply (f_equal (λ r, r ≫= (.!! 0%nat))) in Heq.
  vm_compute in Heq. discriminate Heq.
Qed.

End DeterminismFacts.

(** * Further properties of the code *)

(** ** ScrollContainer: subscription over the whole life of the component *)

Module ScrollContainerMore.
Import ScrollContainer ScrollContainerTrace.

Lemma run_app s evs1 evs2 : run s (evs1 ++ evs2) = run (run s evs1) evs2.
Proof. unfold run. apply foldl_app. Qed.

(** X1. However the component was mounted and updated, once
    [componentWillUnmount] has run the scroll handler is registered on no
    element. *)
Theorem unmount_removes_the_listener (evs : list lifecycle) :
  subscribed (run initial (evs ++ [Unmount])) = ∅.
Proof.
  rewrite run_app. simpl.
  assert (Hs : single_subscription (run initial evs))
    by (apply ScrollContainerFacts.run_single; by left).
  unfold componentWillUnmount.
  destruct Hs as [He | (c & Hc & He)].
  - destruct (scrollContainer (run initial evs)); simpl; rewrite ?He; set_solver.
  - rewrite Hc. simpl. rewrite He. set_solver.
Qed.

(** While the component is not unmounted, the tracked container is the
    last element the props resolved to, and once there is one the handler
    is registered on it. *)
Lemma step_tracks_resolved s ev :
  ev ≠ Unmount →
  single_subscription s →
  (∀ c, scrollContainer s = Some c → subscribed s = {[ c ]}) →
  scrollContainer (step s ev)
  = match resolved ev with Some e => Some e | None => scrollContainer s end
  ∧ (∀ c, scrollContainer (step s ev) = Some c → subscribed (step s ev) = {[ c ]}).
Proof.
  intros Hev Hs Hsub. destruct ev as [p | p |]; [| |done]; simpl.
  - unfold componentDidMount. destruct (getScrollContainer p) as [e|]; [|done].
    destruct (ScrollContainerFacts.updateScrollContainer_single e s Hs)
      as [Ht Hsb].
    split; [done|]. intros c Hc. rewrite Ht in Hc. by injection Hc as <-.
  - unfold componentDidUpdate. destruct (getScrollContainer p) as [e|]; [|done].
    case_decide as Heq; [done|].
    destruct (ScrollContainerFacts.updateScrollContainer_single e s Hs)
      as [Ht Hsb].
    split; [done|]. intros c Hc. rewrite Ht in Hc. by injection Hc as <-.
Qed.

Lemma run_tracks_last_resolved evs :
  ∀ s,
    Forall (λ ev, ev ≠ Unmount) evs →
    single_subscription s →
    (∀ c, scrollContainer s = Some c → subscribed s = {[ c ]}) →
    scrollContainer (run s evs) = lastResolved (scrollContainer s) evs
    ∧ (∀ c, scrollContainer (run s evs) = Some c → subscribed (run s evs) = {[ c ]}).
Proof.
  induction evs as [| ev evs IH]; intros s Hno Hs Hsub; [done|].
  inversion Hno as [| ? ? Hev Hno']; subst.
  destruct (step_tracks_resolved s ev Hev Hs Hsub) as [Htracked Hsub'].
  simpl. unfold lastResolved. simpl. rewrite <- Htracked.
  apply IH; [done | by apply ScrollContainerFacts.step_single | done].
Qed.

Lemma lastResolved_some c evs : is_Some (lastResolved (Some c) evs).
Proof.
  revert c. induction evs as [| ev evs IH]; intros c; [by eexists|].
  unfold lastResolved. simpl. destruct (resolved ev); apply IH.
Qed.

(** X2. From the mount on and until the component unmounts, the scroll
    handler stays registered on exactly one element: the last element the
    [scrollContainer] prop resolved to.  An update whose prop resolves to
    null or undefined does not unsubscribe. *)
Theorem handler_follows_last_resolved p c (evs : list lifecycle) :
  getScrollContainer p = Some c →
  Forall (λ ev, ev ≠ Unmount) evs →
  let s := run initial (Mount p :: evs) in
  ∃ c', lastResolved (Some c) evs = Some c'
        ∧ scrollContainer s = Some c'
        ∧ subscribed s = {[ c' ]}.
Proof.
  intros Hp Hno s. subst s. simpl.
  unfold componentDidMount. rewrite Hp.
  assert (Hinit : single_subscription initial) by by left.
  destruct (ScrollContainerFacts.updateScrollContainer_single c initial Hinit)
    as [Htracked Hsub].
  destruct (run_tracks_last_resolved evs (updateScrollContainer c initial))
    as [Hlast Hkeep]; [done | right; by exists c | |].
  { intros c0 Hc0. rewrite Htracked in Hc0. by injection Hc0 as <-. }
  rewrite Htracked in Hlast.
  destruct (lastResolved_some c evs) as [c' Hc'].
  exists c'. rewrite Hc' in Hlast.
  split_and!; [done | done | by apply Hkeep].
Qed.

Lemma handler_follows_last_resolved_witness :
  scrollContainer
    (run initial [Mount (Accessor (Some 1%positive));
                  Update (Accessor (Some 2%positive));
                  Update (Accessor None)]) = Some 2%positive
  ∧ subscribed
      (run initial [Mount (Accessor (Some 1%positive));
                    Update (Accessor (Some 2%positive));
                    Update (Accessor None)]) = {[ 2%positive ]}.
Proof.
  destruct (handler_follows_last_resolved (Accessor (Some 1%positive)) 1%positive
              [Update (Accessor (Some 2%positive)); Update (Accessor None)])
    as (c' & Hlast & Htracked & Hsub);
    [reflexivity | repeat constructor; discriminate |].
  injection Hlast as <-. by split.
Defined.

End ScrollContainerMore.

(** ** Masonry: [getDerivedStateFromProps] *)

Module DerivationMore.
Import Masonry.

Lemma merge_fields d s :
  s_gutter (mergeDerivedState d s) = s_gutter s
  ∧ s_measurementStore (mergeDerivedState d s) = s_measurementStore s
  ∧ s_scrollTop (mergeDerivedState d s) = s_scrollTop s
  ∧ s_width (mergeDerivedState d s) = s_width s.
Proof.
  destruct d as [d|]; [|done]. simpl. by destruct (d_isFetching d).
Qed.

Lemma derived_state_follows_props_aux p s ms :
  s_items (mergeDerivedState (getDerivedStateFromProps p s ms) s) = items p
  ∧ s_hasPendingMeasurements
      (mergeDerivedState (getDerivedStateFromProps p s ms) s)
    = existsb (λ it, negb (Cache.has ms it)) (items p).
Proof.
  split; [apply FetchFacts.derived_items_in_step|].
  unfold getDerivedStateFromProps.
  destruct (itemsChangedFrom _ _ _ _); [done|].
  destruct (_ && _); [done|].
  destruct (xorb _ _) eqn:Hx; simpl; [done|].
  apply xorb_eq in Hx. by rewrite Hx.
Qed.

(** X3. Whatever the state was, after [getDerivedStateFromProps] has been
    merged the state holds the item sequence of the props, and
    [hasPendingMeasurements] tells whether some item of the props has no
    entry in the measurement store; gutter, store, scroll position and
    width are not touched. *)
Theorem derived_state_follows_props p s ms :
  let s' := mergeDerivedState (getDerivedStateFromProps p s ms) s in
  s_items s' = items p
  ∧ s_hasPendingMeasurements s'
    = existsb (λ it, negb (Cache.has ms it)) (items p)
  ∧ s_gutter s' = s_gutter s
  ∧ s_measurementStore s' = s_measurementStore s
  ∧ s_scrollTop s' = s_scrollTop s
  ∧ s_width s' = s_width s.
Proof.
  intros s'. subst s'.
  destruct (merge_fields (getDerivedStateFromProps p s ms) s) as (Hg & Hm & Ht & Hw).
  destruct (derived_state_follows_props_aux p s ms) as [Hitems Hpending].
  by split_and!.
Qed.

(** X4. A props update whose item sequence differs from the stored one
    (in length or in any reference) clears the fetch-in-progress flag,
    whatever the flag was. *)
Theorem changed_items_clear_fetch_flag p s ms :
  items p ≠ s_items s →
  s_isFetching (mergeDerivedState (getDerivedStateFromProps p s ms) s) = false.
Proof.
  intros Hne. apply not_true_iff_false. intros Hflag.
  apply Hne. by eapply FetchFacts.flag_kept_only_by_same_items.
Qed.

(** The host appends two items to the three stored ones while a fetch is
    in progress. *)
Lemma changed_items_clear_fetch_flag_witness :
  s_isFetching
    (mergeDerivedState
       (getDerivedStateFromProps
          (Examples.gridProps
             [Examples.a; Examples.b; Examples.c; Examples.d; Examples.e]
             None None)
          (state (this (fetchMore Examples.idle))) Examples.measured)
       (state (this (fetchMore Examples.idle)))) = false.
Proof.
  apply changed_items_clear_fetch_flag. by vm_compute.
Defined.

(** Comparing an item sequence that holds [undefined] with itself finds a
    change. *)
Lemma itemsChangedFrom_undefined (its : list item) :
  ∀ rest i, drop i its = rest → Undefined ∈ rest →
    itemsChangedFrom its its i rest = true.
Proof.
  induction rest as [| it rest IH]; intros i Hdrop Hin.
  - by apply elem_of_nil in Hin.
  - assert (Hi : its !! i = Some it).
    { rewrite <- (Nat.add_0_r i), <- lookup_drop, Hdrop. done. }
    assert (Hat : at_index its i = it) by (unfold at_index; by rewrite Hi).
    simpl. rewrite Hat.
    destruct (bool_decide (it = Undefined)) eqn:Hu; [done|].
    apply bool_decide_eq_false in Hu.
    rewrite bool_decide_eq_false_2 by (intros Hne; by apply Hne).
    rewrite Nat.ltb_irrefl. simpl.
    apply IH.
    + erewrite drop_S in Hdrop by done. by injection Hdrop.
    + apply elem_of_cons in Hin as [Hin | Hin]; [by subst|done].
Qed.

(** X5. When the items of the props hold an [undefined] entry, every
    derivation clears the fetch-in-progress flag: [fetchMore] calls
    [loadItems], but the flag it sets does not survive the render that
    follows. *)
Theorem undefined_item_drops_fetch_flag sys :
  loadItems (props (this sys)) = true →
  Undefined ∈ items (props (this sys)) →
  effects (fetchMore sys)
  = effects sys ++ [CallLoadItems (length (items (props (this sys))))]
  ∧ s_isFetching (state (this (fetchMore sys))) = false.
Proof.
  intros Hload Hin. unfold fetchMore. rewrite Hload. split; [done|].
  unfold setState, deriveState. simpl.
  apply not_true_iff_false. intros Hflag.
  pose proof (FetchFacts.flag_kept_only_by_same_items _ _ _ Hflag) as Hsame.
  revert Hflag. unfold getDerivedStateFromProps. simpl in *.
  rewrite <- Hsame.
  by rewrite (itemsChangedFrom_undefined (items (props (this sys)))
               (items (props (this sys))) 0 eq_refl Hin).
Qed.

Lemma undefined_item_drops_fetch_flag_witness :
  effects (fetchMore MoreExamples.withHole) = [CallLoadItems 3]
  ∧ s_isFetching (state (this (fetchMore MoreExamples.withHole))) = false.
Proof.
  apply (undefined_item_drops_fetch_flag MoreExamples.withHole); [reflexivity|].
  simpl. apply elem_of_cons. right. apply elem_of_cons. by left.
Defined.

Lemma state_eta s its b f :
  s_items s = its →
  s_hasPendingMeasurements s = b →
  s_isFetching s = f →
  set_isFetching f (set_items its (set_hasPendingMeasurements b s)) = s.
Proof. destruct s. simpl. by intros -> -> ->. Qed.

Lemma derived_twice p s ms :
  let s' := mergeDerivedState (getDerivedStateFromProps p s ms) s in
  mergeDerivedState (getDerivedStateFromProps p s' ms) s' = s'.
Proof.
  intros s'.
  destruct (derived_state_follows_props_aux p s ms) as [Hitems Hpending].
  fold s' in Hitems, Hpending.
  unfold getDerivedStateFromProps at 1. rewrite Hitems, Hpending.
  assert ((length (items p) =? 0)%nat && (0 <? length (items p))%nat = false)
    as ->.
  { destruct (items p); simpl; [done|]. done. }
  rewrite xorb_nilpotent.
  destruct (itemsChangedFrom (items p) (items p) 0 (items p)) eqn:Hloop; [|done].
  simpl. apply state_eta; [done | done |].
  apply not_true_iff_false. intros Hflag. subst s'.
  pose proof (FetchFacts.flag_kept_only_by_same_items _ _ _ Hflag) as Hsame.
  revert Hflag. unfold getDerivedStateFromProps. rewrite <- Hsame, Hloop. done.
Qed.

(** X6. Rendering again with the same props and the same store changes
    nothing: a second [getDerivedStateFromProps] finds the state it left. *)
Theorem derivation_is_idempotent sys :
  deriveState (deriveState sys) = deriveState sys.
Proof.
  unfold deriveState at 1.
  assert (Hframe : heap (deriveState sys) = heap sys
                   ∧ props (this (deriveState sys)) = props (this sys)
                   ∧ s_measurementStore (state (this (deriveState sys)))
                     = s_measurementStore (state (this sys))).
  { destruct (StoreFacts.deriveState_frame sys) as (? & _ & ? & _ & ?). done. }
  destruct Hframe as (-> & -> & ->).
  assert (Hstate :
    mergeDerivedState
      (getDerivedStateFromProps (props (this sys)) (state (this (deriveState sys)))
         (measurementsAt (heap sys) (s_measurementStore (state (this sys)))))
      (state (this (deriveState sys)))
    = state (this (deriveState sys))).
  { unfold deriveState. simpl. apply derived_twice. }
  rewrite Hstate. unfold deriveState. simpl. done.
Qed.

End DerivationMore.

(** ** Masonry: the grid [render] returns *)

Module RenderMore.
Import Masonry.

Lemma renderMeasuring_nodes rendered measuringPositions its :
  ∀ idx nodes,
    renderMeasuring rendered measuringPositions idx its = Some nodes →
    map m_data nodes = its
    ∧ map m_itemIdx nodes = seq (rendered + idx) (length its).
Proof.
  induction its as [| it its IH]; intros idx nodes Hr; simpl in Hr.
  - by injection Hr as <-.
  - destruct (measuringPositions !! idx) as [pos|]; [|done]. simpl in Hr.
    destruct (renderMeasuring rendered measuringPositions (S idx) its)
      as [tl|] eqn:Htl; [|done].
    simpl in Hr. injection Hr as <-. simpl.
    destruct (IH (S idx) tl Htl) as [-> ->].
    split; [done|]. do 2 f_equal. lia.
Qed.

Lemma renderItems_indices i isRtl ps positions its :
  ∀ idx comps,
    renderItems i isRtl ps positions idx its = Some comps →
    length comps = length its
    ∧ ∀ k c, comps !! k = Some (Some c) → c_idx c = (idx + k)%nat.
Proof.
  induction its as [| it its IH]; intros idx comps Hr; simpl in Hr.
  - injection Hr as <-. split; [done|]. intros k c Hk. by destruct k.
  - destruct (positionFor ps positions idx it) as [pos|]; [|done]. simpl in Hr.
    destruct (renderItems i isRtl ps positions (S idx) its) as [tl|] eqn:Htl;
      [|done].
    simpl in Hr. injection Hr as <-.
    destruct (IH (S idx) tl Htl) as [Hlen Hidx]. simpl.
    split; [by rewrite Hlen|].
    intros [| k] c Hk; simpl in Hk.
    + injection Hk as Hk. unfold renderMasonryComponent in Hk.
      destruct (virtualize (props i)); [destruct (isVisible i pos)|];
        try done; injection Hk as <-; simpl; lia.
    + rewrite (Hidx k c Hk). lia.
Qed.



Section WithImports.
Context `{!Imports}.

(** The parts of the grid, from the run of [render]. *)
Lemma render_grid isRtl sys w g :
  s_width (state (this sys)) = Some w →
  (render isRtl sys).2 = Some (FullLayout g) →
  let i := this sys in
  let ms := measurementsAt (heap sys) (s_measurementStore (state i)) in
  let toRender := itemsToRender ms (items (props i)) in
  let toMeasure := itemsToMeasure i ms w in
  let r1 := getLayoutAlgorithm (layoutArgs i) ms
              (positionsAt (heap sys) (i_positionStore i)) toRender in
  let r2 := getLayoutAlgorithm (layoutArgs i) ms r1.2 toMeasure in
  g_height g = layoutHeight r1.1 (maxHeight i)
  ∧ g_width g = w
  ∧ renderItems (this (render isRtl sys).1) isRtl r2.2 r1.1 0 toRender
    = Some (g_items g)
  ∧ renderMeasuring (length toRender) r2.1 0 toMeasure = Some (g_measuring g)
  ∧ g_fetchItems g
    = (if bool_decide (is_Some (i_scrollContainer i)) then
         Some {| f_containerHeight := containerHeight i;
                 f_isFetching :=
                   s_isFetching (state i) || s_hasPendingMeasurements (state i);
                 f_scrollHeight := layoutHeight r1.1 (maxHeight i) + containerOffset i;
                 f_scrollTop := s_scrollTop (state i) |}
       else None).
Proof.
  intros Hw. unfold render. rewrite Hw. simpl.
  destruct (getLayoutAlgorithm _ _ _ (itemsToRender _ _)) as [positions ps1].
  simpl.
  destruct (getLayoutAlgorithm _ _ ps1 _) as [measuringPositions ps2].
  simpl.
  destruct (renderItems _ _ _ _ _ _) as [rendered|] eqn:Hr; [|done]. simpl.
  destruct (renderMeasuring _ _ _ _) as [measuring|] eqn:Hm; [|done]. simpl.
  intros [= <-]. simpl. by split_and!.
Qed.

(** X10. In a pass that lays out the grid, the hidden nodes rendered for
    measurement hold, in order, the first pending items of the props:
    items that are truthy and have no measurement.  Their item indices
    continue those of the positioned items, which are the positions of
    those items in the list of measured items: no index is used twice in
    a pass. *)
Theorem measuring_nodes_are_the_first_pending isRtl sys w g :
  s_width (state (this sys)) = Some w →
  (render isRtl sys).2 = Some (FullLayout g) →
  let i := this sys in
  let ms := measurementsAt (heap sys) (s_measurementStore (state i)) in
  let toRender := itemsToRender ms (items (props i)) in
  map m_data (g_measuring g)
  = take (itemsToMeasureCount i ms w) (pendingItems ms (items (props i)))
  ∧ Forall (λ it, truthy it = true ∧ Cache.has ms it = false
                  ∧ In it (items (props i)))
      (map m_data (g_measuring g))
  ∧ map m_itemIdx (g_measuring g)
    = seq (length toRender) (length (g_measuring g))
  ∧ length (g_items g) = length toRender
  ∧ ∀ k c, g_items g !! k = Some (Some c) → c_idx c = k.
Proof.
  intros Hw Hrender i ms toRender.
  destruct (render_grid isRtl sys w g Hw Hrender) as (_ & _ & Hitems & Hmeas & _).
  destruct (renderMeasuring_nodes _ _ _ _ _ Hmeas) as [Hdata Hidx].
  destruct (renderItems_indices _ _ _ _ _ _ _ Hitems) as [Hlen Hcidx].
  split_and!.
  - by rewrite Hdata.
  - rewrite Hdata. unfold itemsToMeasure. apply Forall_forall. intros it Hin.
    apply elem_of_take in Hin as (k & Hk & _).
    apply list_elem_of_lookup_2, (proj1 (list_elem_of_In _ _)) in Hk.
    unfold pendingItems in Hk. apply filter_In in Hk as [Hin Hp].
    apply andb_true_iff in Hp as [Ht Hh]. apply negb_true_iff in Hh. done.
  - rewrite Hidx, Nat.add_0_r. f_equal.
    by rewrite <- (length_map m_data), Hdata.
  - done.
  - intros k c Hk. by rewrite (Hcidx k c Hk).
Qed.


End WithImports.

(** Eight pending items, a two-column item second among them: the six
    nodes hold the first six pending items, numbered from 3 on. *)
Lemma measuring_nodes_are_the_first_pending_witness :
  map m_data
    (g_measuring (Examples.gridOf (render (H := Examples.specImports) false
                                     Examples.multiColumnPending)))
  = [Examples.d; Examples.e; Examples.f; Examples.g; Examples.h; Examples.k]
  ∧ map m_itemIdx
      (g_measuring (Examples.gridOf (render (H := Examples.specImports) false
                                       Examples.multiColumnPending)))
    = [3; 4; 5; 6; 7; 8]%nat.
Proof.
  destruct (measuring_nodes_are_the_first_pending (H := Examples.specImports)
              false Examples.multiColumnPending 900%Q
              (Examples.gridOf (render (H := Examples.specImports) false
                                  Examples.multiColumnPending)))
    as (Hdata & _ & Hidx & _); [reflexivity | by vm_compute |].
  split; [rewrite Hdata | rewrite Hidx]; by vm_compute.
Defined.


End RenderMore.

(** ** Masonry: measuring passes *)

Module MeasuringMore.
Import Masonry Lifecycle.

Lemma measureNodes_lookup clientHeight its :
  ∀ idx ms it,
    (it ∉ its → measureNodes clientHeight idx its ms !! it = ms !! it)
    ∧ (it ∈ its → is_Some (measureNodes clientHeight idx its ms !! it)).
Proof.
  induction its as [| x its IH]; intros idx ms it; simpl.
  - split; [done|]. intros Hin. by apply elem_of_nil in Hin.
  - destruct (IH (S idx) (Cache.set x (clientHeight idx) ms) it) as [Hout Hin].
    split.
    + intros Hnot. apply not_elem_of_cons in Hnot as [Hne Hnot].
      rewrite Hout by done. unfold Cache.set. by rewrite lookup_insert_ne.
    + intros Hel. destruct (decide (it ∈ its)) as [Hits | Hits]; [by apply Hin|].
      apply elem_of_cons in Hel as [-> | Hel]; [|done].
      destruct (IH (S idx) (Cache.set x (clientHeight idx) ms) x) as [Hout' _].
      rewrite Hout' by done. unfold Cache.set. rewrite lookup_insert_eq.
      by eexists.
Qed.

Lemma measureNodes_has clientHeight its idx ms it :
  Cache.has (measureNodes clientHeight idx its ms) it
  = Cache.has ms it || bool_decide (it ∈ its).
Proof.
  unfold Cache.has.
  destruct (measureNodes_lookup clientHeight its idx ms it) as [Hout Hin].
  destruct (decide (it ∈ its)) as [Hel | Hel].
  - rewrite (bool_decide_eq_true_2 (it ∈ its)) by done. rewrite orb_true_r.
    apply bool_decide_eq_true_2. by apply Hin.
  - rewrite (bool_decide_eq_false_2 (it ∈ its)) by done. rewrite orb_false_r.
    by rewrite Hout.
Qed.

Lemma filter_filter_and (f g : item → bool) l :
  List.filter f (List.filter g l) = List.filter (λ x, g x && f x) l.
Proof.
  induction l as [| x l IH]; [done|]. simpl.
  destruct (g x); simpl; [destruct (f x)|]; by rewrite IH.
Qed.

Section WithImports.
Context `{!Imports}.

Lemma render_measurements isRtl sys :
  measurements (heap (render isRtl sys).1) = measurements (heap sys).
Proof.
  unfold render.
  destruct (s_width (state (this sys))) as [w|].
  - destruct (getLayoutAlgorithm _ _ _ (itemsToRender _ _)) as [positions ps1].
    by destruct (getLayoutAlgorithm _ _ ps1 _) as [measuringPositions ps2].
  - by destruct (s_hasPendingMeasurements (state (this sys))).
Qed.

Lemma commitMeasurements_this clientHeight sys :
  this (commitMeasurements clientHeight sys) = this sys
  ∧ effects (commitMeasurements clientHeight sys) = effects sys
  ∧ positions (heap (commitMeasurements clientHeight sys)) = positions (heap sys).
Proof.
  unfold commitMeasurements.
  destruct (s_width (state (this sys))); [done|].
  destruct (s_hasPendingMeasurements (state (this sys))); [|done].
  by destruct (layout (props (this sys))).
Qed.

(** The store of the state after an update that lays out the grid and
    finds the width as it was: the measured nodes are added. *)
Lemma pass_store isRtl clientHeight prevState sys sys' w :
  s_width (state (this sys)) = Some w →
  widthChanged (s_width prevState) (Some w) = false →
  pass isRtl clientHeight prevState sys = Some sys' →
  let i := this sys in
  let r := s_measurementStore (state i) in
  let ms := measurementsAt (heap sys) r in
  state (this sys') = state i
  ∧ props (this sys') = props i
  ∧ measurements (heap sys')
    = <[ r := measureNodes clientHeight 0 (itemsToMeasure i ms w) ms ]>
        (measurements (heap sys)).
Proof.
  intros Hw Hsame. unfold pass.
  destruct ((render isRtl sys).2); [|done]. intros [= <-]. simpl.
  destruct (StoreFacts.render_frame isRtl sys) as (Hst & Hp & Hps).
  destruct (commitMeasurements_this clientHeight (render isRtl sys).1)
    as (Hthis & _ & _).
  rewrite StoreFacts.componentDidUpdate_this, StoreFacts.componentDidUpdate_heap.
  rewrite Hthis, Hst, Hp, Hw, Hsame.
  split_and!; [done | done |].
  unfold commitMeasurements. rewrite Hst, Hp, Hw. simpl.
  unfold measurementsAt. rewrite render_measurements.
  rewrite (DeterminismFacts.itemsToMeasure_args (this (render isRtl sys).1)
             (this sys)); [done|].
  unfold layoutArgs. by rewrite Hst, Hp.
Qed.

(** X12. An update that lays out the grid and finds the width unchanged
    never removes or changes a cached measurement, in any store; it adds
    an entry for each node it rendered for measuring. *)
Theorem pass_keeps_measurements isRtl clientHeight prevState sys sys' w :
  s_width (state (this sys)) = Some w →
  (∀ w0, s_width prevState = Some w0 → (w == w0)%Q) →
  pass isRtl clientHeight prevState sys = Some sys' →
  let i := this sys in
  let r := s_measurementStore (state i) in
  (∀ r' it v, measurementsAt (heap sys) r' !! it = Some v →
     measurementsAt (heap sys') r' !! it = Some v)
  ∧ (∀ it, it ∈ itemsToMeasure i (measurementsAt (heap sys) r) w →
       Cache.has (measurementsAt (heap sys') r) it = true)
  ∧ (∀ r', r' ≠ r → measurementsAt (heap sys') r' = measurementsAt (heap sys) r').
Proof.
  intros Hw Hprev Hpass i r.
  assert (Hsame : widthChanged (s_width prevState) (Some w) = false).
  { unfold widthChanged. destruct (s_width prevState) as [w0|]; [|done].
    apply negb_false_iff, Qeq_bool_iff. by apply Hprev. }
  destruct (pass_store _ _ _ _ _ _ Hw Hsame Hpass) as (_ & _ & Hheap).
  fold i r in Hheap.
  assert (Hat : ∀ r',
    measurementsAt (heap sys') r'
    = if decide (r = r')
      then measureNodes clientHeight 0
             (itemsToMeasure i (measurementsAt (heap sys) r) w)
             (measurementsAt (heap sys) r)
      else measurementsAt (heap sys) r').
  { intros r'. unfold measurementsAt at 1. rewrite Hheap, lookup_insert.
    by case_decide. }
  split_and!.
  - intros r' it v Hv. rewrite Hat. case_decide as Hr; [subst r'|done].
    destruct (decide (it ∈ itemsToMeasure i (measurementsAt (heap sys) r) w))
      as [Hin | Hout].
    + exfalso. unfold itemsToMeasure in Hin.
      apply elem_of_take in Hin as (k & Hk & _).
      apply list_elem_of_lookup_2, (proj1 (list_elem_of_In _ _)) in Hk.
      unfold pendingItems in Hk. apply filter_In in Hk as [_ Hp].
      apply andb_true_iff in Hp as [_ Hh]. apply negb_true_iff in Hh.
      unfold Cache.has in Hh. apply bool_decide_eq_false in Hh.
      apply Hh. by eexists.
    + destruct (measureNodes_lookup clientHeight
                  (itemsToMeasure i (measurementsAt (heap sys) r) w) 0
                  (measurementsAt (heap sys) r) it) as [Hkeep _].
      by rewrite Hkeep.
  - intros it Hin. rewrite Hat. case_decide; [|done].
    rewrite measureNodes_has, (bool_decide_eq_true_2 _ Hin).
    apply orb_true_r.
  - intros r' Hne. rewrite Hat. by case_decide.
Qed.

Lemma itemsToMeasureCount_pos i ms w :
  minCols (props i) ≠ 0%nat → itemsToMeasureCount i ms w ≠ 0%nat.
Proof.
  intros Hmin. unfold itemsToMeasureCount.
  destruct (batchSize i ms w) as [b|]; [|done].
  destruct (negb (b =? 0)%nat && _); [lia | done].
Qed.

(** The pending items after the nodes [measured] have been measured. *)
Lemma pending_after clientHeight measured ms its :
  pendingItems (measureNodes clientHeight 0 measured ms) its
  = List.filter (λ it, negb (bool_decide (it ∈ measured))) (pendingItems ms its).
Proof.
  unfold pendingItems. rewrite filter_filter_and. apply filter_ext.
  intros it. rewrite measureNodes_has.
  destruct (truthy it), (Cache.has ms it), (bool_decide (it ∈ measured)); done.
Qed.

Lemma filter_drops_prefix (test : item → bool) (pre post : list item) :
  (∀ x, In x pre → test x = false) →
  length (List.filter test (pre ++ post)) ≤ length post.
Proof.
  intros Hpre. induction pre as [| x pre IH]; simpl.
  - apply filter_length_le.
  - rewrite Hpre by (by left). apply IH. intros y Hy. apply Hpre. by right.
Qed.

Lemma filter_out_prefix (l : list item) n :
  length (List.filter (λ it, negb (bool_decide (it ∈ take n l))) l)
  ≤ length l - Nat.min n (length l).
Proof.
  pose proof (filter_drops_prefix
                (λ it, negb (bool_decide (it ∈ take n l))) (take n l) (drop n l))
    as Hle.
  rewrite take_drop, length_drop in Hle.
  etrans; [apply Hle|]; [|lia].
  intros x Hin. apply negb_false_iff, bool_decide_eq_true_2.
  by apply list_elem_of_In.
Qed.

Lemma pass_measures_a_batch_aux isRtl clientHeight prevState sys sys' w :
  s_width (state (this sys)) = Some w →
  (∀ w0, s_width prevState = Some w0 → (w == w0)%Q) →
  pass isRtl clientHeight prevState sys = Some sys' →
  let limit :=
    itemsToMeasureCount (this sys)
      (measurementsAt (heap sys) (s_measurementStore (state (this sys)))) w in
  (pendingOf sys'
   = List.filter (λ it, negb (bool_decide (it ∈ take limit (pendingOf sys))))
       (pendingOf sys)
   ∧ length (pendingOf sys')
     ≤ length (pendingOf sys) - Nat.min limit (length (pendingOf sys)))
  ∧ (minCols (props (this sys)) ≠ 0%nat → limit ≠ 0%nat).
Proof.
  intros Hw Hprev Hpass limit.
  assert (Hsame : widthChanged (s_width prevState) (Some w) = false).
  { unfold widthChanged. destruct (s_width prevState) as [w0|]; [|done].
    apply negb_false_iff, Qeq_bool_iff. by apply Hprev. }
  destruct (pass_store _ _ _ _ _ _ Hw Hsame Hpass) as (Hst & Hp & Hheap).
  assert (Hpending :
    pendingOf sys'
    = List.filter
        (λ it, negb (bool_decide (it ∈ take limit (pendingOf sys))))
        (pendingOf sys)).
  { unfold pendingOf at 1. rewrite Hst, Hp.
    unfold measurementsAt at 1. rewrite Hheap, lookup_insert_eq. simpl.
    by rewrite pending_after. }
  split; [split; [done|] |].
  - rewrite Hpending. apply filter_out_prefix.
  - apply itemsToMeasureCount_pos.
Qed.

(** X13. An update that lays out the grid and finds the width unchanged
    measures at least as many of the pending items as it rendered nodes
    for: the number of pending items goes down by the smaller of the batch
    limit and the number of pending items, or more, and no measured item
    becomes pending again.  The limit is not zero when the minimum column
    count is not. *)
Theorem pass_measures_a_batch isRtl clientHeight prevState sys sys' w :
  s_width (state (this sys)) = Some w →
  (∀ w0, s_width prevState = Some w0 → (w == w0)%Q) →
  pass isRtl clientHeight prevState sys = Some sys' →
  let limit :=
    itemsToMeasureCount (this sys)
      (measurementsAt (heap sys) (s_measurementStore (state (this sys)))) w in
  length (pendingOf sys')
  ≤ length (pendingOf sys) - Nat.min limit (length (pendingOf sys))
  ∧ (∀ it, it ∈ pendingOf sys' → it ∈ pendingOf sys)
  ∧ (minCols (props (this sys)) ≠ 0%nat → limit ≠ 0%nat).
Proof.
  intros Hw Hprev Hpass limit.
  destruct (pass_measures_a_batch_aux _ _ _ _ _ _ Hw Hprev Hpass)
    as ((Hpending & Hless) & Hlimit).
  split_and!; [done | | done].
  intros it Hin. rewrite Hpending in Hin.
  apply list_elem_of_In, filter_In in Hin as [Hin _].
  by apply list_elem_of_In.
Qed.

(** The update started by an animation frame keeps props, width and store
    of the state. *)
Lemma setState_flag_frame b sys :
  let sys1 := setState (set_hasPendingMeasurements b) sys in
  props (this sys1) = props (this sys)
  ∧ s_width (state (this sys1)) = s_width (state (this sys))
  ∧ s_measurementStore (state (this sys1)) = s_measurementStore (state (this sys))
  ∧ heap sys1 = heap sys.
Proof.
  unfold setState, deriveState. simpl.
  rewrite StoreFacts.mergeDerivedState_width, StoreFacts.mergeDerivedState_store.
  done.
Qed.

End WithImports.

(** The grid with eight pending items and a batch limit of six, every node
    120px high: after one update two items are pending. *)
Lemma pass_keeps_measurements_witness :
  ∃ sys',
    pass (H := Examples.specImports) false (λ _, 120%Q)
      (state (this Examples.multiColumnPending)) Examples.multiColumnPending
    = Some sys'
    ∧ measurementsAt (heap sys') 1%positive !! Examples.a = Some 100%Q
    ∧ Cache.has (measurementsAt (heap sys') 1%positive) Examples.d = true.
Proof.
  destruct (pass (H := Examples.specImports) false (λ _, 120%Q)
              (state (this Examples.multiColumnPending))
              Examples.multiColumnPending) as [sys'|] eqn:Hpass;
    [|by vm_compute in Hpass].
  exists sys'. split; [done|].
  destruct (pass_keeps_measurements (H := Examples.specImports) false
              (λ _, 120%Q) (state (this Examples.multiColumnPending))
              Examples.multiColumnPending sys' 900%Q)
    as (Hkeep & Hadd & _); [reflexivity | | exact Hpass |].
  { intros w0 [= <-]. reflexivity. }
  split.
  - apply Hkeep. by vm_compute.
  - apply Hadd. vm_compute. apply list_elem_of_In. by left.
Defined.

Lemma pass_measures_a_batch_witness :
  ∃ sys',
    pass (H := Examples.specImports) false (λ _, 120%Q)
      (state (this Examples.multiColumnPending)) Examples.multiColumnPending
    = Some sys'
    ∧ length (pendingOf sys') ≤ 8 - Nat.min 6 8.
Proof.
  destruct (pass (H := Examples.specImports) false (λ _, 120%Q)
              (state (this Examples.multiColumnPending))
              Examples.multiColumnPending) as [sys'|] eqn:Hpass;
    [|by vm_compute in Hpass].
  exists sys'. split; [done|].
  destruct (pass_measures_a_batch (H := Examples.specImports) false
              (λ _, 120%Q) (state (this Examples.multiColumnPending))
              Examples.multiColumnPending sys' 900%Q)
    as (Hless & _); [reflexivity | | exact Hpass |].
  { intros w0 [= <-]. reflexivity. }
  etrans; [exact Hless|]. vm_compute. done.
Defined.

End MeasuringMore.

(** ** Masonry: when updates stop, and when they do not *)

Module StableMore.
Import Masonry Lifecycle.

Lemma componentDidUpdate_effects prevState sys :
  effects (componentDidUpdate prevState sys)
  = effects sys ++ [CallMeasureContainerAsync]
    ++ (let h := heap (componentDidUpdate prevState sys) in
        let pending :=
          existsb (λ it, truthy it
                         && negb (Cache.has
                                    (measurementsAt h
                                       (s_measurementStore (state (this sys)))) it))
            (items (props (this sys))) in
        if pending
           || xorb pending (s_hasPendingMeasurements (state (this sys)))
           || negb (bool_decide (is_Some (s_width prevState)))
        then [CallRequestAnimationFrame pending] else []).
Proof.
  rewrite StoreFacts.componentDidUpdate_heap.
  unfold componentDidUpdate.
  destruct (widthChanged _ _); simpl;
    match goal with
    | |- context [if ?b then _ else _] => destruct b
    end; simpl; by rewrite <- ?app_assoc.
Qed.

Lemma no_truthy_pending ms its :
  (∀ it, it ∈ its → truthy it = true → Cache.has ms it = true) →
  existsb (λ it, truthy it && negb (Cache.has ms it)) its = false
  ∧ pendingItems ms its = [].
Proof.
  intros Hall. induction its as [| x its IH]; [done|].
  destruct IH as [IH1 IH2].
  { intros it Hin. apply Hall. by right. }
  unfold pendingItems in *. simpl. rewrite IH1, IH2.
  destruct (truthy x) eqn:Hx; simpl; [|done].
  rewrite (Hall x) by (done || by left). done.
Qed.

Section WithImports.
Context `{!Imports}.

Lemma render_effects isRtl sys : effects (render isRtl sys).1 = effects sys.
Proof.
  unfold render.
  destruct (s_width (state (this sys))) as [w|].
  - destruct (getLayoutAlgorithm _ _ _ (itemsToRender _ _)) as [positions ps1].
    by destruct (getLayoutAlgorithm _ _ ps1 _) as [measuringPositions ps2].
  - by destruct (s_hasPendingMeasurements (state (this sys))).
Qed.

(** What an update that finds the width unchanged and every truthy item
    measured leaves behind. *)
Lemma settled_pass isRtl clientHeight prevState sys sys' w :
  s_width (state (this sys)) = Some w →
  (∃ w0, s_width prevState = Some w0 ∧ (w == w0)%Q) →
  (∀ it, it ∈ items (props (this sys)) → truthy it = true →
     Cache.has (measurementsAt (heap sys) (s_measurementStore (state (this sys))))
       it = true) →
  pass isRtl clientHeight prevState sys = Some sys' →
  state (this sys') = state (this sys)
  ∧ props (this sys') = props (this sys)
  ∧ (∀ r, measurementsAt (heap sys') r = measurementsAt (heap sys) r)
  ∧ effects sys'
    = effects sys ++ [CallMeasureContainerAsync]
      ++ (if s_hasPendingMeasurements (state (this sys))
          then [CallRequestAnimationFrame false] else []).
Proof.
  intros Hw (w0 & Hprev & Heq) Hall Hpass.
  assert (Hsame : widthChanged (s_width prevState) (Some w) = false).
  { unfold widthChanged. rewrite Hprev. by apply negb_false_iff, Qeq_bool_iff. }
  destruct (MeasuringMore.pass_store _ _ _ _ _ _ Hw Hsame Hpass) as (Hst & Hp & Hheap).
  destruct (no_truthy_pending _ _ Hall) as [Hex Hnone].
  assert (Hat : ∀ r, measurementsAt (heap sys') r = measurementsAt (heap sys) r).
  { intros r. unfold measurementsAt at 1. rewrite Hheap.
    unfold itemsToMeasure. rewrite Hnone, take_nil. simpl.
    rewrite lookup_insert. by case_decide; subst. }
  split_and!; [done | done | done |].
  revert Hpass. unfold pass. destruct ((render isRtl sys).2); [|done].
  intros [= <-]. rewrite componentDidUpdate_effects.
  destruct (MeasuringMore.commitMeasurements_this clientHeight (render isRtl sys).1)
    as (Hthis & Heff & _).
  destruct (StoreFacts.render_frame isRtl sys) as (Hrst & Hrp & _).
  rewrite Heff, render_effects, Hthis, Hrst, Hrp. cbv zeta.
  rewrite Hat, Hex, Hprev. simpl.
  by destruct (s_hasPendingMeasurements (state (this sys))).
Qed.

(** X15. A stable grid stops updating: when the width is as it was, every
    truthy item of the props is measured and the state records no pending
    measurement, an update leaves the state and every measurement store as
    they were and asks for no animation frame; all it schedules is the
    debounced [measureContainer]. *)
Theorem stable_grid_requests_no_update isRtl clientHeight prevState sys sys' w :
  s_width (state (this sys)) = Some w →
  (∃ w0, s_width prevState = Some w0 ∧ (w == w0)%Q) →
  (∀ it, it ∈ items (props (this sys)) → truthy it = true →
     Cache.has (measurementsAt (heap sys) (s_measurementStore (state (this sys))))
       it = true) →
  s_hasPendingMeasurements (state (this sys)) = false →
  pass isRtl clientHeight prevState sys = Some sys' →
  state (this sys') = state (this sys)
  ∧ (∀ r, measurementsAt (heap sys') r = measurementsAt (heap sys) r)
  ∧ effects sys' = effects sys ++ [CallMeasureContainerAsync].
Proof.
  intros Hw Hprev Hall Hflag Hpass.
  destruct (settled_pass _ _ _ _ _ _ Hw Hprev Hall Hpass)
    as (Hst & _ & Hat & Heff).
  rewrite Hflag in Heff. simpl in Heff. by split_and!.
Qed.

(** X16. A falsy entry among the items keeps the grid updating.  Such an
    entry is not rendered for measuring, and an update in which every
    truthy item is measured writes no measurement;
    [getDerivedStateFromProps] counts the entry as pending, while
    [componentDidUpdate] does not.  So the update asks for an animation
    frame that sets [hasPendingMeasurements] to false, and the derivation
    that follows sets it to true again, with props, width and stores as
    they were: the next update meets the same conditions. *)
Theorem falsy_item_keeps_updating isRtl clientHeight prevState sys sys' w it0 :
  s_width (state (this sys)) = Some w →
  (∃ w0, s_width prevState = Some w0 ∧ (w == w0)%Q) →
  (∀ it, it ∈ items (props (this sys)) → truthy it = true →
     Cache.has (measurementsAt (heap sys) (s_measurementStore (state (this sys))))
       it = true) →
  it0 ∈ items (props (this sys)) →
  Cache.has (measurementsAt (heap sys) (s_measurementStore (state (this sys))))
    it0 = false →
  s_hasPendingMeasurements (state (this sys)) = true →
  pass isRtl clientHeight prevState sys = Some sys' →
  let sys'' := setState (set_hasPendingMeasurements false) sys' in
  effects sys'
  = effects sys ++ [CallMeasureContainerAsync; CallRequestAnimationFrame false]
  ∧ s_hasPendingMeasurements (state (this sys'')) = true
  ∧ s_width (state (this sys'')) = Some w
  ∧ props (this sys'') = props (this sys)
  ∧ (∀ r, measurementsAt (heap sys'') r = measurementsAt (heap sys) r).
Proof.
  intros Hw Hprev Hall Hin Hno Hflag Hpass sys''.
  destruct (settled_pass _ _ _ _ _ _ Hw Hprev Hall Hpass)
    as (Hst & Hp & Hat & Heff).
  rewrite Hflag in Heff.
  destruct (MeasuringMore.setState_flag_frame false sys') as (Hp2 & Hw2 & Hr2 & Hh2).
  fold sys'' in Hp2, Hw2, Hr2, Hh2.
  split_and!.
  - exact Heff.
  - subst sys''. unfold setState, deriveState. simpl.
    destruct (DerivationMore.derived_state_follows_props_aux
                (props (this sys'))
                (set_hasPendingMeasurements false (state (this sys')))
                (measurementsAt (heap sys')
                   (s_measurementStore (state (this sys'))))) as [_ ->].
    apply existsb_exists. exists it0. split.
    + rewrite Hp. by apply list_elem_of_In.
    + rewrite Hat, Hst, Hno. done.
  - by rewrite Hw2, Hst.
  - by rewrite Hp2.
  - intros r. by rewrite Hh2.
Qed.

(** The last call recorded by an update. *)
Lemma last_effect (l : list Effect) (a b : Effect) (c : bool) :
  last (l ++ [a] ++ (if c then [b] else [])) = Some (if c then b else a).
Proof.
  destruct c.
  - change (l ++ [a] ++ [b]) with (l ++ [a; b]).
    replace (l ++ [a; b]) with ((l ++ [a]) ++ [b]) by by rewrite <- app_assoc.
    apply last_snoc.
  - rewrite app_nil_r. apply last_snoc.
Qed.

Lemma existsb_filter (f : item → bool) (l : list item) :
  existsb f l = match List.filter f l with [] => false | _ => true end.
Proof.
  induction l as [| x l IH]; [done|]. simpl. by destruct (f x).
Qed.

Lemma existsb_truthy (ms : gmap item Q) its :
  (∀ it, it ∈ its → truthy it = true) →
  existsb (λ it, negb (Cache.has ms it)) its
  = existsb (λ it, truthy it && negb (Cache.has ms it)) its.
Proof.
  intros Hall. induction its as [| x its IH]; [done|]. simpl.
  rewrite (Hall x) by (by left). simpl. f_equal.
  apply IH. intros it Hin. apply Hall. by right.
Qed.

(** One update at an unchanged width, with a layout that returns a
    position for every item: it returns, leaves state and props, measures
    at least one pending item when there is one, and asks for a frame as
    [componentDidUpdate] decides. *)
Lemma one_update isRtl clientHeight prevState sys w :
  (∀ args ms ps its, length (getLayoutAlgorithm args ms ps its).1 = length its) →
  s_width (state (this sys)) = Some w →
  (∀ w0, s_width prevState = Some w0 → (w == w0)%Q) →
  minCols (props (this sys)) ≠ 0%nat →
  ∃ sys1,
    pass isRtl clientHeight prevState sys = Some sys1
    ∧ state (this sys1) = state (this sys)
    ∧ props (this sys1) = props (this sys)
    ∧ (pendingOf sys = [] → pendingOf sys1 = [])
    ∧ (pendingOf sys ≠ [] → length (pendingOf sys1) < length (pendingOf sys))
    ∧ requestedFrame sys1
      = (let pending :=
           match pendingOf sys1 with [] => false | _ => true end in
         if pending
            || xorb pending (s_hasPendingMeasurements (state (this sys)))
            || negb (bool_decide (is_Some (s_width prevState)))
         then Some pending else None).
Proof.
  intros Hlayout Hw Hprev Hmin.
  destruct (RenderFacts.render_returns_grid isRtl sys w Hw Hlayout) as [g Hg].
  assert (Hpass : ∃ sys1, pass isRtl clientHeight prevState sys = Some sys1).
  { unfold pass. rewrite Hg. by eexists. }
  destruct Hpass as [sys1 Hpass]. exists sys1.
  assert (Hsame : widthChanged (s_width prevState) (Some w) = false).
  { unfold widthChanged. destruct (s_width prevState) as [w0|]; [|done].
    apply negb_false_iff, Qeq_bool_iff. by apply Hprev. }
  destruct (MeasuringMore.pass_store _ _ _ _ _ _ Hw Hsame Hpass)
    as (Hst & Hp & _).
  destruct (MeasuringMore.pass_measures_a_batch_aux _ _ _ _ _ _ Hw Hprev Hpass)
    as ((Hpending & Hless) & Hlimit).
  specialize (Hlimit Hmin).
  split_and!; [done | done | done | | |].
  - intros Hnone. by rewrite Hpending, Hnone.
  - intros Hsome. destruct (pendingOf sys) as [| x rest]; [done|].
    simpl in *. lia.
  - assert (Heff :
      effects sys1
      = effects sys ++ [CallMeasureContainerAsync]
        ++ (let pending :=
              existsb
                (λ it, truthy it
                       && negb (Cache.has
                                  (measurementsAt (heap sys1)
                                     (s_measurementStore (state (this sys)))) it))
                (items (props (this sys))) in
            if pending
               || xorb pending (s_hasPendingMeasurements (state (this sys)))
               || negb (bool_decide (is_Some (s_width prevState)))
            then [CallRequestAnimationFrame pending] else [])).
    { revert Hpass. unfold pass. rewrite Hg. intros [= <-].
      rewrite componentDidUpdate_effects.
      destruct (MeasuringMore.commitMeasurements_this clientHeight
                  (render isRtl sys).1) as (Hthis & Heff & _).
      destruct (StoreFacts.render_frame isRtl sys) as (Hrst & Hrp & _).
      by rewrite Heff, render_effects, Hthis, Hrst, Hrp. }
    unfold requestedFrame. rewrite Heff. cbv zeta.
    rewrite last_effect, existsb_filter.
    unfold pendingOf, pendingItems. rewrite Hst, Hp.
    by destruct (_ || _).
Qed.

(** The component after the callback of a frame has run. *)
Lemma after_frame b sys :
  (∀ it, it ∈ items (props (this sys)) → truthy it = true) →
  let sys2 := setState (set_hasPendingMeasurements b) sys in
  props (this sys2) = props (this sys)
  ∧ s_width (state (this sys2)) = s_width (state (this sys))
  ∧ pendingOf sys2 = pendingOf sys
  ∧ s_hasPendingMeasurements (state (this sys2))
    = match pendingOf sys with [] => false | _ => true end.
Proof.
  intros Hall sys2.
  destruct (MeasuringMore.setState_flag_frame b sys) as (Hp & Hw & Hr & Hh).
  fold sys2 in Hp, Hw, Hr, Hh.
  assert (Hpend : pendingOf sys2 = pendingOf sys).
  { unfold pendingOf. by rewrite Hp, Hr, Hh. }
  split_and!; [done | done | done |].
  subst sys2. unfold setState, deriveState. simpl.
  destruct (DerivationMore.derived_state_follows_props_aux
              (props (this sys))
              (set_hasPendingMeasurements b (state (this sys)))
              (measurementsAt (heap sys)
                 (s_measurementStore (state (this sys))))) as [_ ->].
  rewrite (existsb_truthy _ _ Hall), existsb_filter. done.
Qed.

(** From a component whose flag tells whether items are pending and
    whose previous width is the present one, the updates end within one
    update more than there are pending items. *)
Lemma settles_from_derived isRtl clientHeight w :
  (∀ args ms ps its, length (getLayoutAlgorithm args ms ps its).1 = length its) →
  ∀ fuel prevState sys,
    s_width (state (this sys)) = Some w →
    (∃ w0, s_width prevState = Some w0 ∧ (w == w0)%Q) →
    minCols (props (this sys)) ≠ 0%nat →
    (∀ it, it ∈ items (props (this sys)) → truthy it = true) →
    s_hasPendingMeasurements (state (this sys))
    = match pendingOf sys with [] => false | _ => true end →
    length (pendingOf sys) < fuel →
    ∃ sys',
      frameUpdates isRtl clientHeight fuel prevState sys = Settled sys'
      ∧ pendingOf sys' = []
      ∧ s_hasPendingMeasurements (state (this sys')) = false
      ∧ props (this sys') = props (this sys)
      ∧ s_width (state (this sys')) = Some w.
Proof.
  intros Hlayout.
  induction fuel as [| fuel IH];
    intros prevState sys Hw (w0 & Hprev & Heq) Hmin Hall Hflag Hfuel; [lia|].
  assert (Hprev' : ∀ w1, s_width prevState = Some w1 → (w == w1)%Q).
  { intros w1 Hw1. rewrite Hprev in Hw1. by injection Hw1 as <-. }
  destruct (one_update isRtl clientHeight prevState sys w Hlayout Hw Hprev' Hmin)
    as (sys1 & Hpass & Hst & Hp & Hnone & Hsome & Hframe).
  simpl. rewrite Hpass, Hframe, Hprev. cbv zeta.
  rewrite (bool_decide_eq_true_2 (is_Some (Some w0))) by by eexists.
  simpl. rewrite orb_false_r.
  destruct (pendingOf sys) as [| x rest] eqn:Hpending.
  - rewrite Hnone, Hflag by done. simpl.
    exists sys1. split_and!; [done | by apply Hnone | | done |].
    + by rewrite Hst.
    + by rewrite Hst.
  - assert (Hlt : length (pendingOf sys1) < fuel).
    { specialize (Hsome ltac:(done)). simpl in *. lia. }
    assert (Hall1 : ∀ it, it ∈ items (props (this sys1)) → truthy it = true)
      by by rewrite Hp.
    assert (Hnext : ∀ b,
      ∃ sys',
        frameUpdates isRtl clientHeight fuel (state (this sys1))
          (setState (set_hasPendingMeasurements b) sys1) = Settled sys'
        ∧ pendingOf sys' = []
        ∧ s_hasPendingMeasurements (state (this sys')) = false
        ∧ props (this sys') = props (this sys)
        ∧ s_width (state (this sys')) = Some w).
    { intros b.
      destruct (after_frame b sys1 Hall1) as (Hp2 & Hw2 & Hpend2 & Hflag2).
      destruct (IH (state (this sys1))
                  (setState (set_hasPendingMeasurements b) sys1))
        as (sys' & Hrun & Hdone & Hclear & Hp' & Hw').
      - by rewrite Hw2, Hst.
      - exists w. split; [by rewrite Hst | reflexivity].
      - by rewrite Hp2, Hp.
      - by rewrite Hp2.
      - by rewrite Hflag2, Hpend2.
      - by rewrite Hpend2.
      - exists sys'. split_and!; try done. by rewrite Hp', Hp2, Hp. }
    rewrite Hflag.
    destruct (pendingOf sys1); simpl; apply Hnext.
Qed.

(** X14. Measuring ends by itself.  Take a component whose width is
    known and unchanged, whose items are all truthy and whose minimum
    column count is not zero, and a layout that returns one position per
    item.  The updates that follow one another, each started by the
    animation frame the [componentDidUpdate] before it asked for with the
    value computed there, come to an end: within two updates more than
    there are pending items an update asks for no frame.  No update
    throws, and at the end no item of the props is without a measurement
    and [hasPendingMeasurements] is false; props and width are as they
    were. *)
Theorem measuring_terminates isRtl clientHeight w fuel prevState sys :
  (∀ args ms ps its, length (getLayoutAlgorithm args ms ps its).1 = length its) →
  s_width (state (this sys)) = Some w →
  (∀ w0, s_width prevState = Some w0 → (w == w0)%Q) →
  minCols (props (this sys)) ≠ 0%nat →
  (∀ it, it ∈ items (props (this sys)) → truthy it = true) →
  length (pendingOf sys) + 2 ≤ fuel →
  ∃ sys',
    frameUpdates isRtl clientHeight fuel prevState sys = Settled sys'
    ∧ requestedFrame sys' = None
    ∧ pendingOf sys' = []
    ∧ s_hasPendingMeasurements (state (this sys')) = false
    ∧ props (this sys') = props (this sys)
    ∧ s_width (state (this sys')) = Some w.
Proof.
  intros Hlayout Hw Hprev Hmin Hall Hfuel.
  assert (Hquiet : ∀ n prev s s',
    frameUpdates isRtl clientHeight n prev s = Settled s' →
    requestedFrame s' = None).
  { induction n as [| n IHn]; intros prev s s' Hrun; [done|].
    simpl in Hrun.
    destruct (pass isRtl clientHeight prev s) as [s1|]; [|done].
    destruct (requestedFrame s1) as [b|] eqn:Hb.
    - by eapply IHn.
    - by injection Hrun as <-. }
  destruct fuel as [| fuel]; [lia|].
  destruct (one_update isRtl clientHeight prevState sys w Hlayout Hw Hprev Hmin)
    as (sys1 & Hpass & Hst & Hp & Hnone & Hsome & Hframe).
  assert (Hle : length (pendingOf sys1) ≤ length (pendingOf sys)).
  { destruct (pendingOf sys) as [| x rest] eqn:Hpending.
    - by rewrite Hnone.
    - specialize (Hsome ltac:(done)). lia. }
  destruct (requestedFrame sys1) as [b|] eqn:Hb.
  - assert (Hall1 : ∀ it, it ∈ items (props (this sys1)) → truthy it = true)
      by by rewrite Hp.
    destruct (after_frame b sys1 Hall1) as (Hp2 & Hw2 & Hpend2 & Hflag2).
    destruct (settles_from_derived isRtl clientHeight w Hlayout fuel
                (state (this sys1))
                (setState (set_hasPendingMeasurements b) sys1))
      as (sys' & Hrun & Hdone & Hclear & Hp' & Hw').
    + by rewrite Hw2, Hst.
    + exists w. split; [by rewrite Hst | reflexivity].
    + by rewrite Hp2, Hp.
    + by rewrite Hp2.
    + by rewrite Hflag2, Hpend2.
    + rewrite Hpend2. lia.
    + exists sys'. simpl. rewrite Hpass, Hb.
      split_and!; try done; [by eapply Hquiet | by rewrite Hp', Hp2, Hp].
  - exists sys1. simpl. rewrite Hpass, Hb.
    rewrite Hframe in Hb. cbv zeta in Hb.
    destruct (pendingOf sys1) as [| x rest] eqn:Hpending1; [|done].
    simpl in Hb.
    destruct (s_hasPendingMeasurements (state (this sys))) eqn:Hflag; [done|].
    split_and!; try done; by rewrite Hst.
Qed.

End WithImports.

Lemma stable_grid_requests_no_update_witness :
  ∃ sys',
    pass (H := Examples.specImports) false (λ _, 120%Q)
      (state (this MoreExamples.stable)) MoreExamples.stable = Some sys'
    ∧ effects sys' = [CallMeasureContainerAsync].
Proof.
  destruct (pass (H := Examples.specImports) false (λ _, 120%Q)
              (state (this MoreExamples.stable)) MoreExamples.stable)
    as [sys'|] eqn:Hpass; [|by vm_compute in Hpass].
  exists sys'. split; [done|].
  destruct (stable_grid_requests_no_update (H := Examples.specImports) false
              (λ _, 120%Q) (state (this MoreExamples.stable))
              MoreExamples.stable sys' 900%Q)
    as (_ & _ & Heff); [reflexivity | | | reflexivity | exact Hpass | exact Heff].
  - exists 900%Q. split; reflexivity.
  - intros it Hin _. simpl in Hin.
    repeat (apply elem_of_cons in Hin as [-> | Hin]; [by vm_compute|]).
    by apply elem_of_nil in Hin.
Defined.

Lemma falsy_item_keeps_updating_witness :
  ∃ sys',
    pass (H := Examples.specImports) false (λ _, 120%Q)
      (state (this MoreExamples.withNull)) MoreExamples.withNull = Some sys'
    ∧ effects sys' = [CallMeasureContainerAsync; CallRequestAnimationFrame false]
    ∧ s_hasPendingMeasurements
        (state (this (setState (set_hasPendingMeasurements false) sys'))) = true.
Proof.
  destruct (pass (H := Examples.specImports) false (λ _, 120%Q)
              (state (this MoreExamples.withNull)) MoreExamples.withNull)
    as [sys'|] eqn:Hpass; [|by vm_compute in Hpass].
  exists sys'.
  destruct (falsy_item_keeps_updating (H := Examples.specImports) false
              (λ _, 120%Q) (state (this MoreExamples.withNull))
              MoreExamples.withNull sys' 900%Q Null)
    as (Heff & Hflag & _);
    [reflexivity | | | | by vm_compute | reflexivity | exact Hpass | by split].
  - exists 900%Q. split; reflexivity.
  - intros it Hin Ht. simpl in Hin.
    repeat (apply elem_of_cons in Hin as [-> | Hin]; [by vm_compute|]).
    by apply elem_of_nil in Hin.
  - simpl. apply elem_of_cons. right. apply elem_of_cons. by left.
Defined.

(** Eight pending items under a batch limit of six: the updates end
    within ten, with every item measured. *)
Lemma measuring_terminates_witness :
  ∃ sys',
    frameUpdates (H := Examples.specImports) false (λ _, 120%Q) 10
      (state (this Examples.multiColumnPending)) Examples.multiColumnPending
    = Settled sys'
    ∧ requestedFrame sys' = None
    ∧ pendingOf sys' = [].
Proof.
  assert (Hall : ∀ it, it ∈ items (props (this Examples.multiColumnPending)) →
            truthy it = true).
  { assert (Hfa : forallb truthy (items (props (this Examples.multiColumnPending)))
                  = true) by (vm_compute; reflexivity).
    intros it Hin. apply list_elem_of_In in Hin.
    exact (proj1 (forallb_forall _ _) Hfa it Hin). }
  assert (Hmin : minCols (props (this Examples.multiColumnPending)) ≠ 0%nat)
    by (vm_compute; discriminate).
  assert (Hfuel : length (pendingOf Examples.multiColumnPending) + 2 ≤ 10)
    by (vm_compute; lia).
  assert (Hprev : ∀ w0, s_width (state (this Examples.multiColumnPending))
                        = Some w0 → (900 == w0)%Q).
  { intros w0 Hw0. injection Hw0 as <-. reflexivity. }
  pose proof (measuring_terminates (H := Examples.specImports) false
                (λ _, 120%Q) 900%Q 10
                (state (this Examples.multiColumnPending))
                Examples.multiColumnPending
                (λ args ms ps its, RenderFacts.place_length _ _ _ _ _)
                eq_refl Hprev Hmin Hall Hfuel)
    as (sys' & Hrun & Hquiet & Hnone & _).
  exists sys'. split_and!; [exact Hrun | exact Hquiet | exact Hnone].
Defined.

End StableMore.

(** ** Masonry: [reflow], the [FetchItems] child and mounting *)

Module MountMore.
Import Masonry Lifecycle.

Lemma merge_keeps_idle p s ms :
  s_isFetching s = false →
  s_isFetching (mergeDerivedState (getDerivedStateFromProps p s ms) s) = false.
Proof.
  intros Hs. unfold getDerivedStateFromProps.
  destruct (itemsChangedFrom _ _ _ _); [done|].
  destruct (_ && _); [done|].
  by destruct (xorb _ _).
Qed.

(** The state after [getDerivedStateFromProps] has been merged. *)
Lemma deriveState_fields sys :
  let i := this sys in
  let ms := measurementsAt (heap sys) (s_measurementStore (state i)) in
  let i' := this (deriveState sys) in
  heap (deriveState sys) = heap sys
  ∧ props i' = props i
  ∧ s_measurementStore (state i') = s_measurementStore (state i)
  ∧ s_width (state i') = s_width (state i)
  ∧ s_scrollTop (state i') = s_scrollTop (state i)
  ∧ s_items (state i') = items (props i)
  ∧ s_hasPendingMeasurements (state i')
    = existsb (λ it, negb (Cache.has ms it)) (items (props i))
  ∧ (s_isFetching (state i) = false → s_isFetching (state i') = false)
  ∧ containerHeight i' = containerHeight i
  ∧ containerOffset i' = containerOffset i
  ∧ i_gridWrapper i' = i_gridWrapper i
  ∧ i_scrollContainer i' = i_scrollContainer i
  ∧ i_positionStore i' = i_positionStore i
  ∧ maxHeight i' = maxHeight i.
Proof.
  unfold deriveState. simpl.
  destruct (DerivationMore.merge_fields
              (getDerivedStateFromProps (props (this sys)) (state (this sys))
                 (measurementsAt (heap sys)
                    (s_measurementStore (state (this sys)))))
              (state (this sys))) as (_ & Hr & Ht & Hw).
  destruct (DerivationMore.derived_state_follows_props_aux
              (props (this sys)) (state (this sys))
              (measurementsAt (heap sys)
                 (s_measurementStore (state (this sys))))) as [Hi Hp].
  split_and!; try done. apply merge_keeps_idle.
Qed.

(** X17. [reflow] touches nothing but the stores the component holds:
    every other store keeps its contents, and width and scroll position
    stay as they were.  After it every item of the props counts as
    pending again: [hasPendingMeasurements] is true unless there are no
    items. *)
Theorem reflow_keeps_the_rest dom sys :
  let sys' := reflow dom sys in
  (∀ r, r ≠ s_measurementStore (state (this sys)) →
        measurementStore (props (this sys)) ≠ Some r →
        measurementsAt (heap sys') r = measurementsAt (heap sys) r)
  ∧ (∀ r, r ≠ i_positionStore (this sys) →
          positionsAt (heap sys') r = positionsAt (heap sys) r)
  ∧ s_width (state (this sys')) = s_width (state (this sys))
  ∧ s_scrollTop (state (this sys')) = s_scrollTop (state (this sys))
  ∧ s_items (state (this sys')) = items (props (this sys))
  ∧ s_hasPendingMeasurements (state (this sys'))
    = negb (bool_decide (items (props (this sys)) = [])).
Proof.
  intros sys'. subst sys'.
  assert (Hm : ∀ r, r ≠ s_measurementStore (state (this sys)) →
            measurementStore (props (this sys)) ≠ Some r →
            measurementsAt (heap (reflow dom sys)) r = measurementsAt (heap sys) r).
  { intros r Hr Hp. rewrite StoreFacts.reflow_heap.
    unfold resetPositions. rewrite StoreFacts.measurementsAt_writePositions.
    unfold resetMeasurements at 1. rewrite StoreFacts.measurementsAt_write.
    case_decide; [congruence|].
    destruct (measurementStore (props (this sys))) as [r0|]; [|done].
    unfold resetMeasurements. rewrite StoreFacts.measurementsAt_write.
    case_decide; [congruence | done]. }
  assert (Hp : ∀ r, r ≠ i_positionStore (this sys) →
            positionsAt (heap (reflow dom sys)) r = positionsAt (heap sys) r).
  { intros r Hr. rewrite StoreFacts.reflow_heap.
    unfold resetPositions. rewrite StoreFacts.positionsAt_write.
    case_decide; [congruence|].
    unfold resetMeasurements. rewrite StoreFacts.positionsAt_writeMeasurements.
    destruct (measurementStore (props (this sys))) as [r0|]; [|done].
    by rewrite StoreFacts.positionsAt_writeMeasurements. }
  split_and!; [exact Hm | exact Hp | | | |].
  all: unfold reflow, forceUpdate;
    match goal with
    | |- context [deriveState ?s] =>
        destruct (deriveState_fields s)
          as (_ & Hprops & Hstore & Hw & Ht & Hi & Hpend & _)
    end;
    destruct (StoreFacts.measureContainer_frame dom (this sys))
      as (Hmp & Hms & _);
    simpl in *.
  - by rewrite Hw, Hms.
  - by rewrite Ht, Hms.
  - by rewrite Hi, Hmp.
  - rewrite Hpend, Hmp, Hms. unfold resetPositions.
    rewrite StoreFacts.measurementsAt_writePositions.
    rewrite StoreFacts.measurementsAt_reset_same.
    destruct (items (props (this sys))) as [| it its]; [done|].
    simpl. by rewrite StoreFacts.has_empty.
Qed.

Section WithImports.
Context `{!Imports}.

(** X18. The [FetchItems] child is rendered only when the
    [ScrollContainer] ref is set, and it is told that a fetch is under
    way as long as some item of the props has no measurement: it reports
    no fetch only when [isFetching] is false and every item of the props,
    truthy or not, has an entry in the measurement store. *)
Theorem fetch_child_waits_for_measurements isRtl sys w g :
  let sys1 := deriveState sys in
  let ms := measurementsAt (heap sys) (s_measurementStore (state (this sys))) in
  s_width (state (this sys)) = Some w →
  (render isRtl sys1).2 = Some (FullLayout g) →
  (g_fetchItems g = None ↔ i_scrollContainer (this sys) = None)
  ∧ ∀ f, g_fetchItems g = Some f →
      (f_isFetching f = false
       ↔ s_isFetching (state (this sys1)) = false
         ∧ ∀ it, it ∈ items (props (this sys)) → Cache.has ms it = true).
Proof.
  intros sys1 ms Hw Hr.
  destruct (deriveState_fields sys)
    as (Hheap & Hprops & Hstore & Hw1 & _ & _ & Hpend & _ & _ & _ & _ & Hsc & _).
  fold sys1 in Hheap, Hprops, Hstore, Hw1, Hpend, Hsc.
  rewrite Hw in Hw1.
  destruct (RenderMore.render_grid isRtl sys1 w g Hw1 Hr)
    as (_ & _ & _ & _ & Hf).
  rewrite Hsc in Hf. rewrite Hf.
  destruct (i_scrollContainer (this sys)) as [sc|].
  - rewrite (bool_decide_eq_true_2 (is_Some (Some sc))) by by eexists.
    split; [done|]. intros f Hsome. apply (inj Some) in Hsome.
    rewrite <- Hsome. cbn [f_isFetching].
    rewrite orb_false_iff, Hpend. fold ms.
    split; intros [Hfetch Hall]; (split; [done|]).
    + intros it Hin.
      destruct (Cache.has ms it) eqn:Hhas; [done|].
      assert (Hex : existsb (λ it, negb (Cache.has ms it))
                      (items (props (this sys))) = true).
      { apply existsb_exists. exists it. split.
        - by apply list_elem_of_In.
        - by rewrite Hhas. }
      congruence.
    + apply not_true_is_false. intros Hex.
      apply existsb_exists in Hex as (it & Hin & Hno).
      apply list_elem_of_In in Hin. by rewrite (Hall it Hin) in Hno.
  - rewrite (bool_decide_eq_false_2 (is_Some None)) by by intros [? ?].
    split; [done|]. by intros f.
Qed.

Lemma render_unsized isRtl sys :
  s_width (state (this sys)) = None → (render isRtl sys).1 = sys.
Proof.
  intros Hw. unfold render. rewrite Hw.
  by destruct (s_hasPendingMeasurements (state (this sys))).
Qed.

(** The component and the heap that [componentDidMount] finds. *)
Lemma before_mount isRtl clientHeight p h :
  let c := constructor p h in
  let s0 := deriveState c in
  let s1 := commitMeasurements clientHeight (render isRtl s0).1 in
  let r := s_measurementStore (state (this c)) in
  this s1 = this s0
  ∧ positions (heap s1) = positions (heap c)
  ∧ props (this s0) = p
  ∧ s_measurementStore (state (this s0)) = r
  ∧ s_width (state (this s0)) = None
  ∧ s_scrollTop (state (this s0)) = 0%Q
  ∧ s_isFetching (state (this s0)) = false
  ∧ containerHeight (this s0) = 0%Q
  ∧ containerOffset (this s0) = 0%Q
  ∧ heap s1
    = (if existsb (λ it, negb (Cache.has (measurementsAt (heap c) r) it)) (items p)
       then match layout p with
            | flexible => heap c
            | _ =>
                writeMeasurements r
                  (measureNodes clientHeight 0 (List.filter truthy (items p))
                     (measurementsAt (heap c) r))
                  (heap c)
            end
       else heap c).
Proof.
  intros c s0 s1 r.
  assert (Hc : props (this c) = p ∧ s_width (state (this c)) = None
               ∧ s_scrollTop (state (this c)) = 0%Q
               ∧ s_isFetching (state (this c)) = false
               ∧ containerHeight (this c) = 0%Q
               ∧ containerOffset (this c) = 0%Q).
  { subst c. unfold constructor.
    by destruct (measurementStore p), (positionStore p). }
  destruct Hc as (Hcp & Hcw & Hct & Hcf & Hch & Hco).
  destruct (deriveState_fields c)
    as (Hheap & Hprops & Hstore & Hw & Ht & _ & Hpend & Hf & Hh & Ho & _).
  fold s0 in Hheap, Hprops, Hstore, Hw, Ht, Hpend, Hf, Hh, Ho.
  fold r in Hstore, Hpend.
  rewrite Hcp in Hprops, Hpend. rewrite Hcw in Hw. rewrite Hct in Ht.
  rewrite Hch in Hh. rewrite Hco in Ho. specialize (Hf Hcf).
  assert (Hs1 : s1 = commitMeasurements clientHeight s0).
  { subst s1. by rewrite render_unsized. }
  destruct (MeasuringMore.commitMeasurements_this clientHeight s0)
    as (Hthis & _ & Hpos).
  rewrite <- Hs1 in Hthis, Hpos.
  split_and!; try done; try (by rewrite Hpos, Hheap).
  rewrite Hs1. unfold commitMeasurements.
  rewrite Hw, Hpend, Hprops, Hstore, Hheap.
  destruct (existsb _ _); [|done]. by destruct (layout p).
Qed.

Lemma scrollContainerRef_mounted p i :
  scrollContainerRef (setScrollContainerRef (mountedScrollContainer p) i)
  = scrollContainer p.
Proof.
  unfold scrollContainerRef, mountedScrollContainer. simpl.
  by destruct (scrollContainer p).
Qed.

Lemma measureContainer_fields dom i :
  let i' := measureContainer dom i in
  props i' = props i
  ∧ state i' = state i
  ∧ i_gridWrapper i' = i_gridWrapper i
  ∧ i_scrollContainer i' = i_scrollContainer i
  ∧ scrollContainerRef i' = scrollContainerRef i
  ∧ containerHeight i'
    = match scrollContainerRef i with
      | Some e => getElementHeight dom e
      | None => containerHeight i
      end
  ∧ containerOffset i'
    = match scrollContainerRef i, i_gridWrapper i with
      | Some e, Some el =>
          (boundingClientRectTop dom el + getRelativeScrollTop dom e)%Q
      | _, _ => containerOffset i
      end.
Proof.
  unfold measureContainer.
  destruct (scrollContainerRef i) as [e|] eqn:Hsc.
  - destruct (i_gridWrapper i) eqn:Hg; (split_and!; try done);
      first [exact Hsc | exact Hg].
  - by rewrite Hsc.
Qed.

(** The component that [componentDidMount] leaves. *)
Lemma componentDidMount_fields dom sys :
  let i := this sys in
  let sys' := componentDidMount dom sys in
  heap sys' = heap sys
  ∧ props (this sys') = props i
  ∧ s_measurementStore (state (this sys')) = s_measurementStore (state i)
  ∧ s_width (state (this sys'))
    = match i_gridWrapper i with
      | Some el => Some (clientWidth dom el)
      | None => s_width (state i)
      end
  ∧ s_items (state (this sys')) = items (props i)
  ∧ (s_isFetching (state i) = false → s_isFetching (state (this sys')) = false)
  ∧ s_hasPendingMeasurements (state (this sys'))
    = existsb
        (λ it, negb (Cache.has
                       (measurementsAt (heap sys)
                          (s_measurementStore (state i))) it))
        (items (props i))
  ∧ i_gridWrapper (this sys') = i_gridWrapper i
  ∧ i_scrollContainer (this sys') = i_scrollContainer i
  ∧ s_scrollTop (state (this sys'))
    = match scrollContainerRef i with
      | Some e => getScrollPos dom e
      | None => s_scrollTop (state i)
      end
  ∧ containerHeight (this sys')
    = match scrollContainerRef i with
      | Some e => getElementHeight dom e
      | None => containerHeight i
      end
  ∧ containerOffset (this sys')
    = match scrollContainerRef i, i_gridWrapper i with
      | Some e, Some el =>
          (boundingClientRectTop dom el + getRelativeScrollTop dom e)%Q
      | _, _ => containerOffset i
      end.
Proof.
  intros i sys'. subst sys'. unfold componentDidMount, setState.
  match goal with
  | |- context [deriveState ?s] =>
      destruct (deriveState_fields s)
        as (-> & -> & -> & -> & -> & -> & -> & Hd8 & -> & -> & -> & -> & _)
  end.
  subst i. cbn [this heap state props with_this with_state].
  destruct (measureContainer_fields dom (this sys))
    as (Hp & Hs & Hg & Hc & Hr & Hh & Ho).
  split_and!; try (intros Hidle; apply Hd8);
    cbn -[measurementsAt existsb measureContainer];
    rewrite ?Hr, ?Hp, ?Hs, ?Hg, ?Hc, ?Hh, ?Ho; done.
Qed.

(** [componentDidMount] on a component whose refs have just been set. *)
Lemma didMount_after_refs wrapper dom p (s1 : Sys) :
  props (this s1) = p →
  s_scrollTop (state (this s1)) = 0%Q →
  s_isFetching (state (this s1)) = false →
  containerHeight (this s1) = 0%Q →
  containerOffset (this s1) = 0%Q →
  let sys :=
    componentDidMount dom
      (with_this
         (setScrollContainerRef (mountedScrollContainer p)
            (setGridWrapperRef (Some wrapper) (this s1))) s1) in
  heap sys = heap s1
  ∧ props (this sys) = p
  ∧ s_measurementStore (state (this sys)) = s_measurementStore (state (this s1))
  ∧ s_width (state (this sys)) = Some (clientWidth dom wrapper)
  ∧ s_items (state (this sys)) = items p
  ∧ s_isFetching (state (this sys)) = false
  ∧ s_hasPendingMeasurements (state (this sys))
    = existsb
        (λ it, negb (Cache.has
                       (measurementsAt (heap s1)
                          (s_measurementStore (state (this s1)))) it))
        (items p)
  ∧ i_gridWrapper (this sys) = Some wrapper
  ∧ i_scrollContainer (this sys) = mountedScrollContainer p
  ∧ s_scrollTop (state (this sys))
    = match scrollContainer p with
      | Some e => getScrollPos dom e
      | None => 0%Q
      end
  ∧ containerHeight (this sys)
    = match scrollContainer p with
      | Some e => getElementHeight dom e
      | None => 0%Q
      end
  ∧ containerOffset (this sys)
    = match scrollContainer p with
      | Some e => (boundingClientRectTop dom wrapper + getRelativeScrollTop dom e)%Q
      | None => 0%Q
      end.
Proof.
  intros Hp Ht Hf Hh Ho sys. subst sys.
  match goal with
  | |- context [componentDidMount dom ?s] =>
      destruct (componentDidMount_fields dom s)
        as (-> & -> & -> & -> & -> & Hd & -> & -> & -> & -> & -> & ->)
  end.
  cbn [this with_this heap].
  rewrite scrollContainerRef_mounted.
  split_and!; try apply Hd;
    cbn -[measurementsAt existsb]; rewrite ?Hp, ?Ht, ?Hh, ?Ho, ?Hf;
    try done; by destruct (scrollContainer p).
Qed.

(** The component that [mount] returns, field by field. *)
Lemma mount_fields isRtl wrapper dom clientHeight p h :
  let c := constructor p h in
  let s1 := commitMeasurements clientHeight (render isRtl (deriveState c)).1 in
  let sys := mount isRtl wrapper dom clientHeight p h in
  heap sys = heap s1
  ∧ props (this sys) = p
  ∧ s_measurementStore (state (this sys)) = s_measurementStore (state (this c))
  ∧ s_width (state (this sys)) = Some (clientWidth dom wrapper)
  ∧ s_items (state (this sys)) = items p
  ∧ s_isFetching (state (this sys)) = false
  ∧ s_hasPendingMeasurements (state (this sys))
    = existsb
        (λ it, negb (Cache.has
                       (measurementsAt (heap s1)
                          (s_measurementStore (state (this c)))) it))
        (items p)
  ∧ i_gridWrapper (this sys) = Some wrapper
  ∧ i_scrollContainer (this sys) = mountedScrollContainer p
  ∧ s_scrollTop (state (this sys))
    = match scrollContainer p with
      | Some e => getScrollPos dom e
      | None => 0%Q
      end
  ∧ containerHeight (this sys)
    = match scrollContainer p with
      | Some e => getElementHeight dom e
      | None => 0%Q
      end
  ∧ containerOffset (this sys)
    = match scrollContainer p with
      | Some e => (boundingClientRectTop dom wrapper + getRelativeScrollTop dom e)%Q
      | None => 0%Q
      end.
Proof.
  pose proof (before_mount isRtl clientHeight p h) as Hb.
  cbv zeta in *.
  destruct Hb as (Hthis & _ & Hp & Hr & _ & Ht & Hf & Hh & Ho & _).
  rewrite <- Hthis in Hp, Hr, Ht, Hf, Hh, Ho.
  rewrite <- Hr.
  exact (didMount_after_refs wrapper dom p _ Hp Ht Hf Hh Ho).
Qed.


(** X20. Unless the layout is 'flexible', a grid comes out of mounting
    with every truthy item of its props measured: when an item had no
    measurement, the statically rendered items of the first render were
    measured.  With the 'flexible' layout mounting measures nothing: the
    stores are as the constructor left them. *)
Theorem mount_measures_the_static_render isRtl wrapper dom clientHeight p h :
  let sys := mount isRtl wrapper dom clientHeight p h in
  (layout p ≠ flexible → pendingOf sys = [])
  ∧ (layout p = flexible → heap sys = heap (constructor p h)).
Proof.
  pose proof (mount_fields isRtl wrapper dom clientHeight p h) as Hm.
  pose proof (before_mount isRtl clientHeight p h) as Hb.
  cbv zeta in *. unfold pendingOf.
  set (c := constructor p h) in *.
  set (s0 := deriveState c) in *.
  set (s1 := commitMeasurements clientHeight (render isRtl s0).1) in *.
  set (sys := mount isRtl wrapper dom clientHeight p h) in *.
  set (r := s_measurementStore (state (this c))) in *.
  clearbody sys s1 s0 r c.
  destruct Hm as (Hheap & Hp & Hr & _).
  destruct Hb as (_ & _ & _ & _ & _ & _ & _ & _ & _ & Hh1).
  rewrite <- Hheap in Hh1. clear Hheap.
  split.
  - intros Hl. rewrite Hp, Hr.
    apply StableMore.no_truthy_pending. intros it Hin Ht.
    rewrite Hh1.
    destruct (existsb _ _) eqn:Hex.
    + assert (Hin' : it ∈ List.filter truthy (items p)).
      { apply list_elem_of_In, filter_In. split; [by apply list_elem_of_In | done]. }
      destruct (layout p); try done;
        rewrite StoreFacts.measurementsAt_write;
        (case_decide; [|done]);
        rewrite MeasuringMore.measureNodes_has;
        apply orb_true_iff; right; by apply bool_decide_eq_true_2.
    + destruct (Cache.has _ it) eqn:Hhas; [done|].
      assert (existsb (λ it, negb (Cache.has (measurementsAt (heap c) r) it))
                (items p) = true); [|congruence].
      apply existsb_exists. exists it. split.
      * by apply list_elem_of_In.
      * by rewrite Hhas.
  - intros Hl. rewrite Hh1, Hl. by destruct (existsb _ _).
Qed.

(** X21. Measurements the caller supplies are kept: when the store given
    in the props has an entry for every item, mounting writes to no
    measurement store, no measurement is pending afterwards, and the
    items to position are the truthy items of the props. *)
Theorem mount_keeps_supplied_measurements isRtl wrapper dom clientHeight p h r :
  measurementStore p = Some r →
  (∀ it, it ∈ items p → Cache.has (measurementsAt h r) it = true) →
  let sys := mount isRtl wrapper dom clientHeight p h in
  s_measurementStore (state (this sys)) = r
  ∧ measurements (heap sys) = measurements h
  ∧ s_hasPendingMeasurements (state (this sys)) = false
  ∧ itemsToRender (measurementsAt (heap sys) r) (items p)
    = List.filter truthy (items p).
Proof.
  intros Hstore Hall.
  pose proof (mount_fields isRtl wrapper dom clientHeight p h) as Hm.
  pose proof (before_mount isRtl clientHeight p h) as Hb.
  assert (Hc : s_measurementStore (state (this (constructor p h))) = r
               ∧ measurements (heap (constructor p h)) = measurements h).
  { unfold constructor. rewrite Hstore. by destruct (positionStore p). }
  cbv zeta in *.
  set (c := constructor p h) in *.
  set (s0 := deriveState c) in *.
  set (s1 := commitMeasurements clientHeight (render isRtl s0).1) in *.
  set (sys := mount isRtl wrapper dom clientHeight p h) in *.
  clearbody sys s1 s0 c.
  destruct Hm as (Hheap & _ & Hr & _ & _ & _ & Hpend & _).
  destruct Hb as (_ & _ & _ & _ & _ & _ & _ & _ & _ & Hh1).
  destruct Hc as [Hcr Hcm].
  assert (Hat : measurementsAt (heap c) r = measurementsAt h r).
  { unfold measurementsAt. by rewrite Hcm. }
  assert (Hnone : existsb (λ it, negb (Cache.has (measurementsAt h r) it))
                    (items p) = false).
  { apply not_true_is_false. intros Hex.
    apply existsb_exists in Hex as (it & Hin & Hno).
    apply list_elem_of_In in Hin. by rewrite (Hall it Hin) in Hno. }
  rewrite Hcr, Hat, Hnone in Hh1. rewrite <- Hheap in Hh1.
  rewrite Hcr in Hr, Hpend. rewrite <- Hheap, Hh1, Hat in Hpend.
  split_and!; [done | by rewrite Hh1 | by rewrite Hpend |].
  rewrite Hh1, Hat. unfold itemsToRender. apply filter_ext_in.
  intros it Hin. apply list_elem_of_In in Hin.
  by rewrite (Hall it Hin), andb_true_r.
Qed.

End WithImports.

Lemma fetch_child_waits_for_measurements_witness :
  ∃ g f,
    (render (H := Examples.specImports) false
       (deriveState MoreExamples.mounted)).2 = Some (FullLayout g)
    ∧ g_fetchItems g = Some f
    ∧ f_isFetching f = false.
Proof.
  assert (Hr : ∃ g, (render (H := Examples.specImports) false
                       (deriveState MoreExamples.mounted)).2
                    = Some (FullLayout g))
    by (vm_compute; eexists; reflexivity).
  destruct Hr as [g Hr].
  assert (Hw : s_width (state (this MoreExamples.mounted)) = Some 900%Q)
    by (vm_compute; reflexivity).
  assert (Hsc : i_scrollContainer (this MoreExamples.mounted) ≠ None)
    by (vm_compute; discriminate).
  assert (Hidle : s_isFetching (state (this (deriveState MoreExamples.mounted)))
                  = false) by (vm_compute; reflexivity).
  assert (Hall : ∀ it, it ∈ items (props (this MoreExamples.mounted)) →
            Cache.has
              (measurementsAt (heap MoreExamples.mounted)
                 (s_measurementStore (state (this MoreExamples.mounted)))) it
            = true).
  { assert (Hfa : forallb
                    (Cache.has
                       (measurementsAt (heap MoreExamples.mounted)
                          (s_measurementStore
                             (state (this MoreExamples.mounted)))))
                    (items (props (this MoreExamples.mounted))) = true)
      by (vm_compute; reflexivity).
    intros it Hin. apply list_elem_of_In in Hin.
    exact (proj1 (forallb_forall _ _) Hfa it Hin). }
  pose proof (fetch_child_waits_for_measurements (H := Examples.specImports)
                false MoreExamples.mounted 900%Q g Hw Hr) as [Hnone Hiff].
  destruct (g_fetchItems g) as [f|] eqn:Hf.
  - exists g, f. split; [exact Hr|]. split; [exact Hf|].
    apply (proj2 (Hiff f eq_refl)). split; [exact Hidle | exact Hall].
  - destruct (Hsc (proj1 Hnone eq_refl)).
Defined.

Lemma mount_measures_the_static_render_witness :
  pendingOf MoreExamples.mounted = [].
Proof.
  apply (mount_measures_the_static_render (H := Examples.specImports) false
           3%positive MoreExamples.page (λ _, 120%Q) MoreExamples.scrolledProps
           MoreExamples.emptyHeap).
  by vm_compute.
Defined.

Lemma mount_keeps_supplied_measurements_witness :
  s_hasPendingMeasurements
    (state (this (mount (H := Examples.specImports) false 3%positive
                    MoreExamples.page (λ _, 120%Q) MoreExamples.suppliedProps
                    (heap MoreExamples.stable)))) = false.
Proof.
  assert (Hall : ∀ it, it ∈ items MoreExamples.suppliedProps →
            Cache.has (measurementsAt (heap MoreExamples.stable) 1%positive) it
            = true).
  { assert (Hfa : forallb
                    (Cache.has
                       (measurementsAt (heap MoreExamples.stable) 1%positive))
                    (items MoreExamples.suppliedProps) = true)
      by (vm_compute; reflexivity).
    intros it Hin. apply list_elem_of_In in Hin.
    exact (proj1 (forallb_forall _ _) Hfa it Hin). }
  pose proof (mount_keeps_supplied_measurements (H := Examples.specImports)
                false 3%positive MoreExamples.page (λ _, 120%Q)
                MoreExamples.suppliedProps (heap MoreExamples.stable)
                1%positive eq_refl Hall) as (_ & _ & Hflag & _).
  exact Hflag.
Defined.

End MountMore.
